(** * CITARION: indicator calculator, market forecast, strategy manager
      and paper-trading engine

    A shallow embedding of four TypeScript sources of the repository:

    - the indicator calculator and the list of built-in indicators
      ([calculateIndicator], [BUILTIN_INDICATORS]),
    - the market forecast service ([generateForecast]),
    - the strategy manager ([StrategyManager], [getStrategyManager]),
    - the paper-trading engine ([PaperTradingEngine]) and its types,

    followed by the properties the specification states about them.

    JavaScript numbers are kept abstract behind the class [JsNumber]; the
    code is embedded once, generically, and read at two instances:
    IEEE-754 binary64 ([float], what the program runs on) and exact
    rationals ([Q], the arithmetic the formulas are written in). *)

From Stdlib Require Import ZArith QArith Qabs Qminmax Qround Lia Lqa.
From Stdlib Require Import Floats Uint63 List String.
From stdpp Require Import base option list gmap strings pretty.
Import ListNotations.

Local Open Scope Z_scope.

(** ** JavaScript numbers *)

Module JsNum.

(** The operations on [number] the sources use.  [nan] is the value that
    [undefined] coerces to in arithmetic (and the result of [0 / 0]). *)
Class JsNumber (N : Type) := {
  ofZ : Z -> N;
  nan : N;
  nadd : N -> N -> N;
  nsub : N -> N -> N;
  nmul : N -> N -> N;
  ndiv : N -> N -> N;
  nlt : N -> N -> bool;
  nle : N -> N -> bool;
  neq : N -> N -> bool;
  nabs : N -> N;
  nmax : N -> N -> N;
  nround : N -> N;
  isNaN : N -> bool;
  isFinite : N -> bool
}.

(** [Math.sqrt]; kept apart because the exact instance has none. *)
Class JsSqrt (N : Type) := { nsqrt : N -> N }.

Section Derived.
Context {N : Type} `{JsNumber N}.

(** [a > b] and [a >= b]. *)
Definition ngt (a b : N) : bool := nlt b a.
Definition nge (a b : N) : bool := nle b a.

(** A decimal literal [m / 10^e], e.g. [0.20] is [dec 20 2]. *)
Definition dec (m : Z) (e : nat) : N := ndiv (ofZ m) (ofZ (10 ^ Z.of_nat e)).

(** Truthiness of a number: everything but [0], [-0] and [NaN]. *)
Definition truthy (x : N) : bool := negb (neq x (ofZ 0) || isNaN x).

(** [Math.pow(x, 2)]. *)
Definition pow2 (x : N) : N := nmul x x.

(** [a.reduce((s, x) => s + x, 0)]. *)
Definition sumN (l : list N) : N := fold_left nadd l (ofZ 0).
End Derived.

(** *** Exact rationals

    No rounding, no overflow, no [NaN]: [isNaN] is constantly [false] and
    [x / 0] follows [Qdiv].  This instance is read only in statements
    whose hypotheses keep the code away from a division by zero and from
    reads of [undefined]. *)
#[export] Instance Q_JsNumber : JsNumber Q := {|
  ofZ := inject_Z;
  nan := 0%Q;
  nadd := Qplus;
  nsub := Qminus;
  nmul := Qmult;
  ndiv := Qdiv;
  nlt := fun a b => negb (Qle_bool b a);
  nle := Qle_bool;
  neq := Qeq_bool;
  nabs := Qabs;
  nmax := Qmax;
  nround := fun x => inject_Z (Qfloor (x + (1 # 2)));
  isNaN := fun _ => false;
  isFinite := fun _ => true
|}.

(** *** IEEE-754 binary64 *)

Definition f_ofZ (z : Z) : float :=
  if 0 <=? z then PrimFloat.of_uint63 (Uint63.of_Z z)
  else PrimFloat.opp (PrimFloat.of_uint63 (Uint63.of_Z (- z))).

(** [Math.max(a, b)]: [NaN] if either is, and [+0] above [-0]. *)
Definition f_max (a b : float) : float :=
  if PrimFloat.is_nan a || PrimFloat.is_nan b then PrimFloat.nan
  else if PrimFloat.ltb a b then b
  else if PrimFloat.ltb b a then a
  else if PrimFloat.eqb a PrimFloat.zero then PrimFloat.add a b
  else a.

(** [Math.round(x)]: the integer nearest to [x], ties towards [+Infinity];
    [NaN], infinities, zeros and integers are returned unchanged. *)
Definition f_round (x : float) : float :=
  match Prim2SF x with
  | S754_finite s m e =>
      if 0 <=? e then x
      else
        let k := - e in
        let n := if s then (2 ^ k - 2 * Z.pos m) / 2 ^ (k + 1)
                 else (2 * Z.pos m + 2 ^ k) / 2 ^ (k + 1) in
        if n =? 0 then (if s then PrimFloat.neg_zero else PrimFloat.zero)
        else f_ofZ n
  | _ => x
  end.

#[export] Instance float_JsNumber : JsNumber float := {|
  ofZ := f_ofZ;
  nan := PrimFloat.nan;
  nadd := PrimFloat.add;
  nsub := PrimFloat.sub;
  nmul := PrimFloat.mul;
  ndiv := PrimFloat.div;
  nlt := PrimFloat.ltb;
  nle := PrimFloat.leb;
  neq := PrimFloat.eqb;
  nabs := PrimFloat.abs;
  nmax := f_max;
  nround := f_round;
  isNaN := PrimFloat.is_nan;
  isFinite := PrimFloat.is_finite
|}.

#[export] Instance float_JsSqrt : JsSqrt float := {| nsqrt := PrimFloat.sqrt |}.

End JsNum.
Import JsNum.

(** ** Loops and arrays *)

Section Arrays.
Context {A : Type}.

(** The indices [lo, lo+1, ..., hi-1]. *)
Definition zrange (lo hi : Z) : list Z :=
  map (fun k => lo + Z.of_nat k) (seq 0 (Z.to_nat (hi - lo))).

(** [for (let i = lo; i < hi; i++) s = body(i, s)]. *)
Definition for_loop {S : Type} (lo hi : Z) (body : Z -> S -> S) (s : S) : S :=
  fold_left (fun s i => body i s) (zrange lo hi) s.

(** [arr[i]]; [None] is [undefined]. *)
Definition getIdx (arr : list A) (i : Z) : option A :=
  if i <? 0 then None else nth_error arr (Z.to_nat i).

(** [arr[i] = v] on an array of nullable entries.  A negative index
    sets a property and leaves the elements alone; an index past the
    end extends the array. *)
Definition arrSet (i : Z) (v : option A) (arr : list (option A))
  : list (option A) :=
  if i <? 0 then arr
  else if i <? Z.of_nat (length arr) then <[Z.to_nat i := v]> arr
  else arr ++ repeat None (Z.to_nat i - length arr) ++ [v].

(** [arr.slice(s, e)], negative indices counting from the end. *)
Definition jsSlice (arr : list A) (s e : Z) : list A :=
  let n := Z.of_nat (length arr) in
  let norm k := if k <? 0 then Z.max (n + k) 0 else Z.min k n in
  let s' := norm s in
  let e' := norm e in
  firstn (Z.to_nat (e' - s')) (skipn (Z.to_nat s') arr).
End Arrays.

(** [data[i]] used as a number. *)
Definition getNum {N} `{JsNumber N} (data : list N) (i : Z) : N :=
  match getIdx data i with Some x => x | None => nan end.

(** ** Built-in indicators ([builtin.ts]) *)

Module Builtin.

Record BuiltInIndicator := {
  id : string;
  name : string;
  category : string;
  overlay : bool
}.

Definition BUILTIN_INDICATORS : list BuiltInIndicator := [
  {| id := "sma"; name := "Simple Moving Average";
     category := "moving_average"; overlay := true |};
  {| id := "ema"; name := "Exponential Moving Average";
     category := "moving_average"; overlay := true |};
  {| id := "ema_cross"; name := "EMA Cross";
     category := "moving_average"; overlay := true |};
  {| id := "rsi"; name := "Relative Strength Index";
     category := "oscillator"; overlay := false |};
  {| id := "macd"; name := "MACD";
     category := "oscillator"; overlay := false |};
  {| id := "bb"; name := "Bollinger Bands";
     category := "volatility"; overlay := true |};
  {| id := "atr"; name := "Average True Range";
     category := "volatility"; overlay := false |};
  {| id := "vol_sma"; name := "Volume SMA";
     category := "volume"; overlay := false |}
]%string.

End Builtin.

(** ** Indicator calculator ([calculator.ts]) *)

Module IndicatorCalculator.
Import Builtin.

(** [Time] of lightweight-charts, as a UTC timestamp. *)
Definition Time := Z.

Section Calculator.
Context {N : Type} `{JsNumber N}.

Record Candle := {
  time : Time;
  open : N;
  high : N;
  low : N;
  close : N;
  volume : N
}.

(** [LineData | HistogramData | WhitespaceData]. *)
Inductive ChartPoint :=
| Whitespace (t : Time)
| LinePoint (t : Time) (value : N)
| HistPoint (t : Time) (value : N) (color : string).

Definition pointTime (p : ChartPoint) : Time :=
  match p with
  | Whitespace t | LinePoint t _ | HistPoint t _ _ => t
  end.

Record Series := {
  s_name : string;
  s_data : list ChartPoint;
  s_color : string
}.

Record IndicatorResult := {
  r_id : string;
  r_overlay : bool;
  lines : list Series;
  histograms : list Series
}.

(** The [inputs] record.  Every key the calculators read is present,
    the lengths being integers as [inputSchema] types them. *)
Record Inputs := {
  i_length : Z;
  i_fastLength : Z;
  i_slowLength : Z;
  i_signalLength : Z;
  i_mult : N
}.

(** *** Helper functions *)

Definition sma (data : list N) (period : Z) : list (option N) :=
  let n := Z.of_nat (length data) in
  for_loop (period - 1) n
    (fun i result =>
       let sum := for_loop 0 period
                    (fun j sum => nadd sum (getNum data (i - j))) (ofZ 0) in
       arrSet i (Some (ndiv sum (ofZ period))) result)
    (repeat None (length data)).

Definition ema (data : list N) (period : Z) : list (option N) :=
  let n := Z.of_nat (length data) in
  let result := repeat None (length data) in
  let multiplier := ndiv (ofZ 2) (ofZ (period + 1)) in
  let sum := for_loop 0 (Z.min period n)
               (fun i sum => nadd sum (getNum data i)) (ofZ 0) in
  if period <=? n then
    let first := ndiv sum (ofZ period) in
    let result := arrSet (period - 1) (Some first) result in
    snd (for_loop period n
           (fun i '(prevEma, result) =>
              let currentEma :=
                nadd (nmul (nsub (getNum data i) prevEma) multiplier) prevEma in
              (currentEma, arrSet i (Some currentEma) result))
           (first, result))
  else result.

(** [avgLoss === 0 ? 100 : 100 - 100 / (1 + avgGain / avgLoss)]. *)
Definition rsiValue (avgGain avgLoss : N) : N :=
  if neq avgLoss (ofZ 0) then ofZ 100
  else nsub (ofZ 100) (ndiv (ofZ 100) (nadd (ofZ 1) (ndiv avgGain avgLoss))).

Definition rsi (closes : list N) (period : Z) : list (option N) :=
  let n := Z.of_nat (length closes) in
  let result := repeat None (length closes) in
  if n <? period + 1 then result
  else
    let changes :=
      map (fun i => nsub (getNum closes i) (getNum closes (i - 1)))
          (zrange 1 n) in
    let '(avgGain, avgLoss) :=
      for_loop 0 period
        (fun i '(avgGain, avgLoss) =>
           let c := getNum changes i in
           if ngt c (ofZ 0) then (nadd avgGain c, avgLoss)
           else (avgGain, nadd avgLoss (nabs c)))
        (ofZ 0, ofZ 0) in
    let avgGain := ndiv avgGain (ofZ period) in
    let avgLoss := ndiv avgLoss (ofZ period) in
    let result := arrSet period (Some (rsiValue avgGain avgLoss)) result in
    snd (for_loop period (Z.of_nat (length changes))
           (fun i '(avgGain, avgLoss, result) =>
              let change := getNum changes i in
              let gain := if ngt change (ofZ 0) then change else ofZ 0 in
              let loss := if nlt change (ofZ 0) then nabs change else ofZ 0 in
              let avgGain :=
                ndiv (nadd (nmul avgGain (ofZ (period - 1))) gain) (ofZ period) in
              let avgLoss :=
                ndiv (nadd (nmul avgLoss (ofZ (period - 1))) loss) (ofZ period) in
              (avgGain, avgLoss,
               arrSet (i + 1) (Some (rsiValue avgGain avgLoss)) result))
           (avgGain, avgLoss, result)).

Definition stdev `{JsSqrt N} (data : list N) (period : Z) : list (option N) :=
  let n := Z.of_nat (length data) in
  for_loop (period - 1) n
    (fun i result =>
       let slice := jsSlice data (i - period + 1) (i + 1) in
       let mean := ndiv (sumN slice) (ofZ period) in
       let squaredDiffs := map (fun v => pow2 (nsub v mean)) slice in
       let variance := ndiv (sumN squaredDiffs) (ofZ period) in
       arrSet i (Some (nsqrt variance)) result)
    (repeat None (length data)).

(** The true range of candle [i]. *)
Definition trueRange (candles : list Candle) (i : Z) : N :=
  match getIdx candles i with
  | None => nan
  | Some c =>
      if i =? 0 then nsub (high c) (low c)
      else
        let prevClose :=
          match getIdx candles (i - 1) with
          | Some p => close p
          | None => nan
          end in
        nmax (nmax (nsub (high c) (low c))
                   (nabs (nsub (high c) prevClose)))
             (nabs (nsub (low c) prevClose))
  end.

(** [result[i - 1]] is the value the previous step stored, carried
    here as [prev]. *)
Definition atr (candles : list Candle) (period : Z) : list (option N) :=
  let n := Z.of_nat (length candles) in
  let result := repeat None (length candles) in
  let trValues := map (trueRange candles) (zrange 0 n) in
  if period <=? Z.of_nat (length trValues) then
    let sum := for_loop 0 period
                 (fun i sum => nadd sum (getNum trValues i)) (ofZ 0) in
    let first := ndiv sum (ofZ period) in
    let result := arrSet (period - 1) (Some first) result in
    snd (for_loop period (Z.of_nat (length trValues))
           (fun i '(prev, result) =>
              let v := ndiv (nadd (nmul prev (ofZ (period - 1)))
                                  (getNum trValues i)) (ofZ period) in
              (v, arrSet i (Some v) result))
           (first, result))
  else result.

(** *** Safe data builders *)

(** [value !== null && !isNaN(value) && isFinite(value)], on [values[i]]
    ([None] for [undefined], [Some None] for [null]). *)
Definition validValue (v : option (option N)) : option N :=
  match v with
  | Some (Some x) => if negb (isNaN x) && isFinite x then Some x else None
  | _ => None
  end.

Fixpoint buildLineData (candles : list Candle) (values : list (option N))
  : list ChartPoint :=
  match candles with
  | [] => []
  | c :: cs =>
      match validValue (head values) with
      | Some value => LinePoint (time c) value
      | None => Whitespace (time c)
      end :: buildLineData cs (tail values)
  end.

Fixpoint buildHistogramData (candles : list Candle) (values : list (option N))
    (colorUp colorDown : string) : list ChartPoint :=
  match candles with
  | [] => []
  | c :: cs =>
      match validValue (head values) with
      | Some value =>
          HistPoint (time c) value
            (if nge value (ofZ 0) then colorUp else colorDown)
      | None => Whitespace (time c)
      end :: buildHistogramData cs (tail values) colorUp colorDown
  end.
(** *** Indicator calculators *)

Definition closesOf (candles : list Candle) : list N := map close candles.

Definition calculateSMA (candles : list Candle) (inputs : Inputs)
  : IndicatorResult :=
  let length := i_length inputs in
  let closes := closesOf candles in
  let smaValues := sma closes length in
  {| r_id := "sma"; r_overlay := true;
     lines := [ {| s_name := "sma";
                   s_data := buildLineData candles smaValues;
                   s_color := "#2962FF" |} ];
     histograms := [] |}.

Definition calculateEMA (candles : list Candle) (inputs : Inputs)
  : IndicatorResult :=
  let length := i_length inputs in
  let closes := closesOf candles in
  let emaValues := ema closes length in
  {| r_id := "ema"; r_overlay := true;
     lines := [ {| s_name := "ema";
                   s_data := buildLineData candles emaValues;
                   s_color := "#00C853" |} ];
     histograms := [] |}.

Definition calculateEMACross (candles : list Candle) (inputs : Inputs)
  : IndicatorResult :=
  let fastLength := i_fastLength inputs in
  let slowLength := i_slowLength inputs in
  let closes := closesOf candles in
  let fastEma := ema closes fastLength in
  let slowEma := ema closes slowLength in
  {| r_id := "ema_cross"; r_overlay := true;
     lines := [ {| s_name := "fast"; s_data := buildLineData candles fastEma;
                   s_color := "#00C853" |};
                {| s_name := "slow"; s_data := buildLineData candles slowEma;
                   s_color := "#F6465D" |} ];
     histograms := [] |}.

Definition calculateRSI (candles : list Candle) (inputs : Inputs)
  : IndicatorResult :=
  let length := i_length inputs in
  let closes := closesOf candles in
  let rsiValues := rsi closes length in
  {| r_id := "rsi"; r_overlay := false;
     lines := [ {| s_name := "rsi";
                   s_data := buildLineData candles rsiValues;
                   s_color := "#D500F9" |} ];
     histograms := [] |}.

(** [a[i] === null || b[i] === null ? null : a[i] op b[i]]. *)
Definition nullable2 (op : N -> N -> N) (a b : list (option N)) (i : Z)
  : option N :=
  match getIdx a i, getIdx b i with
  | Some None, _ | _, Some None => None
  | x, y =>
      let num v := match v with Some (Some n) => n | _ => nan end in
      Some (op (num x) (num y))
  end.

(** The MACD line from two EMA arrays. *)
Definition macdLineOf (closes : list N) (fastEma slowEma : list (option N))
  : list (option N) :=
  map (nullable2 nsub fastEma slowEma) (zrange 0 (Z.of_nat (length closes))).

(** The non-null entries, [macdLine.filter(v => v !== null)]. *)
Definition nonNull (l : list (option N)) : list N := omap (fun v => v) l.

(** Map the signal EMA back to the indices where the MACD line is set:
    [signalLine[i] = signalEma[macdIdx] ?? null; macdIdx++]. *)
Definition signalLineOf (candles : list Candle) (macdLine signalEma : list (option N))
  : list (option N) :=
  fst (for_loop 0 (Z.of_nat (length candles))
         (fun i '(signalLine, macdIdx) =>
            match getIdx macdLine i with
            | Some None => (signalLine, macdIdx)
            | _ =>
                (arrSet i (match getIdx signalEma macdIdx with
                           | Some (Some v) => Some v
                           | _ => None
                           end) signalLine,
                 macdIdx + 1)
            end)
         (repeat None (length candles), 0)).

Definition histogramOf (candles : list Candle) (macdLine signalLine : list (option N))
  : list (option N) :=
  map (nullable2 nsub macdLine signalLine)
      (zrange 0 (Z.of_nat (length candles))).

Definition calculateMACD (candles : list Candle) (inputs : Inputs)
  : IndicatorResult :=
  let fastLength := i_fastLength inputs in
  let slowLength := i_signalLength inputs in
  let signalLength := i_signalLength inputs in
  let closes := closesOf candles in
  let fastEma := ema closes fastLength in
  let slowEma := ema closes slowLength in
  let macdLine := macdLineOf closes fastEma slowEma in
  let macdValues := nonNull macdLine in
  let signalEma := ema macdValues signalLength in
  let signalLine := signalLineOf candles macdLine signalEma in
  let histogramValues := histogramOf candles macdLine signalLine in
  {| r_id := "macd"; r_overlay := false;
     lines := [ {| s_name := "macd"; s_data := buildLineData candles macdLine;
                   s_color := "#2962FF" |};
                {| s_name := "signal"; s_data := buildLineData candles signalLine;
                   s_color := "#FF6D00" |} ];
     histograms := [ {| s_name := "histogram";
                        s_data := buildHistogramData candles histogramValues
                                    "#26a69a" "#ef5350";
                        s_color := "#26a69a" |} ] |}.

Definition calculateBB `{JsSqrt N} (candles : list Candle) (inputs : Inputs)
  : IndicatorResult :=
  let length := i_length inputs in
  let mult := i_mult inputs in
  let closes := closesOf candles in
  let smaValues := sma closes length in
  let stdevValues := stdev closes length in
  let band op :=
    map (nullable2 (fun m d => op m (nmul d mult)) smaValues stdevValues)
        (zrange 0 (Z.of_nat (List.length closes))) in
  let upperValues := band nadd in
  let lowerValues := band nsub in
  {| r_id := "bb"; r_overlay := true;
     lines := [ {| s_name := "upper"; s_data := buildLineData candles upperValues;
                   s_color := "#2962FF" |};
                {| s_name := "middle"; s_data := buildLineData candles smaValues;
                   s_color := "#FF6D00" |};
                {| s_name := "lower"; s_data := buildLineData candles lowerValues;
                   s_color := "#2962FF" |} ];
     histograms := [] |}.

Definition calculateATR (candles : list Candle) (inputs : Inputs)
  : IndicatorResult :=
  let length := i_length inputs in
  let atrValues := atr candles length in
  {| r_id := "atr"; r_overlay := false;
     lines := [ {| s_name := "atr";
                   s_data := buildLineData candles atrValues;
                   s_color := "#FF6D00" |} ];
     histograms := [] |}.

(** The volume columns: one valued point per candle, built directly from
    the candles and not through [buildHistogramData]. *)
Definition volumeData (candles : list Candle) : list ChartPoint :=
  map (fun c => HistPoint (time c) (volume c) "#2962FF80") candles.

Definition calculateVolumeSMA (candles : list Candle) (inputs : Inputs)
  : IndicatorResult :=
  let length := i_length inputs in
  let volumes := map volume candles in
  let smaValues := sma volumes length in
  {| r_id := "vol_sma"; r_overlay := false;
     lines := [ {| s_name := "volSMA";
                   s_data := buildLineData candles smaValues;
                   s_color := "#FF6D00" |} ];
     histograms := [ {| s_name := "volume"; s_data := volumeData candles;
                        s_color := "#2962FF80" |} ] |}.

(** *** Main calculator *)

Definition indicatorCalculators `{JsSqrt N}
  : list (string * (list Candle -> Inputs -> IndicatorResult)) := [
  ("sma", calculateSMA);
  ("ema", calculateEMA);
  ("ema_cross", calculateEMACross);
  ("rsi", calculateRSI);
  ("macd", calculateMACD);
  ("bb", calculateBB);
  ("atr", calculateATR);
  ("vol_sma", calculateVolumeSMA)
]%string.

(** [table[key]], on the keys the table itself defines. *)
Fixpoint lookupCalculator {V : Type} (table : list (string * V)) (key : string)
  : option V :=
  match table with
  | [] => None
  | (k, v) :: rest => if String.eqb k key then Some v else lookupCalculator rest key
  end.

(** What a call can reach besides its return value: the caller's candle
    array and inputs record, which it receives by reference, and the
    console. *)
Record World := {
  w_candles : list Candle;
  w_inputs : Inputs;
  w_console : list string
}.

Definition consoleWarn (msg : string) (w : World) : World :=
  {| w_candles := w_candles w; w_inputs := w_inputs w;
     w_console := w_console w ++ [msg] |}.

(** [calculateIndicator(indicator, candles, inputs)], run in world [w]
    on the candles and inputs stored there. *)
Definition calculateIndicator `{JsSqrt N} (indicator : BuiltInIndicator) (w : World)
  : option IndicatorResult * World :=
  match lookupCalculator indicatorCalculators (id indicator) with
  | None =>
      (None,
       consoleWarn ("No calculator implemented for indicator: " +:+ id indicator) w)
  | Some calculator => (Some (calculator (w_candles w) (w_inputs w)), w)
  end.

Definition isOverlayIndicator (indicator : BuiltInIndicator) : bool :=
  overlay indicator.

End Calculator.

Arguments Candle : clear implicits.
Arguments ChartPoint : clear implicits.
Arguments Series : clear implicits.
Arguments IndicatorResult : clear implicits.
Arguments Inputs : clear implicits.
Arguments World : clear implicits.

End IndicatorCalculator.

(** ** Market forecast ([generateForecast]) *)

Module Forecast.

Section Forecast.
Context {N : Type} `{JsNumber N}.

Record AggregatedIndicators := {
  roc_24h : N;
  atr_pct : N;
  trend_strength : N;
  volume_ratio : N;
  crypto_cnt : N;
  stock_cnt : N;
  gold_roc : N
}.

Record Correlations := { avg_corr : N }.

(** [Partial<VisionBotConfig>]: each threshold may be absent. *)
Record VisionBotConfig := {
  trendThreshold : option N;
  volatilityLow : option N;
  volatilityHigh : option N;
  correlationWeight : option N
}.

Record ForecastProbabilities := {
  upward : N;
  downward : N;
  consolidation : N
}.

(** [x ?? d]. *)
Definition orDefault (x : option N) (d : N) : N :=
  match x with Some v => v | None => d end.

(** The three branch weights before normalization.  [-trendThreshold]
    is written [0 - trendThreshold]; the two differ only in the sign of a
    zero, which [<] does not see. *)
Definition branchWeights (indicators : AggregatedIndicators)
    (correlations : Correlations) (config : VisionBotConfig) : N * N * N :=
  let trendThreshold := orDefault (trendThreshold config) (dec 2 2) in
  let volLow := orDefault (volatilityLow config) (dec 1 2) in
  let volHigh := orDefault (volatilityHigh config) (dec 5 2) in
  let corrWeight := orDefault (correlationWeight config) (dec 30 2) in
  let up := ndiv (ofZ 1) (ofZ 3) in
  let down := ndiv (ofZ 1) (ofZ 3) in
  let cons' := ndiv (ofZ 1) (ofZ 3) in
  (* Momentum factor *)
  let roc := roc_24h indicators in
  let '(up, down, cons') :=
    if ngt roc trendThreshold then
      (nadd up (dec 20 2), nsub down (dec 10 2), nsub cons' (dec 10 2))
    else if nlt roc (nsub (ofZ 0) trendThreshold) then
      (nsub up (dec 10 2), nadd down (dec 20 2), nsub cons' (dec 10 2))
    else (up, down, cons') in
  (* Volatility factor *)
  let vol := atr_pct indicators in
  let '(up, down, cons') :=
    if nlt vol volLow then
      (nsub up (dec 10 2), nsub down (dec 10 2), nadd cons' (dec 20 2))
    else if ngt vol volHigh then
      if ngt (trend_strength indicators) (ofZ 0) then
        (nadd up (dec 15 2), down, nsub cons' (dec 15 2))
      else (up, nadd down (dec 15 2), nsub cons' (dec 15 2))
    else (up, down, cons') in
  (* Volume surge factor *)
  let volRatio := volume_ratio indicators in
  let '(up, down, cons') :=
    if ngt volRatio (dec 15 1) then
      if ngt (trend_strength indicators) (ofZ 0) then
        (nadd up (dec 10 2), down, nsub cons' (dec 10 2))
      else (up, nadd down (dec 10 2), nsub cons' (dec 10 2))
    else (up, down, cons') in
  (* Cross-asset correlation factor *)
  let avgCorr := avg_corr correlations in
  let corrAdj := nmul corrWeight (nabs avgCorr) in
  if nlt (nabs avgCorr) (dec 5 1) then
    (nsub up (ndiv corrAdj (ofZ 2)), nsub down (ndiv corrAdj (ofZ 2)),
     nadd cons' corrAdj)
  else
    let goldRoc := gold_roc indicators in
    if ngt goldRoc (ofZ 0) && ngt avgCorr (ofZ 0) then
      (nadd up (ndiv corrAdj (ofZ 2)), down, cons')
    else if nlt goldRoc (ofZ 0) && ngt avgCorr (ofZ 0) then
      (up, nadd down (ndiv corrAdj (ofZ 2)), cons')
    else (up, down, cons').

(** [up + down + cons]. *)
Definition weightTotal (w : N * N * N) : N :=
  let '(up, down, cons') := w in nadd (nadd up down) cons'.

(** [Math.round(x * 10000) / 10000]. *)
Definition round4 (x : N) : N :=
  ndiv (nround (nmul x (ofZ 10000))) (ofZ 10000).

Definition generateForecast (indicators : AggregatedIndicators)
    (correlations : Correlations) (config : VisionBotConfig)
  : ForecastProbabilities :=
  let '(up, down, cons') := branchWeights indicators correlations config in
  let total := weightTotal (up, down, cons') in
  let '(up, down, cons') :=
    if ngt total (ofZ 0) then (ndiv up total, ndiv down total, ndiv cons' total)
    else (up, down, cons') in
  {| upward := round4 up; downward := round4 down;
     consolidation := round4 cons' |}.

End Forecast.

Arguments AggregatedIndicators : clear implicits.
Arguments Correlations : clear implicits.
Arguments VisionBotConfig : clear implicits.
Arguments ForecastProbabilities : clear implicits.

End Forecast.

(** ** Exceptions *)

Module Js.

(** A thrown value: an [Error] object with its message, or anything else
    ([throw "text"], [throw 42]). *)
Inductive Thrown :=
| ErrorObj (message : string)
| OtherThrown.

(** The outcome of running code that may throw. *)
Inductive Completion (A : Type) :=
| Normal (a : A)
| Throw (e : Thrown).
Arguments Normal {A} a.
Arguments Throw {A} e.

Definition bind {A B : Type} (c : Completion A) (k : A -> Completion B)
  : Completion B :=
  match c with
  | Normal a => k a
  | Throw e => Throw e
  end.

(** [try { body } catch (error) { handler(error) }]. *)
Definition tryCatch {A : Type} (body : Completion A)
    (handler : Thrown -> Completion A) : Completion A :=
  match body with
  | Normal a => Normal a
  | Throw e => handler e
  end.

(** [error instanceof Error ? error.message : "Unknown error"]. *)
Definition errorMessage (error : Thrown) : string :=
  match error with
  | ErrorObj message => message
  | OtherThrown => "Unknown error"
  end.

(** The [TypeError] of reading [.close] of [undefined]. *)
Definition readCloseOfUndefined : Thrown :=
  ErrorObj "Cannot read properties of undefined (reading 'close')".

End Js.

(** ** Strategy framework: declarations imported by the manager *)

Module StrategyTypes.
Import Js.

Definition Timeframe := string.

(** A parameter value, [number | boolean | string]. *)
Inductive ParamValue (N : Type) :=
| PNum (n : N)
| PBool (b : bool)
| PStr (s : string).
Arguments PNum {N} n.
Arguments PBool {N} b.
Arguments PStr {N} s.

(** The fields of [StrategyConfig] the manager reads. *)
Record StrategyConfig := {
  cfg_id : string;
  minCandlesRequired : Z;
  defaultTimeframe : Timeframe
}.

Record ValidationResult := {
  valid : bool;
  errors : list string
}.

(** The fields of [StrategySignal] the manager and the engine read. *)
Record StrategySignal (N : Type) := {
  sig_type : string;
  sig_symbol : string;
  confidence : N;
  suggestedStopLoss : option N;
  suggestedTakeProfits : option (list (N * N))
}.
Arguments sig_type {N} _.
Arguments sig_symbol {N} _.
Arguments confidence {N} _.
Arguments suggestedStopLoss {N} _.
Arguments suggestedTakeProfits {N} _.

(** The position snapshot handed to [populateExitSignal]. *)
Record PositionInfo (N : Type) := {
  pi_direction : string;
  pi_entryPrice : N;
  pi_currentPrice : N;
  pi_size : N;
  pi_openTime : Z
}.

(** What [./types] declares and this repository slice does not contain:
    the candle and indicator-set types and the parameter validator. *)
Class StrategyDecls (N : Type) := {
  Candle : Type;
  close : Candle -> N;
  Indicators : Type;
  emptyIndicators : Indicators;
  validateStrategyParameters :
    StrategyConfig -> gmap string (ParamValue N) -> ValidationResult
}.

(** The [IStrategy] interface, over the type [S] of strategy objects.
    [getConfig] and [getState] are accessors; the [populate*] methods are
    the injected analysis code: they may throw and may change the
    object. *)
Class IStrategy (N : Type) `{StrategyDecls N} (S : Type) := {
  getConfig : S -> StrategyConfig;
  getStateParameters : S -> gmap string (ParamValue N);
  initialize : S -> option (gmap string (ParamValue N)) -> S;
  setParameters : S -> gmap string (ParamValue N) -> S;
  reset : S -> S;
  populateIndicators : S -> list Candle -> S * Completion Indicators;
  populateEntrySignal :
    S -> list Candle -> Indicators -> N -> S * Completion (option (StrategySignal N));
  populateExitSignal :
    S -> list Candle -> Indicators -> PositionInfo N ->
    S * Completion (option (StrategySignal N))
}.

End StrategyTypes.

(** ** Strategy manager ([manager.ts]) *)

Module StrategyManager.
Import Js StrategyTypes.

Inductive StrategyStatus := IDLE | RUNNING | PAUSED | ERROR.

Section Manager.
Context {N : Type} `{JsNumber N} `{!StrategyDecls N}.
Context {S : Type} `{!IStrategy N S}.

(** [BUILTIN_STRATEGIES] of [./builtin]: what each [new StrategyClass()]
    yields. *)
Variable BUILTIN_STRATEGIES : list (Completion S).

(** A started strategy.  The strategy object it points to is the one
    stored in the registry, named here by its registry key. *)
Record RunningStrategy := {
  rs_id : string;
  rs_strategy : string;
  rs_symbol : string;
  rs_timeframe : Timeframe;
  rs_status : StrategyStatus;
  rs_lastSignal : option (StrategySignal N);
  rs_lastUpdate : Z;
  rs_error : option string
}.

Record StrategyAnalysisResult := {
  ar_strategyId : string;
  ar_symbol : string;
  ar_timeframe : ParamValue N;
  ar_timestamp : Z;
  ar_currentPrice : N;
  ar_indicators : Indicators;
  ar_signal : option (StrategySignal N);
  ar_errors : option (list string)
}.

Record StrategyExecutionResult := {
  er_strategyId : string;
  er_symbol : string;
  er_timeframe : Timeframe;
  er_timestamp : Z;
  er_signal : option (StrategySignal N);
  er_indicators : option Indicators;
  er_status : StrategyStatus;
  er_error : option string
}.

(** The [{ success, error? }] answer of [start] and [updateParameters]. *)
Record Outcome := {
  success : bool;
  error : option string
}.

(** The fields of a [StrategyManager] object. *)
Record Manager := {
  strategies : gmap string S;
  runningStrategies : gmap string RunningStrategy;
  candleCache : gmap string (list Candle)
}.

Definition setStrategies (m : Manager) (st : gmap string S) : Manager :=
  {| strategies := st; runningStrategies := runningStrategies m;
     candleCache := candleCache m |}.

Definition setRunning (m : Manager) (r : gmap string RunningStrategy) : Manager :=
  {| strategies := strategies m; runningStrategies := r;
     candleCache := candleCache m |}.

(** *** Registration *)

Definition register (strategy : S) (m : Manager) : Manager :=
  let config := getConfig strategy in
  setStrategies m (<[cfg_id config := strategy]> (strategies m)).

Definition stop (runningId : string) (m : Manager) : Manager :=
  setRunning m (delete runningId (runningStrategies m)).

Definition unregister (strategyId : string) (m : Manager) : Manager :=
  stop strategyId (setStrategies m (delete strategyId (strategies m))).

Definition getStrategy (strategyId : string) (m : Manager) : option S :=
  strategies m !! strategyId.

(** [registerBuiltInStrategies]: a constructor that throws is skipped. *)
Definition registerBuiltInStrategies (m : Manager) : Manager :=
  fold_left (fun m StrategyClass =>
               match StrategyClass with
               | Normal strategy => register strategy m
               | Throw _ => m
               end) BUILTIN_STRATEGIES m.

(** [new StrategyManager()]. *)
Definition newStrategyManager : Manager :=
  registerBuiltInStrategies
    {| strategies := ∅; runningStrategies := ∅; candleCache := ∅ |}.

(** *** Execution *)

Definition start (strategyId symbol : string) (timeframe : Timeframe)
    (parameters : option (gmap string (ParamValue N))) (now : Z) (m : Manager)
  : Outcome * Manager :=
  match strategies m !! strategyId with
  | None =>
      ({| success := false;
          error := Some ("Strategy " +:+ strategyId +:+ " not found") |}, m)
  | Some strategy =>
      let config := getConfig strategy in
      let validation :=
        match parameters with
        | Some p => validateStrategyParameters config p
        | None => {| valid := true; errors := [] |}
        end in
      if negb (valid validation) then
        ({| success := false;
            error := Some (String.concat "; " (errors validation)) |}, m)
      else
        let strategy := initialize strategy parameters in
        let runningId := strategyId +:+ "_" +:+ symbol +:+ "_" +:+ timeframe in
        let running :=
          {| rs_id := runningId; rs_strategy := strategyId;
             rs_symbol := symbol; rs_timeframe := timeframe;
             rs_status := IDLE; rs_lastSignal := None;
             rs_lastUpdate := now; rs_error := None |} in
        ({| success := true; error := None |},
         {| strategies := <[strategyId := strategy]> (strategies m);
            runningStrategies := <[runningId := running]> (runningStrategies m);
            candleCache := candleCache m |})
  end.

Definition stopAll (m : Manager) : Manager := setRunning m ∅.

(** Truthiness of a parameter value. *)
Definition paramTruthy (v : ParamValue N) : bool :=
  match v with
  | PNum n => truthy n
  | PBool b => b
  | PStr s => negb (String.eqb s "")
  end.

(** [state.parameters.timeframe as Timeframe || config.defaultTimeframe],
    on the state read when [analyze] is entered. *)
Definition timeframeOf (strategy : S) : ParamValue N :=
  match getStateParameters strategy !! "timeframe" with
  | Some v => if paramTruthy v then v else PStr (defaultTimeframe (getConfig strategy))
  | None => PStr (defaultTimeframe (getConfig strategy))
  end.

(** [candles[candles.length - 1]?.close || 0]. *)
Definition lastCloseOrZero (candles : list Candle) : N :=
  match last candles with
  | Some c => if truthy (close c) then close c else ofZ 0
  | None => ofZ 0
  end.

(** [candles[candles.length - 1].close]. *)
Definition lastClose (candles : list Candle) : Completion N :=
  match last candles with
  | Some c => Normal (close c)
  | None => Throw readCloseOfUndefined
  end.

Definition setSymbol (symbol : string) (signal : StrategySignal N)
  : StrategySignal N :=
  {| sig_type := sig_type signal; sig_symbol := symbol;
     confidence := confidence signal;
     suggestedStopLoss := suggestedStopLoss signal;
     suggestedTakeProfits := suggestedTakeProfits signal |}.

(** The [try] block of [analyze], run on the strategy object; it yields
    the object as the calls left it and the block's completion. *)
Definition analyzeTry (strategyId symbol : string) (candles : list Candle)
    (now : Z) (strategy : S) : S * Completion StrategyAnalysisResult :=
  let config := getConfig strategy in
  let timeframe := timeframeOf strategy in
  if Z.of_nat (length candles) <? minCandlesRequired config then
    (strategy,
     Normal {| ar_strategyId := strategyId; ar_symbol := symbol;
               ar_timeframe := timeframe; ar_timestamp := now;
               ar_currentPrice := lastCloseOrZero candles;
               ar_indicators := emptyIndicators; ar_signal := None;
               ar_errors :=
                 Some ["Insufficient candles: " +:+ pretty (Z.of_nat (length candles))
                       +:+ " < " +:+ pretty (minCandlesRequired config)] |})
  else
    match populateIndicators strategy candles with
    | (strategy, Throw e) => (strategy, Throw e)
    | (strategy, Normal indicators) =>
        match lastClose candles with
        | Throw e => (strategy, Throw e)
        | Normal currentPrice =>
            match populateEntrySignal strategy candles indicators currentPrice with
            | (strategy, Throw e) => (strategy, Throw e)
            | (strategy, Normal signal) =>
                (strategy,
                 Normal {| ar_strategyId := strategyId; ar_symbol := symbol;
                           ar_timeframe := timeframe;
                           ar_timestamp := now;
                           ar_currentPrice := currentPrice;
                           ar_indicators := indicators;
                           ar_signal := setSymbol symbol <$> signal;
                           ar_errors := None |})
            end
        end
    end.

Definition analyze (strategyId symbol : string) (candles : list Candle)
    (now : Z) (m : Manager) : Manager * Completion StrategyAnalysisResult :=
  match strategies m !! strategyId with
  | None =>
      (m, Normal {| ar_strategyId := strategyId; ar_symbol := symbol;
                    ar_timeframe := PStr "1h"; ar_timestamp := now;
                    ar_currentPrice := ofZ 0;
                    ar_indicators := emptyIndicators; ar_signal := None;
                    ar_errors :=
                      Some ["Strategy " +:+ strategyId +:+ " not found"] |})
  | Some strategy =>
      let config := getConfig strategy in
      let '(strategy', body) := analyzeTry strategyId symbol candles now strategy in
      (setStrategies m (<[strategyId := strategy']> (strategies m)),
       tryCatch body
         (fun error =>
            Normal {| ar_strategyId := strategyId; ar_symbol := symbol;
                      ar_timeframe := PStr (defaultTimeframe config);
                      ar_timestamp := now;
                      ar_currentPrice := lastCloseOrZero candles;
                      ar_indicators := emptyIndicators; ar_signal := None;
                      ar_errors := Some [errorMessage error] |}))
  end.

(** The [try] block of [checkExit]. *)
Definition checkExitTry (candles : list Candle) (position : PositionInfo N)
    (strategy : S) : S * Completion (option (StrategySignal N)) :=
  match populateIndicators strategy candles with
  | (strategy, Throw e) => (strategy, Throw e)
  | (strategy, Normal indicators) =>
      populateExitSignal strategy candles indicators position
  end.

Definition checkExit (strategyId : string) (candles : list Candle)
    (position : PositionInfo N) (m : Manager)
  : Manager * Completion (option (StrategySignal N)) :=
  match strategies m !! strategyId with
  | None => (m, Normal None)
  | Some strategy =>
      let '(strategy', body) := checkExitTry candles position strategy in
      (setStrategies m (<[strategyId := strategy']> (strategies m)),
       tryCatch body (fun error => Normal None))
  end.

(** *** Parameters *)

Definition updateParameters (strategyId : string)
    (parameters : gmap string (ParamValue N)) (m : Manager) : Outcome * Manager :=
  match strategies m !! strategyId with
  | None =>
      ({| success := false;
          error := Some ("Strategy " +:+ strategyId +:+ " not found") |}, m)
  | Some strategy =>
      let validation := validateStrategyParameters (getConfig strategy) parameters in
      if negb (valid validation) then
        ({| success := false;
            error := Some (String.concat "; " (errors validation)) |}, m)
      else
        ({| success := true; error := None |},
         setStrategies m
           (<[strategyId := setParameters strategy parameters]> (strategies m)))
  end.

(** *** Singleton instance *)

(** The objects of one process: the [StrategyManager] objects allocated
    so far, addressed by position, and the module variable
    [strategyManagerInstance]. *)
Record Process := {
  heap : list Manager;
  strategyManagerInstance : option nat
}.

Definition initialProcess : Process :=
  {| heap := []; strategyManagerInstance := None |}.

Definition getStrategyManager (p : Process) : nat * Process :=
  match strategyManagerInstance p with
  | Some instance => (instance, p)
  | None =>
      let instance := length (heap p) in
      (instance,
       {| heap := heap p ++ [newStrategyManager];
          strategyManagerInstance := Some instance |})
  end.

(** What the rest of the program can do between two calls: call the
    accessor, construct a manager of its own ([StrategyManager] is
    exported), or call a method on some manager object.  The module
    variable is not exported, so only the accessor assigns it. *)
Inductive Step :=
| CallGetStrategyManager
| CallNew
| CallMethod (target : nat) (method : Manager -> Manager).

Definition step (s : Step) (p : Process) : option nat * Process :=
  match s with
  | CallGetStrategyManager =>
      let '(instance, p) := getStrategyManager p in (Some instance, p)
  | CallNew =>
      (None, {| heap := heap p ++ [newStrategyManager];
                strategyManagerInstance := strategyManagerInstance p |})
  | CallMethod target method =>
      (None, {| heap := alter method target (heap p);
                strategyManagerInstance := strategyManagerInstance p |})
  end.

(** Run a program; the list collects what each accessor call returned. *)
Fixpoint run (prog : list Step) (p : Process) : list nat * Process :=
  match prog with
  | [] => ([], p)
  | s :: rest =>
      let '(r, p) := step s p in
      let '(rs, p) := run rest p in
      (match r with Some instance => instance :: rs | None => rs end, p)
  end.

End Manager.

Arguments RunningStrategy : clear implicits.
Arguments StrategyAnalysisResult N {_}.
Arguments StrategyExecutionResult N {_}.
Arguments Manager N {_} S.
Arguments Process N {_} S.
Arguments Step N {_} S.

End StrategyManager.

(** ** Paper-trading engine ([engine.ts], [types.ts]) *)

Module PaperTrading.
Import Js StrategyTypes.

Inductive Direction := LONG | SHORT.

Inductive PositionStatus := PENDING | OPEN | CLOSING | CLOSED | LIQUIDATED.

Inductive AccountStatus := IDLE | RUNNING | PAUSED | STOPPED.

(** The close and exit reasons; [closePosition] casts one into the other. *)
Inductive Reason :=
| TP | SL | SIGNAL | PARTIAL | TRAILING_STOP | MANUAL | LIQUIDATION
| MAX_DRAWDOWN.

Inductive EventType :=
| POSITION_OPENED | POSITION_CLOSED | POSITION_UPDATED | SIGNAL_GENERATED
| ERROR | MAX_DRAWDOWN_REACHED | BALANCE_UPDATE.

(** An emitted event, without its [data] payload. *)
Record PaperTradingEvent := {
  ev_type : EventType;
  ev_timestamp : Z;
  ev_accountId : string
}.

Definition directionName (d : Direction) : string :=
  match d with LONG => "LONG" | SHORT => "SHORT" end.

Definition isOpenStatus (s : PositionStatus) : bool :=
  match s with OPEN => true | _ => false end.

Definition isRunning (s : AccountStatus) : bool :=
  match s with RUNNING => true | _ => false end.

(** *** A [Map] with string keys, in insertion order *)

Section JsMap.
Context {V : Type}.

Fixpoint mapGet (k : string) (m : list (string * V)) : option V :=
  match m with
  | [] => None
  | (k', v) :: rest => if String.eqb k' k then Some v else mapGet k rest
  end.

Fixpoint mapSet (k : string) (v : V) (m : list (string * V))
  : list (string * V) :=
  match m with
  | [] => [(k, v)]
  | (k', v') :: rest =>
      if String.eqb k' k then (k', v) :: rest else (k', v') :: mapSet k v rest
  end.

Definition mapDelete (k : string) (m : list (string * V)) : list (string * V) :=
  List.filter (fun kv => negb (String.eqb (fst kv) k)) m.
End JsMap.

Section Engine.
Context {N : Type} `{JsNumber N} `{!StrategyDecls N}.
Context {S : Type} `{!IStrategy N S}.

(** [PaperTradingMetrics] is written by [calculateFullMetrics] into
    [account.metrics] and read by no operation of the engine; the record
    and the function (square roots, a power with a fractional exponent)
    are kept abstract. *)
Context {Metrics : Type}.

(** Truthiness of an optional number, [undefined] being falsy. *)
Definition optTruthy (x : option N) : bool :=
  match x with Some v => truthy v | None => false end.

(** *** Tactics ([../strategy/tactics/types], as the engine reads them) *)

Record TrailingState := {
  activated : bool;
  activationProfit : option N;
  highestPrice : option N;
  lowestPrice : option N;
  percentValue : option N;
  currentStopPrice : option N
}.

Record TPTargetConfig := {
  tc_price : option N;
  tc_profitPercent : option N;
  tc_closePercent : N
}.

Record TacticsSet := {
  ts_id : string;
  slPrice : option N;
  slPercent : option N;
  targets : option (list TPTargetConfig);
  tpPrice : option N;
  tpPercent : option N;
  trailingConfig : option TrailingState
}.

(** [TacticsExecutionState]; the execution logs it also carries
    ([executedEntries], [executedTPs], [stopLossHistory]) stay empty. *)
Record TacticsExecutionState := {
  positionId : string;
  tacticsSetId : string;
  entryStatus : string;
  updatedAt : Z;
  trailingState : option TrailingState
}.

(** *** Configuration, positions, accounts ([types.ts]) *)

Record Notifications := {
  onEntry : bool;
  onExit : bool;
  onError : bool;
  onMaxDrawdown : bool
}.

Record PaperTradingConfig := {
  c_id : string;
  c_name : string;
  c_initialBalance : N;
  currency : string;
  exchange : string;
  symbols : list string;
  c_timeframe : Timeframe;
  strategyId : string;
  strategyParameters : option (gmap string (ParamValue N));
  tacticsSets : list TacticsSet;
  maxRiskPerTrade : N;
  c_maxDrawdown : N;
  maxOpenPositions : N;
  maxLeverage : N;
  feePercent : N;
  slippagePercent : N;
  autoTrading : bool;
  checkInterval : N;
  notifications : Notifications
}.

Record PaperTradeEntry := {
  en_index : Z;
  en_price : N;
  en_size : N;
  en_fee : N;
  en_timestamp : Z;
  orderType : string
}.

Record PaperTradeExit := {
  ex_index : Z;
  ex_price : N;
  ex_size : N;
  ex_fee : N;
  ex_pnl : N;
  ex_reason : Reason;
  ex_timestamp : Z;
  tpIndex : option Z
}.

Record PaperTPTarget := {
  tp_index : Z;
  tp_price : N;
  closePercent : N;
  filled : bool;
  filledAt : option Z
}.

(** [PaperPosition]. *)
Record PaperPosition := {
  p_id : string;
  p_symbol : string;
  p_direction : Direction;
  p_status : PositionStatus;
  avgEntryPrice : N;
  entries : list PaperTradeEntry;
  totalSize : N;
  openedAt : Z;
  avgExitPrice : option N;
  exits : list PaperTradeExit;
  closedAt : option Z;
  closeReason : option Reason;
  currentPrice : N;
  stopLoss : option N;
  takeProfitTargets : list PaperTPTarget;
  p_unrealizedPnl : N;
  unrealizedPnlPercent : N;
  p_realizedPnl : N;
  totalFees : N;
  leverage : N;
  marginMode : string;
  margin : N;
  liquidationPrice : option N;
  tacticsState : TacticsExecutionState;
  signalId : option string;
  signalConfidence : option N
}.

(** Assignments to the fields of a position, [position.f = v]. *)
Definition set_p_status (v : PositionStatus) (p : PaperPosition) : PaperPosition :=
  {| p_id := p_id p; p_symbol := p_symbol p; p_direction := p_direction p;
     p_status := v; avgEntryPrice := avgEntryPrice p; entries := entries p;
     totalSize := totalSize p; openedAt := openedAt p;
     avgExitPrice := avgExitPrice p; exits := exits p;
     closedAt := closedAt p; closeReason := closeReason p;
     currentPrice := currentPrice p; stopLoss := stopLoss p;
     takeProfitTargets := takeProfitTargets p;
     p_unrealizedPnl := p_unrealizedPnl p;
     unrealizedPnlPercent := unrealizedPnlPercent p;
     p_realizedPnl := p_realizedPnl p; totalFees := totalFees p;
     leverage := leverage p; marginMode := marginMode p; margin := margin p;
     liquidationPrice := liquidationPrice p; tacticsState := tacticsState p;
     signalId := signalId p; signalConfidence := signalConfidence p |}.

Definition set_totalSize (v : N) (p : PaperPosition) : PaperPosition :=
  {| p_id := p_id p; p_symbol := p_symbol p; p_direction := p_direction p;
     p_status := p_status p; avgEntryPrice := avgEntryPrice p;
     entries := entries p; totalSize := v; openedAt := openedAt p;
     avgExitPrice := avgExitPrice p; exits := exits p;
     closedAt := closedAt p; closeReason := closeReason p;
     currentPrice := currentPrice p; stopLoss := stopLoss p;
     takeProfitTargets := takeProfitTargets p;
     p_unrealizedPnl := p_unrealizedPnl p;
     unrealizedPnlPercent := unrealizedPnlPercent p;
     p_realizedPnl := p_realizedPnl p; totalFees := totalFees p;
     leverage := leverage p; marginMode := marginMode p; margin := margin p;
     liquidationPrice := liquidationPrice p; tacticsState := tacticsState p;
     signalId := signalId p; signalConfidence := signalConfidence p |}.

Definition set_avgExitPrice (v : option N) (p : PaperPosition) : PaperPosition :=
  {| p_id := p_id p; p_symbol := p_symbol p; p_direction := p_direction p;
     p_status := p_status p; avgEntryPrice := avgEntryPrice p;
     entries := entries p; totalSize := totalSize p; openedAt := openedAt p;
     avgExitPrice := v; exits := exits p; closedAt := closedAt p;
     closeReason := closeReason p; currentPrice := currentPrice p;
     stopLoss := stopLoss p; takeProfitTargets := takeProfitTargets p;
     p_unrealizedPnl := p_unrealizedPnl p;
     unrealizedPnlPercent := unrealizedPnlPercent p;
     p_realizedPnl := p_realizedPnl p; totalFees := totalFees p;
     leverage := leverage p; marginMode := marginMode p; margin := margin p;
     liquidationPrice := liquidationPrice p; tacticsState := tacticsState p;
     signalId := signalId p; signalConfidence := signalConfidence p |}.

Definition set_exits (v : list PaperTradeExit) (p : PaperPosition) : PaperPosition :=
  {| p_id := p_id p; p_symbol := p_symbol p; p_direction := p_direction p;
     p_status := p_status p; avgEntryPrice := avgEntryPrice p;
     entries := entries p; totalSize := totalSize p; openedAt := openedAt p;
     avgExitPrice := avgExitPrice p; exits := v; closedAt := closedAt p;
     closeReason := closeReason p; currentPrice := currentPrice p;
     stopLoss := stopLoss p; takeProfitTargets := takeProfitTargets p;
     p_unrealizedPnl := p_unrealizedPnl p;
     unrealizedPnlPercent := unrealizedPnlPercent p;
     p_realizedPnl := p_realizedPnl p; totalFees := totalFees p;
     leverage := leverage p; marginMode := marginMode p; margin := margin p;
     liquidationPrice := liquidationPrice p; tacticsState := tacticsState p;
     signalId := signalId p; signalConfidence := signalConfidence p |}.

Definition set_closedAt (v : option Z) (p : PaperPosition) : PaperPosition :=
  {| p_id := p_id p; p_symbol := p_symbol p; p_direction := p_direction p;
     p_status := p_status p; avgEntryPrice := avgEntryPrice p;
     entries := entries p; totalSize := totalSize p; openedAt := openedAt p;
     avgExitPrice := avgExitPrice p; exits := exits p; closedAt := v;
     closeReason := closeReason p; currentPrice := currentPrice p;
     stopLoss := stopLoss p; takeProfitTargets := takeProfitTargets p;
     p_unrealizedPnl := p_unrealizedPnl p;
     unrealizedPnlPercent := unrealizedPnlPercent p;
     p_realizedPnl := p_realizedPnl p; totalFees := totalFees p;
     leverage := leverage p; marginMode := marginMode p; margin := margin p;
     liquidationPrice := liquidationPrice p; tacticsState := tacticsState p;
     signalId := signalId p; signalConfidence := signalConfidence p |}.

Definition set_closeReason (v : option Reason) (p : PaperPosition) : PaperPosition :=
  {| p_id := p_id p; p_symbol := p_symbol p; p_direction := p_direction p;
     p_status := p_status p; avgEntryPrice := avgEntryPrice p;
     entries := entries p; totalSize := totalSize p; openedAt := openedAt p;
     avgExitPrice := avgExitPrice p; exits := exits p;
     closedAt := closedAt p; closeReason := v;
     currentPrice := currentPrice p; stopLoss := stopLoss p;
     takeProfitTargets := takeProfitTargets p;
     p_unrealizedPnl := p_unrealizedPnl p;
     unrealizedPnlPercent := unrealizedPnlPercent p;
     p_realizedPnl := p_realizedPnl p; totalFees := totalFees p;
     leverage := leverage p; marginMode := marginMode p; margin := margin p;
     liquidationPrice := liquidationPrice p; tacticsState := tacticsState p;
     signalId := signalId p; signalConfidence := signalConfidence p |}.

Definition set_currentPrice (v : N) (p : PaperPosition) : PaperPosition :=
  {| p_id := p_id p; p_symbol := p_symbol p; p_direction := p_direction p;
     p_status := p_status p; avgEntryPrice := avgEntryPrice p;
     entries := entries p; totalSize := totalSize p; openedAt := openedAt p;
     avgExitPrice := avgExitPrice p; exits := exits p;
     closedAt := closedAt p; closeReason := closeReason p;
     currentPrice := v; stopLoss := stopLoss p;
     takeProfitTargets := takeProfitTargets p;
     p_unrealizedPnl := p_unrealizedPnl p;
     unrealizedPnlPercent := unrealizedPnlPercent p;
     p_realizedPnl := p_realizedPnl p; totalFees := totalFees p;
     leverage := leverage p; marginMode := marginMode p; margin := margin p;
     liquidationPrice := liquidationPrice p; tacticsState := tacticsState p;
     signalId := signalId p; signalConfidence := signalConfidence p |}.

Definition set_stopLoss (v : option N) (p : PaperPosition) : PaperPosition :=
  {| p_id := p_id p; p_symbol := p_symbol p; p_direction := p_direction p;
     p_status := p_status p; avgEntryPrice := avgEntryPrice p;
     entries := entries p; totalSize := totalSize p; openedAt := openedAt p;
     avgExitPrice := avgExitPrice p; exits := exits p;
     closedAt := closedAt p; closeReason := closeReason p;
     currentPrice := currentPrice p; stopLoss := v;
     takeProfitTargets := takeProfitTargets p;
     p_unrealizedPnl := p_unrealizedPnl p;
     unrealizedPnlPercent := unrealizedPnlPercent p;
     p_realizedPnl := p_realizedPnl p; totalFees := totalFees p;
     leverage := leverage p; marginMode := marginMode p; margin := margin p;
     liquidationPrice := liquidationPrice p; tacticsState := tacticsState p;
     signalId := signalId p; signalConfidence := signalConfidence p |}.

Definition set_takeProfitTargets (v : list PaperTPTarget) (p : PaperPosition) : PaperPosition :=
  {| p_id := p_id p; p_symbol := p_symbol p; p_direction := p_direction p;
     p_status := p_status p; avgEntryPrice := avgEntryPrice p;
     entries := entries p; totalSize := totalSize p; openedAt := openedAt p;
     avgExitPrice := avgExitPrice p; exits := exits p;
     closedAt := closedAt p; closeReason := closeReason p;
     currentPrice := currentPrice p; stopLoss := stopLoss p;
     takeProfitTargets := v; p_unrealizedPnl := p_unrealizedPnl p;
     unrealizedPnlPercent := unrealizedPnlPercent p;
     p_realizedPnl := p_realizedPnl p; totalFees := totalFees p;
     leverage := leverage p; marginMode := marginMode p; margin := margin p;
     liquidationPrice := liquidationPrice p; tacticsState := tacticsState p;
     signalId := signalId p; signalConfidence := signalConfidence p |}.

Definition set_p_unrealizedPnl (v : N) (p : PaperPosition) : PaperPosition :=
  {| p_id := p_id p; p_symbol := p_symbol p; p_direction := p_direction p;
     p_status := p_status p; avgEntryPrice := avgEntryPrice p;
     entries := entries p; totalSize := totalSize p; openedAt := openedAt p;
     avgExitPrice := avgExitPrice p; exits := exits p;
     closedAt := closedAt p; closeReason := closeReason p;
     currentPrice := currentPrice p; stopLoss := stopLoss p;
     takeProfitTargets := takeProfitTargets p; p_unrealizedPnl := v;
     unrealizedPnlPercent := unrealizedPnlPercent p;
     p_realizedPnl := p_realizedPnl p; totalFees := totalFees p;
     leverage := leverage p; marginMode := marginMode p; margin := margin p;
     liquidationPrice := liquidationPrice p; tacticsState := tacticsState p;
     signalId := signalId p; signalConfidence := signalConfidence p |}.

Definition set_unrealizedPnlPercent (v : N) (p : PaperPosition) : PaperPosition :=
  {| p_id := p_id p; p_symbol := p_symbol p; p_direction := p_direction p;
     p_status := p_status p; avgEntryPrice := avgEntryPrice p;
     entries := entries p; totalSize := totalSize p; openedAt := openedAt p;
     avgExitPrice := avgExitPrice p; exits := exits p;
     closedAt := closedAt p; closeReason := closeReason p;
     currentPrice := currentPrice p; stopLoss := stopLoss p;
     takeProfitTargets := takeProfitTargets p;
     p_unrealizedPnl := p_unrealizedPnl p; unrealizedPnlPercent := v;
     p_realizedPnl := p_realizedPnl p; totalFees := totalFees p;
     leverage := leverage p; marginMode := marginMode p; margin := margin p;
     liquidationPrice := liquidationPrice p; tacticsState := tacticsState p;
     signalId := signalId p; signalConfidence := signalConfidence p |}.

Definition set_p_realizedPnl (v : N) (p : PaperPosition) : PaperPosition :=
  {| p_id := p_id p; p_symbol := p_symbol p; p_direction := p_direction p;
     p_status := p_status p; avgEntryPrice := avgEntryPrice p;
     entries := entries p; totalSize := totalSize p; openedAt := openedAt p;
     avgExitPrice := avgExitPrice p; exits := exits p;
     closedAt := closedAt p; closeReason := closeReason p;
     currentPrice := currentPrice p; stopLoss := stopLoss p;
     takeProfitTargets := takeProfitTargets p;
     p_unrealizedPnl := p_unrealizedPnl p;
     unrealizedPnlPercent := unrealizedPnlPercent p; p_realizedPnl := v;
     totalFees := totalFees p; leverage := leverage p;
     marginMode := marginMode p; margin := margin p;
     liquidationPrice := liquidationPrice p; tacticsState := tacticsState p;
     signalId := signalId p; signalConfidence := signalConfidence p |}.

Definition set_totalFees (v : N) (p : PaperPosition) : PaperPosition :=
  {| p_id := p_id p; p_symbol := p_symbol p; p_direction := p_direction p;
     p_status := p_status p; avgEntryPrice := avgEntryPrice p;
     entries := entries p; totalSize := totalSize p; openedAt := openedAt p;
     avgExitPrice := avgExitPrice p; exits := exits p;
     closedAt := closedAt p; closeReason := closeReason p;
     currentPrice := currentPrice p; stopLoss := stopLoss p;
     takeProfitTargets := takeProfitTargets p;
     p_unrealizedPnl := p_unrealizedPnl p;
     unrealizedPnlPercent := unrealizedPnlPercent p;
     p_realizedPnl := p_realizedPnl p; totalFees := v;
     leverage := leverage p; marginMode := marginMode p; margin := margin p;
     liquidationPrice := liquidationPrice p; tacticsState := tacticsState p;
     signalId := signalId p; signalConfidence := signalConfidence p |}.

Definition set_tacticsState (v : TacticsExecutionState) (p : PaperPosition) : PaperPosition :=
  {| p_id := p_id p; p_symbol := p_symbol p; p_direction := p_direction p;
     p_status := p_status p; avgEntryPrice := avgEntryPrice p;
     entries := entries p; totalSize := totalSize p; openedAt := openedAt p;
     avgExitPrice := avgExitPrice p; exits := exits p;
     closedAt := closedAt p; closeReason := closeReason p;
     currentPrice := currentPrice p; stopLoss := stopLoss p;
     takeProfitTargets := takeProfitTargets p;
     p_unrealizedPnl := p_unrealizedPnl p;
     unrealizedPnlPercent := unrealizedPnlPercent p;
     p_realizedPnl := p_realizedPnl p; totalFees := totalFees p;
     leverage := leverage p; marginMode := marginMode p; margin := margin p;
     liquidationPrice := liquidationPrice p; tacticsState := v;
     signalId := signalId p; signalConfidence := signalConfidence p |}.

Definition set_signalConfidence (v : option N) (p : PaperPosition) : PaperPosition :=
  {| p_id := p_id p; p_symbol := p_symbol p; p_direction := p_direction p;
     p_status := p_status p; avgEntryPrice := avgEntryPrice p;
     entries := entries p; totalSize := totalSize p; openedAt := openedAt p;
     avgExitPrice := avgExitPrice p; exits := exits p;
     closedAt := closedAt p; closeReason := closeReason p;
     currentPrice := currentPrice p; stopLoss := stopLoss p;
     takeProfitTargets := takeProfitTargets p;
     p_unrealizedPnl := p_unrealizedPnl p;
     unrealizedPnlPercent := unrealizedPnlPercent p;
     p_realizedPnl := p_realizedPnl p; totalFees := totalFees p;
     leverage := leverage p; marginMode := marginMode p; margin := margin p;
     liquidationPrice := liquidationPrice p; tacticsState := tacticsState p;
     signalId := signalId p; signalConfidence := v |}.

Record PaperTrade := {
  t_id : string;
  t_positionId : string;
  t_symbol : string;
  t_direction : Direction;
  t_avgEntryPrice : N;
  t_totalSize : N;
  t_openedAt : Z;
  t_avgExitPrice : N;
  t_closedAt : Z;
  t_closeReason : Reason;
  pnl : N;
  pnlPercent : N;
  fees : N;
  netPnl : N;
  durationMinutes : N;
  t_tacticsSetId : string
}.

Record PaperEquityPoint := {
  ep_timestamp : Z;
  ep_balance : N;
  ep_equity : N;
  ep_availableMargin : N;
  ep_unrealizedPnl : N;
  ep_realizedPnl : N;
  ep_dailyPnl : N;
  cumulativePnl : N;
  drawdown : N;
  drawdownPercent : N;
  ep_maxDrawdown : N;
  maxDrawdownPercent : N;
  openPositions : Z;
  tradesCount : Z;
  winsCount : Z;
  lossesCount : Z;
  prices : gmap string N
}.

(** [PaperAccount]. *)
Record PaperAccount := {
  a_id : string;
  a_name : string;
  config : PaperTradingConfig;
  initialBalance : N;
  balance : N;
  equity : N;
  availableMargin : N;
  maxEquity : N;
  positions : list PaperPosition;
  tradeHistory : list PaperTrade;
  equityCurve : list PaperEquityPoint;
  totalPnl : N;
  totalPnlPercent : N;
  realizedPnl : N;
  unrealizedPnl : N;
  maxDrawdown : N;
  currentDrawdown : N;
  status : AccountStatus;
  startedAt : option Z;
  stoppedAt : option Z;
  lastUpdate : Z;
  metrics : Metrics
}.

(** Assignments to the fields of an account, [account.f = v]. *)
Definition set_balance (v : N) (a : PaperAccount) : PaperAccount :=
  {| a_id := a_id a; a_name := a_name a; config := config a;
     initialBalance := initialBalance a; balance := v; equity := equity a;
     availableMargin := availableMargin a; maxEquity := maxEquity a;
     positions := positions a; tradeHistory := tradeHistory a;
     equityCurve := equityCurve a; totalPnl := totalPnl a;
     totalPnlPercent := totalPnlPercent a; realizedPnl := realizedPnl a;
     unrealizedPnl := unrealizedPnl a; maxDrawdown := maxDrawdown a;
     currentDrawdown := currentDrawdown a; status := status a;
     startedAt := startedAt a; stoppedAt := stoppedAt a;
     lastUpdate := lastUpdate a; metrics := metrics a |}.

Definition set_equity (v : N) (a : PaperAccount) : PaperAccount :=
  {| a_id := a_id a; a_name := a_name a; config := config a;
     initialBalance := initialBalance a; balance := balance a; equity := v;
     availableMargin := availableMargin a; maxEquity := maxEquity a;
     positions := positions a; tradeHistory := tradeHistory a;
     equityCurve := equityCurve a; totalPnl := totalPnl a;
     totalPnlPercent := totalPnlPercent a; realizedPnl := realizedPnl a;
     unrealizedPnl := unrealizedPnl a; maxDrawdown := maxDrawdown a;
     currentDrawdown := currentDrawdown a; status := status a;
     startedAt := startedAt a; stoppedAt := stoppedAt a;
     lastUpdate := lastUpdate a; metrics := metrics a |}.

Definition set_availableMargin (v : N) (a : PaperAccount) : PaperAccount :=
  {| a_id := a_id a; a_name := a_name a; config := config a;
     initialBalance := initialBalance a; balance := balance a;
     equity := equity a; availableMargin := v; maxEquity := maxEquity a;
     positions := positions a; tradeHistory := tradeHistory a;
     equityCurve := equityCurve a; totalPnl := totalPnl a;
     totalPnlPercent := totalPnlPercent a; realizedPnl := realizedPnl a;
     unrealizedPnl := unrealizedPnl a; maxDrawdown := maxDrawdown a;
     currentDrawdown := currentDrawdown a; status := status a;
     startedAt := startedAt a; stoppedAt := stoppedAt a;
     lastUpdate := lastUpdate a; metrics := metrics a |}.

Definition set_maxEquity (v : N) (a : PaperAccount) : PaperAccount :=
  {| a_id := a_id a; a_name := a_name a; config := config a;
     initialBalance := initialBalance a; balance := balance a;
     equity := equity a; availableMargin := availableMargin a;
     maxEquity := v; positions := positions a;
     tradeHistory := tradeHistory a; equityCurve := equityCurve a;
     totalPnl := totalPnl a; totalPnlPercent := totalPnlPercent a;
     realizedPnl := realizedPnl a; unrealizedPnl := unrealizedPnl a;
     maxDrawdown := maxDrawdown a; currentDrawdown := currentDrawdown a;
     status := status a; startedAt := startedAt a; stoppedAt := stoppedAt a;
     lastUpdate := lastUpdate a; metrics := metrics a |}.

Definition set_positions (v : list PaperPosition) (a : PaperAccount) : PaperAccount :=
  {| a_id := a_id a; a_name := a_name a; config := config a;
     initialBalance := initialBalance a; balance := balance a;
     equity := equity a; availableMargin := availableMargin a;
     maxEquity := maxEquity a; positions := v;
     tradeHistory := tradeHistory a; equityCurve := equityCurve a;
     totalPnl := totalPnl a; totalPnlPercent := totalPnlPercent a;
     realizedPnl := realizedPnl a; unrealizedPnl := unrealizedPnl a;
     maxDrawdown := maxDrawdown a; currentDrawdown := currentDrawdown a;
     status := status a; startedAt := startedAt a; stoppedAt := stoppedAt a;
     lastUpdate := lastUpdate a; metrics := metrics a |}.

Definition set_tradeHistory (v : list PaperTrade) (a : PaperAccount) : PaperAccount :=
  {| a_id := a_id a; a_name := a_name a; config := config a;
     initialBalance := initialBalance a; balance := balance a;
     equity := equity a; availableMargin := availableMargin a;
     maxEquity := maxEquity a; positions := positions a; tradeHistory := v;
     equityCurve := equityCurve a; totalPnl := totalPnl a;
     totalPnlPercent := totalPnlPercent a; realizedPnl := realizedPnl a;
     unrealizedPnl := unrealizedPnl a; maxDrawdown := maxDrawdown a;
     currentDrawdown := currentDrawdown a; status := status a;
     startedAt := startedAt a; stoppedAt := stoppedAt a;
     lastUpdate := lastUpdate a; metrics := metrics a |}.

Definition set_equityCurve (v : list PaperEquityPoint) (a : PaperAccount) : PaperAccount :=
  {| a_id := a_id a; a_name := a_name a; config := config a;
     initialBalance := initialBalance a; balance := balance a;
     equity := equity a; availableMargin := availableMargin a;
     maxEquity := maxEquity a; positions := positions a;
     tradeHistory := tradeHistory a; equityCurve := v;
     totalPnl := totalPnl a; totalPnlPercent := totalPnlPercent a;
     realizedPnl := realizedPnl a; unrealizedPnl := unrealizedPnl a;
     maxDrawdown := maxDrawdown a; currentDrawdown := currentDrawdown a;
     status := status a; startedAt := startedAt a; stoppedAt := stoppedAt a;
     lastUpdate := lastUpdate a; metrics := metrics a |}.

Definition set_totalPnl (v : N) (a : PaperAccount) : PaperAccount :=
  {| a_id := a_id a; a_name := a_name a; config := config a;
     initialBalance := initialBalance a; balance := balance a;
     equity := equity a; availableMargin := availableMargin a;
     maxEquity := maxEquity a; positions := positions a;
     tradeHistory := tradeHistory a; equityCurve := equityCurve a;
     totalPnl := v; totalPnlPercent := totalPnlPercent a;
     realizedPnl := realizedPnl a; unrealizedPnl := unrealizedPnl a;
     maxDrawdown := maxDrawdown a; currentDrawdown := currentDrawdown a;
     status := status a; startedAt := startedAt a; stoppedAt := stoppedAt a;
     lastUpdate := lastUpdate a; metrics := metrics a |}.

Definition set_totalPnlPercent (v : N) (a : PaperAccount) : PaperAccount :=
  {| a_id := a_id a; a_name := a_name a; config := config a;
     initialBalance := initialBalance a; balance := balance a;
     equity := equity a; availableMargin := availableMargin a;
     maxEquity := maxEquity a; positions := positions a;
     tradeHistory := tradeHistory a; equityCurve := equityCurve a;
     totalPnl := totalPnl a; totalPnlPercent := v;
     realizedPnl := realizedPnl a; unrealizedPnl := unrealizedPnl a;
     maxDrawdown := maxDrawdown a; currentDrawdown := currentDrawdown a;
     status := status a; startedAt := startedAt a; stoppedAt := stoppedAt a;
     lastUpdate := lastUpdate a; metrics := metrics a |}.

Definition set_realizedPnl (v : N) (a : PaperAccount) : PaperAccount :=
  {| a_id := a_id a; a_name := a_name a; config := config a;
     initialBalance := initialBalance a; balance := balance a;
     equity := equity a; availableMargin := availableMargin a;
     maxEquity := maxEquity a; positions := positions a;
     tradeHistory := tradeHistory a; equityCurve := equityCurve a;
     totalPnl := totalPnl a; totalPnlPercent := totalPnlPercent a;
     realizedPnl := v; unrealizedPnl := unrealizedPnl a;
     maxDrawdown := maxDrawdown a; currentDrawdown := currentDrawdown a;
     status := status a; startedAt := startedAt a; stoppedAt := stoppedAt a;
     lastUpdate := lastUpdate a; metrics := metrics a |}.

Definition set_unrealizedPnl (v : N) (a : PaperAccount) : PaperAccount :=
  {| a_id := a_id a; a_name := a_name a; config := config a;
     initialBalance := initialBalance a; balance := balance a;
     equity := equity a; availableMargin := availableMargin a;
     maxEquity := maxEquity a; positions := positions a;
     tradeHistory := tradeHistory a; equityCurve := equityCurve a;
     totalPnl := totalPnl a; totalPnlPercent := totalPnlPercent a;
     realizedPnl := realizedPnl a; unrealizedPnl := v;
     maxDrawdown := maxDrawdown a; currentDrawdown := currentDrawdown a;
     status := status a; startedAt := startedAt a; stoppedAt := stoppedAt a;
     lastUpdate := lastUpdate a; metrics := metrics a |}.

Definition set_maxDrawdown (v : N) (a : PaperAccount) : PaperAccount :=
  {| a_id := a_id a; a_name := a_name a; config := config a;
     initialBalance := initialBalance a; balance := balance a;
     equity := equity a; availableMargin := availableMargin a;
     maxEquity := maxEquity a; positions := positions a;
     tradeHistory := tradeHistory a; equityCurve := equityCurve a;
     totalPnl := totalPnl a; totalPnlPercent := totalPnlPercent a;
     realizedPnl := realizedPnl a; unrealizedPnl := unrealizedPnl a;
     maxDrawdown := v; currentDrawdown := currentDrawdown a;
     status := status a; startedAt := startedAt a; stoppedAt := stoppedAt a;
     lastUpdate := lastUpdate a; metrics := metrics a |}.

Definition set_currentDrawdown (v : N) (a : PaperAccount) : PaperAccount :=
  {| a_id := a_id a; a_name := a_name a; config := config a;
     initialBalance := initialBalance a; balance := balance a;
     equity := equity a; availableMargin := availableMargin a;
     maxEquity := maxEquity a; positions := positions a;
     tradeHistory := tradeHistory a; equityCurve := equityCurve a;
     totalPnl := totalPnl a; totalPnlPercent := totalPnlPercent a;
     realizedPnl := realizedPnl a; unrealizedPnl := unrealizedPnl a;
     maxDrawdown := maxDrawdown a; currentDrawdown := v; status := status a;
     startedAt := startedAt a; stoppedAt := stoppedAt a;
     lastUpdate := lastUpdate a; metrics := metrics a |}.

Definition set_status (v : AccountStatus) (a : PaperAccount) : PaperAccount :=
  {| a_id := a_id a; a_name := a_name a; config := config a;
     initialBalance := initialBalance a; balance := balance a;
     equity := equity a; availableMargin := availableMargin a;
     maxEquity := maxEquity a; positions := positions a;
     tradeHistory := tradeHistory a; equityCurve := equityCurve a;
     totalPnl := totalPnl a; totalPnlPercent := totalPnlPercent a;
     realizedPnl := realizedPnl a; unrealizedPnl := unrealizedPnl a;
     maxDrawdown := maxDrawdown a; currentDrawdown := currentDrawdown a;
     status := v; startedAt := startedAt a; stoppedAt := stoppedAt a;
     lastUpdate := lastUpdate a; metrics := metrics a |}.

Definition set_startedAt (v : option Z) (a : PaperAccount) : PaperAccount :=
  {| a_id := a_id a; a_name := a_name a; config := config a;
     initialBalance := initialBalance a; balance := balance a;
     equity := equity a; availableMargin := availableMargin a;
     maxEquity := maxEquity a; positions := positions a;
     tradeHistory := tradeHistory a; equityCurve := equityCurve a;
     totalPnl := totalPnl a; totalPnlPercent := totalPnlPercent a;
     realizedPnl := realizedPnl a; unrealizedPnl := unrealizedPnl a;
     maxDrawdown := maxDrawdown a; currentDrawdown := currentDrawdown a;
     status := status a; startedAt := v; stoppedAt := stoppedAt a;
     lastUpdate := lastUpdate a; metrics := metrics a |}.

Definition set_stoppedAt (v : option Z) (a : PaperAccount) : PaperAccount :=
  {| a_id := a_id a; a_name := a_name a; config := config a;
     initialBalance := initialBalance a; balance := balance a;
     equity := equity a; availableMargin := availableMargin a;
     maxEquity := maxEquity a; positions := positions a;
     tradeHistory := tradeHistory a; equityCurve := equityCurve a;
     totalPnl := totalPnl a; totalPnlPercent := totalPnlPercent a;
     realizedPnl := realizedPnl a; unrealizedPnl := unrealizedPnl a;
     maxDrawdown := maxDrawdown a; currentDrawdown := currentDrawdown a;
     status := status a; startedAt := startedAt a; stoppedAt := v;
     lastUpdate := lastUpdate a; metrics := metrics a |}.

Definition set_lastUpdate (v : Z) (a : PaperAccount) : PaperAccount :=
  {| a_id := a_id a; a_name := a_name a; config := config a;
     initialBalance := initialBalance a; balance := balance a;
     equity := equity a; availableMargin := availableMargin a;
     maxEquity := maxEquity a; positions := positions a;
     tradeHistory := tradeHistory a; equityCurve := equityCurve a;
     totalPnl := totalPnl a; totalPnlPercent := totalPnlPercent a;
     realizedPnl := realizedPnl a; unrealizedPnl := unrealizedPnl a;
     maxDrawdown := maxDrawdown a; currentDrawdown := currentDrawdown a;
     status := status a; startedAt := startedAt a; stoppedAt := stoppedAt a;
     lastUpdate := v; metrics := metrics a |}.

Definition set_metrics (v : Metrics) (a : PaperAccount) : PaperAccount :=
  {| a_id := a_id a; a_name := a_name a; config := config a;
     initialBalance := initialBalance a; balance := balance a;
     equity := equity a; availableMargin := availableMargin a;
     maxEquity := maxEquity a; positions := positions a;
     tradeHistory := tradeHistory a; equityCurve := equityCurve a;
     totalPnl := totalPnl a; totalPnlPercent := totalPnlPercent a;
     realizedPnl := realizedPnl a; unrealizedPnl := unrealizedPnl a;
     maxDrawdown := maxDrawdown a; currentDrawdown := currentDrawdown a;
     status := status a; startedAt := startedAt a; stoppedAt := stoppedAt a;
     lastUpdate := lastUpdate a; metrics := v |}.

(** The fields of a [PaperTradingEngine] object; [events] is the stream
    [emitEvent] hands to the subscribers. *)
Record Engine := {
  accounts : list (string * PaperAccount);
  events : list PaperTradingEvent;
  positionIdCounter : Z;
  lastEquityRecordTime : gmap string Z;
  dailyPnl : gmap string N;
  lastDay : gmap string Z
}.

(** Assignments to the fields of the engine, [this.f = v]. *)
Definition set_accounts (v : list (string * PaperAccount)) (e : Engine) : Engine :=
  {| accounts := v; events := events e;
     positionIdCounter := positionIdCounter e;
     lastEquityRecordTime := lastEquityRecordTime e; dailyPnl := dailyPnl e;
     lastDay := lastDay e |}.

Definition set_events (v : list PaperTradingEvent) (e : Engine) : Engine :=
  {| accounts := accounts e; events := v;
     positionIdCounter := positionIdCounter e;
     lastEquityRecordTime := lastEquityRecordTime e; dailyPnl := dailyPnl e;
     lastDay := lastDay e |}.

Definition set_positionIdCounter (v : Z) (e : Engine) : Engine :=
  {| accounts := accounts e; events := events e; positionIdCounter := v;
     lastEquityRecordTime := lastEquityRecordTime e; dailyPnl := dailyPnl e;
     lastDay := lastDay e |}.

Definition set_lastEquityRecordTime (v : gmap string Z) (e : Engine) : Engine :=
  {| accounts := accounts e; events := events e;
     positionIdCounter := positionIdCounter e; lastEquityRecordTime := v;
     dailyPnl := dailyPnl e; lastDay := lastDay e |}.

Definition set_dailyPnl (v : gmap string N) (e : Engine) : Engine :=
  {| accounts := accounts e; events := events e;
     positionIdCounter := positionIdCounter e;
     lastEquityRecordTime := lastEquityRecordTime e; dailyPnl := v;
     lastDay := lastDay e |}.

Definition set_lastDay (v : gmap string Z) (e : Engine) : Engine :=
  {| accounts := accounts e; events := events e;
     positionIdCounter := positionIdCounter e;
     lastEquityRecordTime := lastEquityRecordTime e; dailyPnl := dailyPnl e;
     lastDay := v |}.

(** [calculateFullMetrics(account)], with the clock it reads, and
    [createEmptyMetrics()]. *)
Class MetricsCalculator := {
  calculateFullMetrics : PaperAccount -> Z -> Metrics;
  createEmptyMetrics : Metrics
}.
Context `{!MetricsCalculator}.

(** An operation runs on the engine and on the account object it was
    handed; [now] is the clock reading during the call. *)
Definition St : Type := Engine * PaperAccount.

(** [x] used as a number, [undefined] giving [NaN]. *)
Definition optNum (x : option N) : N :=
  match x with Some v => v | None => nan end.

(** [x || d]. *)
Definition orElse (x : option N) (d : N) : N :=
  match x with Some v => if truthy v then v else d | None => d end.

Definition isOpen (p : PaperPosition) : bool := isOpenStatus (p_status p).

(** *** Private methods *)

Definition emitEvent (type : EventType) (now : Z) (accountId : string)
    (e : Engine) : Engine :=
  set_events (events e ++ [ {| ev_type := type; ev_timestamp := now;
                               ev_accountId := accountId |} ]) e.

(** [positions.filter(p => p.status === "OPEN")
      .reduce((sum, p) => sum + p.unrealizedPnl, 0)]. *)
Definition openUnrealizedPnl (positions : list PaperPosition) : N :=
  sumN (map p_unrealizedPnl (List.filter isOpen positions)).

Definition updateAccountMetrics (now : Z) (st : St) : St :=
  let '(e, a) := st in
  let a := set_unrealizedPnl (openUnrealizedPnl (positions a)) a in
  let a := set_equity (nadd (balance a) (unrealizedPnl a)) a in
  let a := set_availableMargin (balance a) a in
  let a := set_maxEquity (if ngt (equity a) (maxEquity a) then equity a
                          else maxEquity a) a in
  let a := set_currentDrawdown
             (nmul (ndiv (nsub (maxEquity a) (equity a)) (maxEquity a))
                   (ofZ 100)) a in
  let a := set_maxDrawdown (nmax (maxDrawdown a) (currentDrawdown a)) a in
  let a := set_totalPnl (nsub (equity a) (initialBalance a)) a in
  let a := set_totalPnlPercent
             (nmul (ndiv (totalPnl a) (initialBalance a)) (ofZ 100)) a in
  let a := set_metrics (calculateFullMetrics a now) a in
  let e := if nge (currentDrawdown a) (c_maxDrawdown (config a))
           then emitEvent MAX_DRAWDOWN_REACHED now (a_id a) e
           else e in
  (e, set_lastUpdate now a).

Definition recordEquityPoint (now : Z) (prices : gmap string N) (st : St) : St :=
  let '(e, a) := st in
  let lastRecord := default 0 (lastEquityRecordTime e !! a_id a) in
  if (now - lastRecord <? 60000) && (0 <? Z.of_nat (length (equityCurve a)))
  then st
  else
    let e := set_lastEquityRecordTime
               (<[a_id a := now]> (lastEquityRecordTime e)) e in
    let currentDay := now / (24 * 60 * 60 * 1000) in
    let prevDay :=
      match lastDay e !! a_id a with
      | Some d => if d =? 0 then currentDay else d
      | None => currentDay
      end in
    let e := if negb (currentDay =? prevDay)
             then set_lastDay (<[a_id a := currentDay]> (lastDay e))
                    (set_dailyPnl (<[a_id a := ofZ 0]> (dailyPnl e)) e)
             else e in
    let a := set_unrealizedPnl (openUnrealizedPnl (positions a)) a in
    let a := set_equity (nadd (balance a) (unrealizedPnl a)) a in
    let a := set_maxEquity (if ngt (equity a) (maxEquity a) then equity a
                            else maxEquity a) a in
    let a := set_currentDrawdown
               (nmul (ndiv (nsub (maxEquity a) (equity a)) (maxEquity a))
                     (ofZ 100)) a in
    let a := set_maxDrawdown (if ngt (currentDrawdown a) (maxDrawdown a)
                              then currentDrawdown a else maxDrawdown a) a in
    let a := set_totalPnl (nsub (equity a) (initialBalance a)) a in
    let a := set_totalPnlPercent
               (nmul (ndiv (totalPnl a) (initialBalance a)) (ofZ 100)) a in
    let point :=
      {| ep_timestamp := now;
         ep_balance := balance a;
         ep_equity := equity a;
         ep_availableMargin := availableMargin a;
         ep_unrealizedPnl := unrealizedPnl a;
         ep_realizedPnl := realizedPnl a;
         ep_dailyPnl := orElse (dailyPnl e !! a_id a) (ofZ 0);
         cumulativePnl := totalPnl a;
         drawdown := nsub (maxEquity a) (equity a);
         drawdownPercent := currentDrawdown a;
         ep_maxDrawdown :=
           nadd (nsub (maxEquity a) (initialBalance a))
                (nsub (maxEquity a) (equity a));
         maxDrawdownPercent := maxDrawdown a;
         openPositions := Z.of_nat (length (List.filter isOpen (positions a)));
         tradesCount := Z.of_nat (length (tradeHistory a));
         winsCount :=
           Z.of_nat (length (List.filter (fun t => ngt (pnl t) (ofZ 0))
                                         (tradeHistory a)));
         lossesCount :=
           Z.of_nat (length (List.filter (fun t => nle (pnl t) (ofZ 0))
                                         (tradeHistory a)));
         prices := prices |} in
    let a := set_equityCurve (equityCurve a ++ [point]) a in
    (e, set_lastUpdate now a).

Definition calculateLiquidationPrice (entryPrice : N) (direction : Direction)
    (leverage : N) : N :=
  let liquidationPercent := ndiv (ofZ 100) leverage in
  match direction with
  | LONG => nmul entryPrice (nsub (ofZ 1) (ndiv liquidationPercent (ofZ 100)))
  | SHORT => nmul entryPrice (nadd (ofZ 1) (ndiv liquidationPercent (ofZ 100)))
  end.

Definition calculateAvgExitPrice (position : PaperPosition) : N :=
  match exits position with
  | [] => ofZ 0
  | _ =>
      let '(totalValue, totalSize) :=
        fold_left (fun '(totalValue, totalSize) exit =>
                     (nadd totalValue (nmul (ex_price exit) (ex_size exit)),
                      nadd totalSize (ex_size exit)))
                  (exits position) (ofZ 0, ofZ 0) in
      if ngt totalSize (ofZ 0) then ndiv totalValue totalSize else ofZ 0
  end.

Definition createTrade (now : Z) (position : PaperPosition) (account : PaperAccount)
  : PaperTrade :=
  let totalSize := sumN (map en_size (entries position)) in
  let pnl := p_realizedPnl position in
  let pnlPercent := nmul (ndiv pnl (margin position)) (ofZ 100) in
  {| t_id := "trade-" +:+ p_id position;
     t_positionId := p_id position;
     t_symbol := p_symbol position;
     t_direction := p_direction position;
     t_avgEntryPrice := avgEntryPrice position;
     t_totalSize := totalSize;
     t_openedAt := openedAt position;
     t_avgExitPrice := orElse (avgExitPrice position) (ofZ 0);
     t_closedAt := default now (closedAt position);
     t_closeReason := default MANUAL (closeReason position);
     pnl := pnl;
     pnlPercent := pnlPercent;
     fees := totalFees position;
     netPnl := nsub pnl (totalFees position);
     durationMinutes :=
       match closedAt position with
       | Some c => ndiv (ofZ (c - openedAt position)) (ofZ (1000 * 60))
       | None => ofZ 0
       end;
     t_tacticsSetId := tacticsSetId (tacticsState position) |}.

(** The profit of [size] units moved from [avgEntryPrice] to [price]. *)
Definition directionalPnl (position : PaperPosition) (price size : N) : N :=
  match p_direction position with
  | LONG => nmul (nsub price (avgEntryPrice position)) size
  | SHORT => nmul (nsub (avgEntryPrice position) price) size
  end.

(** [closePosition(account, position, price, reason)]; the position is
    the element [idx] of [account.positions]. *)
Definition closePosition (now : Z) (idx : nat) (price : N) (reason : Reason)
    (st : St) : St * option PaperTrade :=
  let '(e, a) := st in
  match positions a !! idx with
  | None => (st, None)
  | Some position =>
      if negb (isOpen position) then (st, None)
      else
        let fee := nmul (nmul (totalSize position) price)
                        (ndiv (feePercent (config a)) (ofZ 100)) in
        let pnl := directionalPnl position price (totalSize position) in
        let exit :=
          {| ex_index := Z.of_nat (length (exits position)) + 1;
             ex_price := price; ex_size := totalSize position;
             ex_fee := fee; ex_pnl := pnl; ex_reason := reason;
             ex_timestamp := now; tpIndex := None |} in
        let position := set_exits (exits position ++ [exit]) position in
        let position :=
          set_p_realizedPnl (nadd (p_realizedPnl position) (nsub pnl fee))
                            position in
        let position := set_totalFees (nadd (totalFees position) fee) position in
        let position := set_p_status CLOSED position in
        let position := set_closedAt (Some now) position in
        let position := set_avgExitPrice (Some price) position in
        let position := set_closeReason (Some reason) position in
        let a := set_positions (<[idx := position]> (positions a)) a in
        let a := set_balance
                   (nadd (balance a)
                         (nadd (margin position) (p_realizedPnl position))) a in
        let a := set_realizedPnl
                   (nadd (realizedPnl a) (p_realizedPnl position)) a in
        let trade := createTrade now position a in
        let a := set_tradeHistory (tradeHistory a ++ [trade]) a in
        let st := updateAccountMetrics now (e, a) in
        let '(e, a) :=
          recordEquityPoint now {[ p_symbol position := price ]} st in
        ((emitEvent POSITION_CLOSED now (a_id a) e, a), Some trade)
  end.

(** [partialClose(account, position, tp, price)]; [tp] is the element
    [tpIdx] of [position.takeProfitTargets]. *)
Definition partialClose (now : Z) (idx tpIdx : nat) (price : N) (st : St) : St :=
  let '(e, a) := st in
  match positions a !! idx with
  | None => st
  | Some position =>
      match takeProfitTargets position !! tpIdx with
      | None => st
      | Some tp =>
          let closeSize :=
            nmul (totalSize position) (ndiv (closePercent tp) (ofZ 100)) in
          let fee := nmul (nmul closeSize price)
                          (ndiv (feePercent (config a)) (ofZ 100)) in
          let pnl := directionalPnl position price closeSize in
          let exit :=
            {| ex_index := Z.of_nat (length (exits position)) + 1;
               ex_price := price; ex_size := closeSize;
               ex_fee := fee; ex_pnl := pnl; ex_reason := TP;
               ex_timestamp := now; tpIndex := Some (tp_index tp) |} in
          let position := set_exits (exits position ++ [exit]) position in
          let position :=
            set_totalSize (nsub (totalSize position) closeSize) position in
          let position :=
            set_p_realizedPnl (nadd (p_realizedPnl position) (nsub pnl fee))
                              position in
          let position := set_totalFees (nadd (totalFees position) fee) position in
          let tp := {| tp_index := tp_index tp; tp_price := tp_price tp;
                       closePercent := closePercent tp; filled := true;
                       filledAt := Some now |} in
          let position :=
            set_takeProfitTargets
              (<[tpIdx := tp]> (takeProfitTargets position)) position in
          let a := set_balance (nadd (balance a) (nsub pnl fee)) a in
          let e := emitEvent POSITION_UPDATED now (a_id a) e in
          let '(e, a, position) :=
            if nle (totalSize position) (ofZ 0) then
              let position := set_p_status CLOSED position in
              let position := set_closedAt (Some now) position in
              let position :=
                set_avgExitPrice (Some (calculateAvgExitPrice position))
                                 position in
              let position := set_closeReason (Some TP) position in
              let trade := createTrade now position a in
              let a := set_tradeHistory (tradeHistory a ++ [trade]) a in
              (emitEvent POSITION_CLOSED now (a_id a) e, a, position)
            else (e, a, position) in
          let a := set_positions (<[idx := position]> (positions a)) a in
          updateAccountMetrics now (e, a)
      end
  end.

Definition set_trailingState (ts : TrailingState) (position : PaperPosition)
  : PaperPosition :=
  let s := tacticsState position in
  set_tacticsState
    {| positionId := positionId s; tacticsSetId := tacticsSetId s;
       entryStatus := entryStatus s; updatedAt := updatedAt s;
       trailingState := Some ts |} position.

Definition updateTrailingStop (position : PaperPosition) (price : N)
  : PaperPosition :=
  match trailingState (tacticsState position) with
  | None => position
  | Some ts =>
      if negb (activated ts) then
        let profitPercent := unrealizedPnlPercent position in
        if optTruthy (activationProfit ts)
           && nge profitPercent (optNum (activationProfit ts))
        then
          set_trailingState
            {| activated := true; activationProfit := activationProfit ts;
               highestPrice := Some price; lowestPrice := Some price;
               percentValue := percentValue ts;
               currentStopPrice := currentStopPrice ts |} position
        else position
      else
        match p_direction position with
        | LONG =>
            if negb (optTruthy (highestPrice ts))
               || ngt price (optNum (highestPrice ts))
            then
              let newSL :=
                nmul price
                     (nsub (ofZ 1) (ndiv (optNum (percentValue ts)) (ofZ 100))) in
              let moves :=
                optTruthy (percentValue ts)
                && (negb (optTruthy (stopLoss position))
                    || ngt newSL (optNum (stopLoss position))) in
              let position :=
                set_trailingState
                  {| activated := activated ts;
                     activationProfit := activationProfit ts;
                     highestPrice := Some price;
                     lowestPrice := lowestPrice ts;
                     percentValue := percentValue ts;
                     currentStopPrice :=
                       if moves then Some newSL else currentStopPrice ts |}
                  position in
              if moves then set_stopLoss (Some newSL) position else position
            else position
        | SHORT =>
            if negb (optTruthy (lowestPrice ts))
               || nlt price (optNum (lowestPrice ts))
            then
              let newSL :=
                nmul price
                     (nadd (ofZ 1) (ndiv (optNum (percentValue ts)) (ofZ 100))) in
              let moves :=
                optTruthy (percentValue ts)
                && (negb (optTruthy (stopLoss position))
                    || nlt newSL (optNum (stopLoss position))) in
              let position :=
                set_trailingState
                  {| activated := activated ts;
                     activationProfit := activationProfit ts;
                     highestPrice := highestPrice ts;
                     lowestPrice := Some price;
                     percentValue := percentValue ts;
                     currentStopPrice :=
                       if moves then Some newSL else currentStopPrice ts |}
                  position in
              if moves then set_stopLoss (Some newSL) position else position
            else position
        end
  end.

(** [price] has reached the level [level] against the position
    ([adverse]) or in its favour. *)
Definition crossed (adverse : bool) (direction : Direction) (price level : N)
  : bool :=
  match direction, adverse with
  | LONG, true | SHORT, false => nle price level
  | LONG, false | SHORT, true => nge price level
  end.

(** One turn of the take-profit loop, on target [k]. *)
Definition takeProfitStep (now : Z) (idx : nat) (price : N) (st : St) (k : nat)
  : St :=
  match positions (snd st) !! idx with
  | None => st
  | Some position =>
      match takeProfitTargets position !! k with
      | None => st
      | Some tp =>
          if filled tp then st
          else if crossed false (p_direction position) price (tp_price tp)
          then partialClose now idx k (tp_price tp) st
          else st
      end
  end.

(** [updatePositionPrice(position, price, account)]. *)
Definition updatePositionPrice (now : Z) (idx : nat) (price : N) (st : St) : St :=
  let '(e, a) := st in
  match positions a !! idx with
  | None => st
  | Some position =>
      let position := set_currentPrice price position in
      let position :=
        set_p_unrealizedPnl (directionalPnl position price (totalSize position))
                            position in
      let position :=
        set_unrealizedPnlPercent
          (nmul (ndiv (p_unrealizedPnl position) (margin position)) (ofZ 100))
          position in
      let a := set_positions (<[idx := position]> (positions a)) a in
      if optTruthy (stopLoss position)
         && crossed true (p_direction position) price (optNum (stopLoss position))
      then fst (closePosition now idx (optNum (stopLoss position)) SL (e, a))
      else
        let '(e, a) :=
          fold_left (takeProfitStep now idx price)
                    (seq 0 (length (takeProfitTargets position))) (e, a) in
        match positions a !! idx with
        | None => (e, a)
        | Some position =>
            let position := updateTrailingStop position price in
            let a := set_positions (<[idx := position]> (positions a)) a in
            if optTruthy (liquidationPrice position)
               && crossed true (p_direction position) price
                    (optNum (liquidationPrice position))
            then fst (closePosition now idx (optNum (liquidationPrice position))
                                    LIQUIDATION (e, a))
            else (e, a)
        end
  end.

Definition selectTactics (account : PaperAccount) (signal : StrategySignal N)
  : option TacticsSet :=
  head (tacticsSets (config account)).

Definition canOpenPosition (account : PaperAccount) (symbol : string) : bool :=
  let openPositions := length (List.filter isOpen (positions account)) in
  let hasSymbolPosition :=
    existsb (fun p => isOpen p && String.eqb (p_symbol p) symbol)
            (positions account) in
  nlt (ofZ (Z.of_nat openPositions)) (maxOpenPositions (config account))
  && negb hasSymbolPosition.

Definition calculatePositionSize (account : PaperAccount) (price : N) : N :=
  let riskAmount :=
    nmul (balance account) (ndiv (maxRiskPerTrade (config account)) (ofZ 100)) in
  ndiv riskAmount price.

(** An unfilled target, [{ index, price, closePercent, filled: false }]. *)
Definition newTarget (index : Z) (price closePercent : N) : PaperTPTarget :=
  {| tp_index := index; tp_price := price; closePercent := closePercent;
     filled := false; filledAt := None |}.

(** [entry * (1 + percent / 100)] for [up], [entry * (1 - percent / 100)]
    otherwise. *)
Definition offsetPrice (up : bool) (entry percent : N) : N :=
  nmul entry ((if up then nadd else nsub) (ofZ 1) (ndiv percent (ofZ 100))).

Definition isLong (d : Direction) : bool :=
  match d with LONG => true | SHORT => false end.

(** The stop-loss a tactics set gives a new position. *)
Definition tacticsStopLoss (tactics : TacticsSet) (direction : Direction)
    (price : N) : option N :=
  if optTruthy (slPrice tactics) then slPrice tactics
  else if optTruthy (slPercent tactics)
  then Some (offsetPrice (negb (isLong direction)) price
                         (optNum (slPercent tactics)))
  else None.

(** The take-profit targets a tactics set gives a new position. *)
Definition tacticsTargets (tactics : TacticsSet) (direction : Direction)
    (price : N) : list PaperTPTarget :=
  match targets tactics with
  | Some ts =>
      imap (fun i t =>
              newTarget (Z.of_nat i + 1)
                (orElse (tc_price t)
                        (offsetPrice (isLong direction) price
                                     (orElse (tc_profitPercent t) (ofZ 0))))
                (tc_closePercent t)) ts
  | None =>
      if optTruthy (tpPrice tactics)
      then [newTarget 1 (optNum (tpPrice tactics)) (ofZ 100)]
      else if optTruthy (tpPercent tactics)
      then [newTarget 1 (offsetPrice (isLong direction) price
                                     (optNum (tpPercent tactics))) (ofZ 100)]
      else []
  end.

Definition createPosition (now : Z) (symbol : string) (direction : Direction)
    (size price leverage : N) (tacticsSet : option TacticsSet) (st : St)
  : St * PaperPosition :=
  let '(e, account) := st in
  let margin := ndiv (nmul size price) leverage in
  let fee := nmul (nmul size price) (ndiv (feePercent (config account)) (ofZ 100)) in
  let account := set_balance (nsub (balance account) (nadd margin fee)) account in
  let tactics :=
    match tacticsSet with
    | Some t => Some t
    | None => head (tacticsSets (config account))
    end in
  let e := set_positionIdCounter (positionIdCounter e + 1) e in
  let position :=
    {| p_id := "pos-" +:+ pretty (positionIdCounter e);
       p_symbol := symbol;
       p_direction := direction;
       p_status := OPEN;
       avgEntryPrice := price;
       entries := [ {| en_index := 1; en_price := price; en_size := size;
                       en_fee := fee; en_timestamp := now;
                       orderType := "MARKET" |} ];
       totalSize := size;
       openedAt := now;
       avgExitPrice := None;
       exits := [];
       closedAt := None;
       closeReason := None;
       currentPrice := price;
       stopLoss := None;
       takeProfitTargets := [];
       p_unrealizedPnl := ofZ 0;
       unrealizedPnlPercent := ofZ 0;
       p_realizedPnl := ofZ 0;
       totalFees := fee;
       leverage := leverage;
       marginMode := "isolated";
       margin := margin;
       liquidationPrice :=
         Some (calculateLiquidationPrice price direction leverage);
       tacticsState :=
         {| positionId := "pos-" +:+ pretty (positionIdCounter e);
            tacticsSetId := match tactics with Some t => ts_id t | None => "" end;
            entryStatus := "COMPLETED";
            updatedAt := now;
            trailingState := None |};
       signalId := None;
       signalConfidence := None |} in
  let position :=
    match tactics with
    | None => position
    | Some tactics =>
        let position :=
          match tacticsStopLoss tactics direction price with
          | Some sl => set_stopLoss (Some sl) position
          | None => position
          end in
        let position :=
          set_takeProfitTargets (tacticsTargets tactics direction price)
                                position in
        match trailingConfig tactics with
        | Some tc => set_trailingState tc position
        | None => position
        end
    end in
  ((e, account), position).

Definition executeSignal (now : Z) (signal : StrategySignal N) (price : N)
    (candles : list Candle) (st : St) : St :=
  let direction :=
    if String.eqb (sig_type signal) "LONG" then Some LONG
    else if String.eqb (sig_type signal) "SHORT" then Some SHORT
    else None in
  match direction with
  | None => st
  | Some direction =>
      let positionSize := calculatePositionSize (snd st) price in
      let tactics := selectTactics (snd st) signal in
      let '((e, account), position) :=
        createPosition now (sig_symbol signal) direction positionSize price
                       (maxLeverage (config (snd st))) tactics st in
      let position := set_signalConfidence (Some (confidence signal)) position in
      let position :=
        if optTruthy (suggestedStopLoss signal)
        then set_stopLoss (suggestedStopLoss signal) position
        else position in
      let position :=
        match suggestedTakeProfits signal with
        | Some (tp :: tps) =>
            set_takeProfitTargets
              (imap (fun i tp => newTarget (Z.of_nat i + 1) (fst tp) (snd tp))
                    (tp :: tps)) position
        | _ => position
        end in
      let account := set_positions (positions account ++ [position]) account in
      (emitEvent POSITION_OPENED now (a_id account) e, account)
  end.

(** *** Public methods *)

Definition newEngine : Engine :=
  {| accounts := []; events := []; positionIdCounter := 0;
     lastEquityRecordTime := ∅; dailyPnl := ∅; lastDay := ∅ |}.

Definition createAccount (now : Z) (config : PaperTradingConfig) (e : Engine)
  : Engine * PaperAccount :=
  let account :=
    {| a_id := c_id config;
       a_name := c_name config;
       config := config;
       initialBalance := c_initialBalance config;
       balance := c_initialBalance config;
       equity := c_initialBalance config;
       availableMargin := c_initialBalance config;
       maxEquity := c_initialBalance config;
       positions := [];
       tradeHistory := [];
       equityCurve := [];
       totalPnl := ofZ 0;
       totalPnlPercent := ofZ 0;
       realizedPnl := ofZ 0;
       unrealizedPnl := ofZ 0;
       maxDrawdown := ofZ 0;
       currentDrawdown := ofZ 0;
       status := IDLE;
       startedAt := None;
       stoppedAt := None;
       lastUpdate := now;
       metrics := createEmptyMetrics |} in
  let e := set_lastEquityRecordTime
             (<[a_id account := now]> (lastEquityRecordTime e)) e in
  let e := set_dailyPnl (<[a_id account := ofZ 0]> (dailyPnl e)) e in
  let e := set_lastDay
             (<[a_id account := now / (24 * 60 * 60 * 1000)]> (lastDay e)) e in
  let '(e, account) := recordEquityPoint now ∅ (e, account) in
  let e := set_accounts (mapSet (a_id account) account (accounts e)) e in
  (emitEvent BALANCE_UPDATE now (a_id account) e, account).

(** Apply [f] to the account [accountId], if the engine has it. *)
Definition withAccount (accountId : string) (f : PaperAccount -> PaperAccount)
    (e : Engine) : Engine :=
  match mapGet accountId (accounts e) with
  | None => e
  | Some account => set_accounts (mapSet accountId (f account) (accounts e)) e
  end.

Definition start (now : Z) (accountId : string) (e : Engine) : bool * Engine :=
  match mapGet accountId (accounts e) with
  | None => (false, e)
  | Some _ =>
      (true,
       withAccount accountId
         (fun a => set_lastUpdate now (set_startedAt (Some now)
                                         (set_status RUNNING a))) e)
  end.

Definition stop (now : Z) (accountId : string) (e : Engine) : Engine :=
  withAccount accountId (fun a => set_stoppedAt (Some now) (set_status STOPPED a)) e.

Definition pause (accountId : string) (e : Engine) : Engine :=
  withAccount accountId (set_status PAUSED) e.

Definition resume (accountId : string) (e : Engine) : Engine :=
  withAccount accountId (set_status RUNNING) e.

(** The body of [updatePrices] for one position of a running account. *)
Definition updatePricesPosition (now : Z) (prices : gmap string N) (st : St)
    (idx : nat) : St :=
  match positions (snd st) !! idx with
  | None => st
  | Some position =>
      if negb (isOpen position) then st
      else
        match prices !! p_symbol position with
        | None => st
        | Some price =>
            if negb (truthy price) then st
            else updatePositionPrice now idx price st
        end
  end.

(** The body of [updatePrices] for one account. *)
Definition updatePricesAccount (now : Z) (prices : gmap string N) (st : St) : St :=
  let '(e, account) := st in
  if negb (isRunning (status account)) then st
  else
    let st := fold_left (updatePricesPosition now prices)
                        (seq 0 (length (positions account))) st in
    let st := updateAccountMetrics now st in
    recordEquityPoint now prices st.

Definition updatePrices (now : Z) (prices : gmap string N) (e : Engine) : Engine :=
  let '(e, accounts) :=
    fold_left (fun '(e, done) '(accountId, account) =>
                 let '(e, account) := updatePricesAccount now prices (e, account) in
                 (e, done ++ [(accountId, account)]))
              (accounts e) (e, []) in
  set_accounts accounts e.

(** The exit check of [processCandles] for one position; once a call has
    thrown, the remaining turns of the loop do not run. *)
Definition exitCheckStep (now : Z) (symbol : string) (candles : list Candle)
    (indicators : Indicators) (currentPrice : N)
    (acc : S * St * Completion unit) (idx : nat) : S * St * Completion unit :=
  let '(strategy, st, c) := acc in
  match c, positions (snd st) !! idx with
  | Normal _, Some position =>
      if isOpen position && String.eqb (p_symbol position) symbol then
        let info :=
          {| pi_direction := directionName (p_direction position);
             pi_entryPrice := avgEntryPrice position;
             pi_currentPrice := currentPrice;
             pi_size := totalSize position;
             pi_openTime := openedAt position |} in
        match populateExitSignal strategy candles indicators info with
        | (strategy, Throw err) => (strategy, st, Throw err)
        | (strategy, Normal exitSignal) =>
            match exitSignal with
            | Some sg =>
                if String.eqb (sig_type sg) "EXIT_LONG"
                   || String.eqb (sig_type sg) "EXIT_SHORT"
                then (strategy,
                      fst (closePosition now idx currentPrice SIGNAL st),
                      Normal ())
                else (strategy, st, Normal ())
            | None => (strategy, st, Normal ())
            end
        end
      else acc
  | _, _ => acc
  end.

(** The [try] block of [processCandles]. *)
Definition processCandlesTry (now : Z) (symbol : string) (candles : list Candle)
    (strategy : S) (st : St)
  : S * St * Completion (option (StrategySignal N)) :=
  match populateIndicators strategy candles with
  | (strategy, Throw err) => (strategy, st, Throw err)
  | (strategy, Normal indicators) =>
      match StrategyManager.lastClose candles with
      | Throw err => (strategy, st, Throw err)
      | Normal currentPrice =>
          match populateEntrySignal strategy candles indicators currentPrice with
          | (strategy, Throw err) => (strategy, st, Throw err)
          | (strategy, Normal signal) =>
              let '(signal, st) :=
                match signal with
                | Some sg =>
                    if negb (String.eqb (sig_symbol sg) "") then
                      let sg := StrategyManager.setSymbol symbol sg in
                      let st := (emitEvent SIGNAL_GENERATED now (a_id (snd st))
                                           (fst st), snd st) in
                      (Some sg,
                       if canOpenPosition (snd st) symbol
                       then executeSignal now sg currentPrice candles st
                       else st)
                    else (Some sg, st)
                | None => (None, st)
                end in
              let '(strategy, st, c) :=
                fold_left (exitCheckStep now symbol candles indicators currentPrice)
                          (seq 0 (length (positions (snd st))))
                          (strategy, st, Normal ()) in
              match c with
              | Throw err => (strategy, st, Throw err)
              | Normal _ => (strategy, st, Normal signal)
              end
          end
      end
  end.

(** [processCandles(accountId, symbol, candles)]; [strategyManager] is the
    object [getStrategyManager()] returns. *)
Definition processCandles (now : Z) (accountId symbol : string)
    (candles : list Candle) (strategyManager : StrategyManager.Manager N S)
    (e : Engine)
  : StrategyManager.Manager N S * Engine * option (StrategySignal N) :=
  match mapGet accountId (accounts e) with
  | None => (strategyManager, e, None)
  | Some account =>
      if negb (isRunning (status account)) then (strategyManager, e, None)
      else if negb (autoTrading (config account)) then (strategyManager, e, None)
      else
        match StrategyManager.getStrategy (strategyId (config account))
                                          strategyManager with
        | None => (strategyManager, emitEvent ERROR now accountId e, None)
        | Some strategy =>
            let '(strategy, (e, account), c) :=
              processCandlesTry now symbol candles strategy (e, account) in
            let strategyManager :=
              StrategyManager.setStrategies strategyManager
                (<[strategyId (config account) := strategy]>
                   (StrategyManager.strategies strategyManager)) in
            let e := set_accounts (mapSet accountId account (accounts e)) e in
            match c with
            | Normal signal => (strategyManager, e, signal)
            | Throw err => (strategyManager, emitEvent ERROR now accountId e, None)
            end
        end
  end.

(** The [options] of [openPosition]. *)
Record OpenOptions := {
  o_stopLoss : option N;
  o_takeProfit : option N;
  o_leverage : option N;
  o_tacticsSet : option TacticsSet
}.

Record OpenResult := {
  or_success : bool;
  or_position : option PaperPosition;
  or_error : option string
}.

Definition openPosition (now : Z) (accountId symbol : string)
    (direction : Direction) (size price : N) (options : option OpenOptions)
    (e : Engine) : OpenResult * Engine :=
  match mapGet accountId (accounts e) with
  | None =>
      ({| or_success := false; or_position := None;
          or_error := Some "Account not found" |}, e)
  | Some account =>
      if negb (canOpenPosition account symbol) then
        ({| or_success := false; or_position := None;
            or_error := Some "Cannot open position (limit reached)" |}, e)
      else
        let '((e, account), position) :=
          createPosition now symbol direction size price
            (orElse (options ≫= o_leverage) (maxLeverage (config account)))
            (options ≫= o_tacticsSet) (e, account) in
        let position :=
          if optTruthy (options ≫= o_stopLoss)
          then set_stopLoss (options ≫= o_stopLoss) position
          else position in
        let position :=
          if optTruthy (options ≫= o_takeProfit)
          then set_takeProfitTargets
                 [newTarget 1 (optNum (options ≫= o_takeProfit)) (ofZ 100)]
                 position
          else position in
        let account := set_positions (positions account ++ [position]) account in
        let st := updateAccountMetrics now (e, account) in
        let '(e, account) := recordEquityPoint now {[ symbol := price ]} st in
        let e := emitEvent POSITION_OPENED now accountId e in
        ({| or_success := true; or_position := Some position; or_error := None |},
         set_accounts (mapSet accountId account (accounts e)) e)
  end.

(** [closePosition] called from outside, on position [idx] of the
    account [accountId]. *)
Definition closePositionOf (now : Z) (accountId : string) (idx : nat) (price : N)
    (reason : Reason) (e : Engine) : Engine * option PaperTrade :=
  match mapGet accountId (accounts e) with
  | None => (e, None)
  | Some account =>
      let '((e, account), trade) :=
        closePosition now idx price reason (e, account) in
      (set_accounts (mapSet accountId account (accounts e)) e, trade)
  end.

Definition closeAllPositions (now : Z) (accountId : string)
    (prices : gmap string N) (e : Engine) : Engine * list PaperTrade :=
  match mapGet accountId (accounts e) with
  | None => (e, [])
  | Some account =>
      let '((e, account), trades) :=
        fold_left
          (fun '(st, trades) idx =>
             match positions (snd st) !! idx with
             | Some position =>
                 if isOpen position then
                   let price := orElse (prices !! p_symbol position)
                                       (currentPrice position) in
                   let '(st, trade) := closePosition now idx price MANUAL st in
                   (st, trades ++ match trade with Some t => [t] | None => [] end)
                 else (st, trades)
             | None => (st, trades)
             end)
          (seq 0 (length (positions account))) ((e, account), []) in
      (set_accounts (mapSet accountId account (accounts e)) e, trades)
  end.

Definition getAccount (accountId : string) (e : Engine) : option PaperAccount :=
  mapGet accountId (accounts e).

Definition deleteAccount (accountId : string) (e : Engine) : Engine :=
  set_lastDay (delete accountId (lastDay e))
    (set_dailyPnl (delete accountId (dailyPnl e))
       (set_lastEquityRecordTime (delete accountId (lastEquityRecordTime e))
          (set_accounts (mapDelete accountId (accounts e)) e))).

End Engine.

Arguments TrailingState : clear implicits.
Arguments TPTargetConfig : clear implicits.
Arguments TacticsSet : clear implicits.
Arguments TacticsExecutionState : clear implicits.
Arguments PaperTradingConfig : clear implicits.
Arguments PaperTradeEntry : clear implicits.
Arguments PaperTradeExit : clear implicits.
Arguments PaperTPTarget : clear implicits.
Arguments PaperPosition : clear implicits.
Arguments PaperTrade : clear implicits.
Arguments PaperEquityPoint : clear implicits.
Arguments PaperAccount : clear implicits.
Arguments Engine : clear implicits.
Arguments MetricsCalculator : clear implicits.
Arguments St : clear implicits.
Arguments OpenOptions : clear implicits.
Arguments OpenResult : clear implicits.

End PaperTrading.

(** ** Predicates and sample inputs used by the statements below *)

Module Statements.
Import Builtin IndicatorCalculator.

Section Generic.
Context {N : Type} `{JsNumber N}.

(** [0 <= v && v <= 100]. *)
Definition withinPercent (v : N) : bool := nle (ofZ 0) v && nle v (ofZ 100).

(** Every non-null entry of [values] satisfies [ok]. *)
Definition nonNullAll (ok : N -> bool) (values : list (option N)) : Prop :=
  forall v, In (Some v) values -> ok v = true.

(** The RSI range property, for one number model. *)
Definition rsiInRange : Prop :=
  forall (closes : list N) (period : Z),
    1 <= period ->
    period + 1 <= Z.of_nat (length closes) ->
    nonNullAll withinPercent (rsi closes period).

(** The MACD line as the built-in [macd] definition declares it:
    [ta.ema(close, fastLength) - ta.ema(close, slowLength)]. *)
Definition macdLineDeclared (candles : list (Candle N)) (inputs : Inputs N)
  : list (option N) :=
  let closes := closesOf candles in
  macdLineOf closes (ema closes (i_fastLength inputs))
                    (ema closes (i_slowLength inputs)).

(** The value a chart point shows, if any. *)
Definition pointValue (p : ChartPoint N) : option N :=
  match p with
  | Whitespace _ => None
  | LinePoint _ v | HistPoint _ v _ => Some v
  end.

(** [data] has one point per candle, in order and at the candle's time;
    the point shows [values[i]] when that is a finite number and is a
    whitespace point when it is null, undefined, NaN or infinite. *)
Definition alignedWith (candles : list (Candle N)) (values : list (option N))
    (data : list (ChartPoint N)) : Prop :=
  length data = length candles /\
  forall (i : nat) c, candles !! i = Some c ->
    exists p, data !! i = Some p /\
              pointTime p = time c /\
              match validValue (values !! i) with
              | Some v => pointValue p = Some v
              | None => p = Whitespace (time c)
              end.

(** The value arrays a calculator hands to [buildLineData] and
    [buildHistogramData], by indicator id and series name. *)
Definition computedValues `{!JsSqrt N} (id : string) (candles : list (Candle N))
    (inputs : Inputs N) : list (string * list (option N)) :=
  let closes := closesOf candles in
  let length := i_length inputs in
  if String.eqb id "sma" then [("sma", sma closes length)]
  else if String.eqb id "ema" then [("ema", ema closes length)]
  else if String.eqb id "ema_cross" then
    [("fast", ema closes (i_fastLength inputs));
     ("slow", ema closes (i_slowLength inputs))]
  else if String.eqb id "rsi" then [("rsi", rsi closes length)]
  else if String.eqb id "macd" then
    let macdLine :=
      macdLineOf closes (ema closes (i_fastLength inputs))
                        (ema closes (i_signalLength inputs)) in
    let signalLine :=
      signalLineOf candles macdLine
        (ema (nonNull macdLine) (i_signalLength inputs)) in
    [("macd", macdLine); ("signal", signalLine);
     ("histogram", histogramOf candles macdLine signalLine)]
  else if String.eqb id "bb" then
    let smaValues := sma closes length in
    let stdevValues := stdev closes length in
    let band op :=
      map (nullable2 (fun m d => op m (nmul d (i_mult inputs)))
                     smaValues stdevValues)
          (zrange 0 (Z.of_nat (List.length closes))) in
    [("upper", band nadd); ("middle", smaValues); ("lower", band nsub)]
  else if String.eqb id "atr" then [("atr", atr candles length)]
  else if String.eqb id "vol_sma" then
    [("volSMA", sma (map volume candles) length)]
  else [].

(** The series of a result, lines first. *)
Definition allSeries (r : IndicatorResult N) : list (Series N) :=
  lines r ++ histograms r.

(** The series [s] of indicator [id] is the volume histogram of
    [vol_sma]. *)
Definition isVolumeHistogram (id : string) (s : Series N) : Prop :=
  id = "vol_sma" /\ s_name s = "volume".
End Generic.

Arguments rsiInRange N {_}.

Section ForecastStatements.
Import Forecast.
Context {N : Type} `{JsNumber N}.

(** [upward + downward + consolidation]. *)
Definition probabilitySum (p : ForecastProbabilities N) : N :=
  nadd (nadd (upward p) (downward p)) (consolidation p).

(** [1 - 2e-4 <= s && s <= 1 + 2e-4]. *)
Definition closeToOne (s : N) : bool :=
  nle (dec 9998 4) s && nle s (dec 10002 4).

(** The total of the branch weights is positive, so [generateForecast]
    normalizes, and the rounded probabilities sum to 1 within 2e-4. *)
Definition normalizes (indicators : AggregatedIndicators N)
    (correlations : Correlations N) (config : VisionBotConfig N) : Prop :=
  ngt (weightTotal (branchWeights indicators correlations config)) (ofZ 0)
    = true /\
  closeToOne (probabilitySum (generateForecast indicators correlations config))
    = true.
End ForecastStatements.

Section ManagerStatements.
Import Js StrategyTypes StrategyManager.
Context {N : Type} `{JsNumber N} `{!StrategyDecls N}.
Context {S : Type} `{!IStrategy N S}.

(** During [analyze] on [candles], [populateIndicators] throws [e], or it
    returns and [populateEntrySignal], called on what it returned and
    on the last close, throws [e]. *)
Definition throwsDuringAnalyze (strategy : S) (candles : list Candle)
    (e : Thrown) : Prop :=
  snd (populateIndicators strategy candles) = Throw e \/
  exists strategy' indicators currentPrice,
    populateIndicators strategy candles = (strategy', Normal indicators) /\
    lastClose candles = Normal currentPrice /\
    snd (populateEntrySignal strategy' candles indicators currentPrice)
      = Throw e.

(** [start] is called on an unregistered id, or with parameters the
    strategy's configuration does not validate. *)
Definition startRejected (m : Manager N S) (strategyId : string)
    (parameters : option (gmap string (ParamValue N))) (message : string)
  : Prop :=
  (strategies m !! strategyId = None /\
   message = "Strategy " +:+ strategyId +:+ " not found") \/
  exists strategy p,
    strategies m !! strategyId = Some strategy /\
    parameters = Some p /\
    valid (validateStrategyParameters (getConfig strategy) p) = false /\
    message
      = String.concat "; "
          (errors (validateStrategyParameters (getConfig strategy) p)).
End ManagerStatements.

Section EngineStatements.
Import PaperTrading.
Context {N : Type} `{JsNumber N} {Metrics : Type}.

(** The sum of [unrealizedPnl] over the positions whose status is OPEN,
    added up from 0 in the order of the array. *)
Definition sumOpenUnrealizedPnl (a : PaperAccount N Metrics) : N :=
  fold_left nadd
    (map p_unrealizedPnl
         (List.filter (fun p => isOpenStatus (p_status p)) (positions a)))
    (ofZ 0).

(** [equity == balance + sum of unrealizedPnl over the open positions]. *)
Definition equityConsistent (a : PaperAccount N Metrics) : Prop :=
  equity a = nadd (balance a) (sumOpenUnrealizedPnl a).

(** The stop-loss of [position] is set and [price] has reached it. *)
Definition stopLossHit (position : PaperPosition N) (price : N) : bool :=
  optTruthy (stopLoss position)
  && crossed true (p_direction position) price (optNum (stopLoss position)).

(** Some unfilled take-profit target of [position] is reached by [price]. *)
Definition takeProfitHit (position : PaperPosition N) (price : N) : bool :=
  existsb (fun tp => negb (filled tp)
                     && crossed false (p_direction position) price (tp_price tp))
          (takeProfitTargets position).
End EngineStatements.

(** *** Sample inputs, in binary64 *)

(** A candle whose four prices and volume are all [c]. *)
Definition flatCandle (t : Z) (c : float) : Candle float :=
  {| time := t; open := c; high := c; low := c; close := c; volume := c |}.

(** Closes 1, 2, 4, 8, 16, 32 with [fastLength = 2], [slowLength = 4],
    [signalLength = 3]. *)
Definition macdCandles : list (Candle float) :=
  [flatCandle 1 1%float; flatCandle 2 2%float; flatCandle 3 4%float;
   flatCandle 4 8%float; flatCandle 5 16%float; flatCandle 6 32%float].

Definition macdInputs : Inputs float :=
  {| i_length := 14; i_fastLength := 2; i_slowLength := 4;
     i_signalLength := 3; i_mult := 2%float |}.

(** Finite closes whose differences overflow: [0, 2^1023, -2^1023, 2^1023]. *)
Definition overflowCloses : list float :=
  [0; 0x1p+1023; -0x1p+1023; 0x1p+1023]%float.

(** One candle whose volume is [NaN]. *)
Definition nanVolumeCandles : list (Candle float) :=
  [ {| time := 1; open := 1%float; high := 1%float; low := 1%float;
       close := 1%float; volume := PrimFloat.nan |} ].

Definition volSmaIndicator : BuiltInIndicator :=
  {| id := "vol_sma"; name := "Volume SMA"; category := "volume";
     overlay := false |}.

Definition nanVolumeWorld : World float :=
  {| w_candles := nanVolumeCandles;
     w_inputs := {| i_length := 1; i_fastLength := 12; i_slowLength := 26;
                    i_signalLength := 9; i_mult := 2%float |};
     w_console := [] |}.

(** A quiet market correlated with gold, and a configuration whose
    [correlationWeight] is -10. *)
Definition quietIndicators : Forecast.AggregatedIndicators float :=
  {| Forecast.roc_24h := 0%float; Forecast.atr_pct := dec 2 2;
     Forecast.trend_strength := 0%float; Forecast.volume_ratio := 1%float;
     Forecast.crypto_cnt := 0%float; Forecast.stock_cnt := 0%float;
     Forecast.gold_roc := 1%float |}.

Definition fullCorrelation : Forecast.Correlations float :=
  {| Forecast.avg_corr := 1%float |}.

Definition negativeWeightConfig : Forecast.VisionBotConfig float :=
  {| Forecast.trendThreshold := None; Forecast.volatilityLow := None;
     Forecast.volatilityHigh := None;
     Forecast.correlationWeight := Some (-10)%float |}.

(** The same market on exact numbers, with the default configuration. *)
Definition quietIndicatorsQ : Forecast.AggregatedIndicators Q :=
  {| Forecast.roc_24h := 0%Q; Forecast.atr_pct := (2 # 100)%Q;
     Forecast.trend_strength := 0%Q; Forecast.volume_ratio := 1%Q;
     Forecast.crypto_cnt := 0%Q; Forecast.stock_cnt := 0%Q;
     Forecast.gold_roc := 1%Q |}.

Definition fullCorrelationQ : Forecast.Correlations Q :=
  {| Forecast.avg_corr := 1%Q |}.

Definition defaultConfigQ : Forecast.VisionBotConfig Q :=
  {| Forecast.trendThreshold := None; Forecast.volatilityLow := None;
     Forecast.volatilityHigh := None; Forecast.correlationWeight := None |}.

(** Closes 1, 2, 4, 3 on exact numbers. *)
Definition smallClosesQ : list Q := [1; 2; 4; 3]%Q.

(** *** Sample strategies *)

Record SampleCandle := { sc_close : float }.

(** Parameters are valid unless [period] is given and is not a number. *)
Definition sampleValidate (config : StrategyTypes.StrategyConfig)
    (parameters : gmap string (StrategyTypes.ParamValue float))
  : StrategyTypes.ValidationResult :=
  match parameters !! "period" with
  | Some (StrategyTypes.PNum _) | None =>
      {| StrategyTypes.valid := true; StrategyTypes.errors := [] |}
  | Some _ =>
      {| StrategyTypes.valid := false;
         StrategyTypes.errors := ["Parameter period must be a number"] |}
  end.

#[export] Instance sampleDecls : StrategyTypes.StrategyDecls float := {|
  StrategyTypes.Candle := SampleCandle;
  StrategyTypes.close := sc_close;
  StrategyTypes.Indicators := unit;
  StrategyTypes.emptyIndicators := tt;
  StrategyTypes.validateStrategyParameters := sampleValidate
|}.

(** Three strategy classes: one that always signals a long entry, one
    whose [populateIndicators] throws [new Error("no data")], and one
    whose [populateEntrySignal] throws a string. *)
Inductive SampleStrategy := AlwaysLong | FailingIndicators | FailingEntry.

Definition sampleId (s : SampleStrategy) : string :=
  match s with
  | AlwaysLong => "always_long"
  | FailingIndicators => "failing_indicators"
  | FailingEntry => "failing_entry"
  end.

Definition longSignal : StrategyTypes.StrategySignal float :=
  {| StrategyTypes.sig_type := "LONG"; StrategyTypes.sig_symbol := "BTCUSDT";
     StrategyTypes.confidence := 1%float;
     StrategyTypes.suggestedStopLoss := None;
     StrategyTypes.suggestedTakeProfits := None |}.

#[export] Instance sampleStrategy
  : StrategyTypes.IStrategy float SampleStrategy := {|
  StrategyTypes.getConfig := fun s =>
    {| StrategyTypes.cfg_id := sampleId s;
       StrategyTypes.minCandlesRequired := 1;
       StrategyTypes.defaultTimeframe := "1h" |};
  StrategyTypes.getStateParameters := fun _ => ∅;
  StrategyTypes.initialize := fun s _ => s;
  StrategyTypes.setParameters := fun s _ => s;
  StrategyTypes.reset := fun s => s;
  StrategyTypes.populateIndicators := fun s _ =>
    match s with
    | FailingIndicators => (s, Js.Throw (Js.ErrorObj "no data"))
    | _ => (s, Js.Normal tt)
    end;
  StrategyTypes.populateEntrySignal := fun s _ _ _ =>
    match s with
    | FailingEntry => (s, Js.Throw Js.OtherThrown)
    | _ => (s, Js.Normal (Some longSignal))
    end;
  StrategyTypes.populateExitSignal := fun s _ _ _ => (s, Js.Normal None)
|}.

Definition sampleBuiltins : list (Js.Completion SampleStrategy) :=
  [Js.Normal AlwaysLong; Js.Normal FailingIndicators; Js.Normal FailingEntry].

Definition sampleManager : StrategyManager.Manager float SampleStrategy :=
  StrategyManager.newStrategyManager sampleBuiltins.

Definition oneCandle : list (StrategyTypes.Candle (N := float)) :=
  [ {| sc_close := 100%float |} ].

Definition samplePosition : StrategyTypes.PositionInfo float :=
  {| StrategyTypes.pi_direction := "LONG";
     StrategyTypes.pi_entryPrice := 100%float;
     StrategyTypes.pi_currentPrice := 100%float;
     StrategyTypes.pi_size := 1%float;
     StrategyTypes.pi_openTime := 0 |}.

(** *** Sample accounts *)

#[export] Instance noMetrics : PaperTrading.MetricsCalculator float unit := {|
  PaperTrading.calculateFullMetrics := fun _ _ => tt;
  PaperTrading.createEmptyMetrics := tt
|}.

(** An account of 1000 that risks 10% per trade at leverage 10, pays no
    fee, trades [always_long] automatically and has no tactics set. *)
Definition paperConfig : PaperTrading.PaperTradingConfig float :=
  {| PaperTrading.c_id := "acc";
     PaperTrading.c_name := "demo";
     PaperTrading.c_initialBalance := 1000%float;
     PaperTrading.currency := "USDT";
     PaperTrading.exchange := "binance";
     PaperTrading.symbols := ["BTCUSDT"];
     PaperTrading.c_timeframe := "1h";
     PaperTrading.strategyId := "always_long";
     PaperTrading.strategyParameters := None;
     PaperTrading.tacticsSets := [];
     PaperTrading.maxRiskPerTrade := 10%float;
     PaperTrading.c_maxDrawdown := 50%float;
     PaperTrading.maxOpenPositions := 1%float;
     PaperTrading.maxLeverage := 10%float;
     PaperTrading.feePercent := 0%float;
     PaperTrading.slippagePercent := 0%float;
     PaperTrading.autoTrading := true;
     PaperTrading.checkInterval := 1000%float;
     PaperTrading.notifications :=
       {| PaperTrading.onEntry := false; PaperTrading.onExit := false;
          PaperTrading.onError := false; PaperTrading.onMaxDrawdown := false |} |}.

(** [createAccount(paperConfig); start("acc")]. *)
Definition startedEngine : PaperTrading.Engine float unit :=
  snd (PaperTrading.start 1 "acc"
         (fst (PaperTrading.createAccount 0 paperConfig PaperTrading.newEngine))).

(** ... then [processCandles("acc", "BTCUSDT", [close 100])], on which the
    strategy signals a long entry and the engine opens a position. *)
Definition engineAfterSignal : PaperTrading.Engine float unit :=
  snd (fst (PaperTrading.processCandles 2 "acc" "BTCUSDT" oneCandle
              sampleManager startedEngine)).

Definition tick110 : gmap string float := {[ "BTCUSDT" := 110%float ]}.

(** ... then [pause("acc"); updatePrices({ BTCUSDT: 110 })]. *)
Definition pausedAfterTick : PaperTrading.Engine float unit :=
  PaperTrading.updatePrices 3 tick110
    (PaperTrading.pause "acc" engineAfterSignal).

(** ... or [updatePrices({ BTCUSDT: 110 })] right away. *)
Definition runningAfterTick : PaperTrading.Engine float unit :=
  PaperTrading.updatePrices 3 tick110 engineAfterSignal.

(** A long position opened at 100 with a take-profit at 110, whose stop
    has since been raised to 112:
    [openPosition("acc", "BTCUSDT", "LONG", 1, 100,
                  { stopLoss: 112, takeProfit: 110 })]. *)
Definition engineWithPosition : PaperTrading.Engine float unit :=
  snd (PaperTrading.openPosition 2 "acc" "BTCUSDT" PaperTrading.LONG
         1%float 100%float
         (Some {| PaperTrading.o_stopLoss := Some 112%float;
                  PaperTrading.o_takeProfit := Some 110%float;
                  PaperTrading.o_leverage := None;
                  PaperTrading.o_tacticsSet := None |})
         startedEngine).

End Statements.

(** ** Object literals used as tables *)

Module JsObject.

(** The member names that every object literal inherits from
    [Object.prototype]: [table[key]] on one of them yields the
    inherited member, not [undefined]. *)
Definition objectPrototypeKeys : list string :=
  ["constructor"; "__proto__"; "hasOwnProperty"; "isPrototypeOf";
   "propertyIsEnumerable"; "toLocaleString"; "toString"; "valueOf";
   "__defineGetter__"; "__defineSetter__"; "__lookupGetter__";
   "__lookupSetter__"]%string.

End JsObject.

(** ** Built-in indicator lookups ([builtin.ts]) *)

Module BuiltinLookup.
Import Builtin.

Definition getBuiltinIndicators : list BuiltInIndicator := BUILTIN_INDICATORS.

(** [BUILTIN_INDICATORS.find(ind => ind.id === id)]. *)
Definition getBuiltinIndicator (id : string) : option BuiltInIndicator :=
  List.find (fun ind => String.eqb (Builtin.id ind) id) BUILTIN_INDICATORS.

(** [BUILTIN_INDICATORS.filter(ind => ind.category === category)]. *)
Definition getIndicatorsByCategory (category : string) : list BuiltInIndicator :=
  List.filter (fun ind => String.eqb (Builtin.category ind) category)
              BUILTIN_INDICATORS.

(** [[...new Set(xs)]]: the distinct elements, each at its first
    occurrence. *)
Definition setValues (xs : list string) : list string :=
  fold_left (fun seen x => if existsb (String.eqb x) seen then seen
                           else seen ++ [x]) xs [].

Definition getIndicatorCategories : list string :=
  setValues (map category BUILTIN_INDICATORS).

End BuiltinLookup.

(** ** Market forecast: technical indicators of one asset *)

Module MarketIndicators.

Section Indicators.
Context {N : Type} `{JsNumber N}.

Record MarketData := {
  symbol : string;
  timestamp : Z;
  open : N;
  high : N;
  low : N;
  close : N;
  volume : N
}.

Record AssetIndicators := {
  roc_24h : N;
  atr_pct : N;
  trend_strength : N;
  volume_ratio : N
}.

(** [data[i].close]; every call below is guarded by a length test that
    keeps [i] inside the array. *)
Definition closeAt (data : list MarketData) (i : Z) : N :=
  match getIdx data i with Some d => close d | None => nan end.

(** [lookback] and [period] are candle counts. *)
Definition calculateROC (data : list MarketData) (lookback : nat) : N :=
  let n := Z.of_nat (length data) in
  if n <? Z.of_nat lookback + 1 then ofZ 0
  else
    let currentPrice := closeAt data (n - 1) in
    let prevPrice := closeAt data (n - 1 - Z.of_nat lookback) in
    if neq prevPrice (ofZ 0) then ofZ 0
    else ndiv (nsub currentPrice prevPrice) prevPrice.

(** The true range pushed at turn [i >= 1] of the loop of
    [calculateATR]. *)
Definition trueRangeAt (data : list MarketData) (i : Z) : N :=
  match getIdx data i with
  | None => nan
  | Some d =>
      let prevClose := closeAt data (i - 1) in
      nmax (nmax (nsub (high d) (low d))
                 (nabs (nsub (high d) prevClose)))
           (nabs (nsub (low d) prevClose))
  end.

Definition calculateATR (data : list MarketData) (period : nat) : N :=
  let n := Z.of_nat (length data) in
  if n <? Z.of_nat period + 1 then ofZ 0
  else
    let trueRanges := map (trueRangeAt data) (zrange 1 n) in
    let recentTRs :=
      jsSlice trueRanges (- Z.of_nat period) (Z.of_nat (length trueRanges)) in
    if Nat.eqb (length recentTRs) 0 then ofZ 0
    else ndiv (sumN recentTRs) (ofZ (Z.of_nat (length recentTRs))).

Definition calculateATRPercent (data : list MarketData) (period : nat) : N :=
  let n := Z.of_nat (length data) in
  if n =? 0 then ofZ 0
  else
    let atr := calculateATR data period in
    let currentPrice := closeAt data (n - 1) in
    if neq currentPrice (ofZ 0) then ofZ 0
    else ndiv atr currentPrice.

Definition calculateEMA (prices : list N) (span : Z) : list N :=
  match prices with
  | [] => []
  | first :: _ =>
      let multiplier := ndiv (ofZ 2) (ofZ (span + 1)) in
      for_loop 1 (Z.of_nat (length prices))
        (fun i ema =>
           let value :=
             nadd (nmul (nsub (getNum prices i) (getNum ema (i - 1))) multiplier)
                  (getNum ema (i - 1)) in
           ema ++ [value])
        [first]
  end.

Definition calculateTrendStrength (data : list MarketData) : N :=
  if Z.of_nat (length data) <? 26 then ofZ 0
  else
    let closes := map close data in
    let ema12 := calculateEMA closes 12 in
    let ema26 := calculateEMA closes 26 in
    let lastEMA12 := getNum ema12 (Z.of_nat (length ema12) - 1) in
    let lastEMA26 := getNum ema26 (Z.of_nat (length ema26) - 1) in
    if neq lastEMA26 (ofZ 0) then ofZ 0
    else ndiv (nsub lastEMA12 lastEMA26) lastEMA26.

Definition calculateVolumeRatio (data : list MarketData) (lookback : nat) : N :=
  let n := Z.of_nat (length data) in
  if n <? Z.of_nat lookback then ofZ 1
  else
    let volumes := map volume (jsSlice data (- Z.of_nat lookback) n) in
    let currentVolume := getNum volumes (Z.of_nat (length volumes) - 1) in
    let avgVolume := ndiv (sumN volumes) (ofZ (Z.of_nat (length volumes))) in
    if neq avgVolume (ofZ 0) then ofZ 1
    else ndiv currentVolume avgVolume.

Definition calculateAssetIndicators (data : list MarketData) : AssetIndicators :=
  {| roc_24h := calculateROC data 24;
     atr_pct := calculateATRPercent data 14;
     trend_strength := calculateTrendStrength data;
     volume_ratio := calculateVolumeRatio data 24 |}.

End Indicators.

Arguments MarketData : clear implicits.
Arguments AssetIndicators : clear implicits.

End MarketIndicators.

(** ** Strategy manager: running strategies *)

Module StrategyManagerAccess.
Import Js StrategyTypes StrategyManager.

Section Access.
Context {N : Type} `{JsNumber N} `{!StrategyDecls N}.
Context {S : Type} `{!IStrategy N S}.

Definition getRunningStrategy (runningId : string) (m : Manager N S)
  : option (RunningStrategy N) :=
  runningStrategies m !! runningId.

End Access.

End StrategyManagerAccess.

(** ** Predicates and sample inputs used by the further properties *)

Module Shapes.

Section Shapes.
Context {N : Type}.

(** [values] holds a number at the indices [lo <= i < k] and null at
    every other index. *)
Definition filledBetween (lo k : Z) (values : list (option N)) : Prop :=
  forall i : nat, (i < length values)%nat ->
    (lo <= Z.of_nat i < k -> exists v, values !! i = Some (Some v)) /\
    (~ lo <= Z.of_nat i < k -> values !! i = Some None).

(** [values] is null below index [k] and holds a number from [k] on. *)
Definition nullUntil (k : Z) (values : list (option N)) : Prop :=
  forall i : nat, (i < length values)%nat ->
    (Z.of_nat i < k -> values !! i = Some None) /\
    (k <= Z.of_nat i -> exists v, values !! i = Some (Some v)).
End Shapes.

End Shapes.

Module EngineShapes.
Import PaperTrading.

Section EngineShapes.
Context {N : Type} `{JsNumber N} {Metrics : Type}.

(** The symbols of the open positions of an account, in the order of
    the positions. *)
Definition openSymbols (a : PaperAccount N Metrics) : list string :=
  map p_symbol (List.filter isOpen (positions a)).

(** The size a position has given up so far: the sum of the sizes of
    its exits. *)
Definition exitedSize (p : PaperPosition N) : N :=
  sumN (map ex_size (exits p)).

(** The fee the engine charges for [size] units at [price]. *)
Definition feeOf (cfg : PaperTradingConfig N) (size price : N) : N :=
  nmul (nmul size price) (ndiv (feePercent cfg) (ofZ 100)).
End EngineShapes.

End EngineShapes.

Module Samples.
Import IndicatorCalculator Statements.

(** Closes 1, 2, 2, 5 on exact numbers. *)
Definition risingClosesQ : list Q := [1; 2; 2; 5]%Q.

(** Three candles on exact numbers, given as (low, high, close). *)
Definition rangeCandle (t : Z) (l h c : Q) : Candle Q :=
  {| time := t; open := l; high := h; low := l; close := c; volume := 1%Q |}.

Definition rangeCandlesQ : list (Candle Q) :=
  [rangeCandle 1 9 11 10; rangeCandle 2 10 14 13; rangeCandle 3 8 12 9]%Q.

(** Three hourly candles of one asset, each of volume 1. *)
Definition unitVolumeData : list (MarketIndicators.MarketData Q) :=
  map (fun t => {| MarketIndicators.symbol := "BTC/USDT";
                   MarketIndicators.timestamp := t;
                   MarketIndicators.open := 10%Q;
                   MarketIndicators.high := 12%Q;
                   MarketIndicators.low := 9%Q;
                   MarketIndicators.close := 11%Q;
                   MarketIndicators.volume := 1%Q |})
      [0; 3600000; 7200000].

(** The sample manager after [start("always_long", "BTCUSDT", "1h")]. *)
Definition startedManager
  : StrategyManager.Manager float Statements.SampleStrategy :=
  snd (StrategyManager.start "always_long" "BTCUSDT" "1h" None 5
         Statements.sampleManager).

(** An indicator definition the calculator has no entry for. *)
Definition vwapIndicator : Builtin.BuiltInIndicator :=
  {| Builtin.id := "vwap"; Builtin.name := "VWAP";
     Builtin.category := "volume"; Builtin.overlay := true |}.

(** *** Sample accounts and positions on exact numbers *)

#[export] Instance noMetricsQ : PaperTrading.MetricsCalculator Q unit := {|
  PaperTrading.calculateFullMetrics := fun _ _ => tt;
  PaperTrading.createEmptyMetrics := tt
|}.

(** An account of 1000 at leverage 10 that pays a fee of 0.1% and may
    hold two positions. *)
Definition paperConfigQ : PaperTrading.PaperTradingConfig Q :=
  {| PaperTrading.c_id := "acc";
     PaperTrading.c_name := "demo";
     PaperTrading.c_initialBalance := 1000%Q;
     PaperTrading.currency := "USDT";
     PaperTrading.exchange := "binance";
     PaperTrading.symbols := ["BTCUSDT"];
     PaperTrading.c_timeframe := "1h";
     PaperTrading.strategyId := "always_long";
     PaperTrading.strategyParameters := None;
     PaperTrading.tacticsSets := [];
     PaperTrading.maxRiskPerTrade := 10%Q;
     PaperTrading.c_maxDrawdown := 50%Q;
     PaperTrading.maxOpenPositions := 2%Q;
     PaperTrading.maxLeverage := 10%Q;
     PaperTrading.feePercent := (1 # 10)%Q;
     PaperTrading.slippagePercent := 0%Q;
     PaperTrading.autoTrading := true;
     PaperTrading.checkInterval := 1000%Q;
     PaperTrading.notifications :=
       {| PaperTrading.onEntry := false; PaperTrading.onExit := false;
          PaperTrading.onError := false; PaperTrading.onMaxDrawdown := false |} |}.

(** [createAccount(paperConfigQ)]: the engine and the account. *)
Definition createdQ
  : PaperTrading.Engine Q unit * PaperTrading.PaperAccount Q unit :=
  PaperTrading.createAccount 0 paperConfigQ PaperTrading.newEngine.

(** ... then [openPosition("acc", "BTCUSDT", "LONG", 2, 100)]. *)
Definition openedQ : PaperTrading.Engine Q unit :=
  snd (PaperTrading.openPosition 2 "acc" "BTCUSDT" PaperTrading.LONG 2%Q 100%Q
         None (fst createdQ)).

(** A long position of size 2 at 100 with leverage 10, as
    [createPosition] builds it on that account; its liquidation price
    is 90. *)
Definition longCreatedQ
  : PaperTrading.St Q unit * PaperTrading.PaperPosition Q :=
  PaperTrading.createPosition 2 "BTCUSDT" PaperTrading.LONG 2%Q 100%Q 10%Q
    None createdQ.

Definition longPositionQ : PaperTrading.PaperPosition Q := snd longCreatedQ.

(** The account with [position] as its only position. *)
Definition holdingQ (position : PaperTrading.PaperPosition Q)
  : PaperTrading.PaperAccount Q unit :=
  PaperTrading.set_positions [position] (snd (fst longCreatedQ)).

(** A take-profit target at 110 that closes [percent] of a position,
    and the long position with that target as its only one. *)
Definition targetQ (percent : Q) : PaperTrading.PaperTPTarget Q :=
  PaperTrading.newTarget 1 110%Q percent.

Definition longWithTargetQ (percent : Q) : PaperTrading.PaperPosition Q :=
  PaperTrading.set_takeProfitTargets [targetQ percent] longPositionQ.

(** A manager without any strategy. *)
Definition emptyManager
  : StrategyManager.Manager float Statements.SampleStrategy :=
  StrategyManager.newStrategyManager [].

End Samples.

(** * Properties *)

(** ** Loops and arrays *)

Module LoopFacts.

Lemma zrange_bounds (lo hi i : Z) : In i (zrange lo hi) -> lo <= i < hi.
Proof.
  unfold zrange. rewrite in_map_iff. intros (k & <- & Hk).
  apply in_seq in Hk. lia.
Qed.

Lemma fold_left_invariant {A B : Type} (P : A -> Prop) (f : A -> B -> A)
    (l : list B) (a : A) :
  P a -> (forall a b, In b l -> P a -> P (f a b)) -> P (fold_left f l a).
Proof.
  revert a. induction l as [|b l IH]; intros a Ha Hstep; simpl.
  - exact Ha.
  - apply IH.
    + apply Hstep; [now left | exact Ha].
    + intros a' b' Hb'. apply Hstep. now right.
Qed.

(** An invariant of the loop body on [lo <= i < hi] holds after the loop. *)
Lemma for_loop_invariant {S : Type} (P : S -> Prop) (lo hi : Z)
    (body : Z -> S -> S) (s : S) :
  P s ->
  (forall i s, lo <= i < hi -> P s -> P (body i s)) ->
  P (for_loop lo hi body s).
Proof.
  intros Hs Hstep. unfold for_loop.
  apply fold_left_invariant; [exact Hs|].
  intros a i Hi. apply Hstep. now apply zrange_bounds.
Qed.

Lemma In_insert {A : Type} (l : list A) (i : nat) (x y : A) :
  In y (<[i := x]> l) -> y = x \/ In y l.
Proof.
  revert i. induction l as [|a l IH]; intros [|i]; simpl; try tauto.
  - intros [<- | Hy]; auto.
  - intros [<- | Hy]; auto. destruct (IH _ Hy); auto.
Qed.

(** Writing an entry adds at most that entry to the non-null ones. *)
Lemma In_arrSet {A : Type} (i : Z) (v : option A) (arr : list (option A)) (x : A) :
  In (Some x) (arrSet i v arr) -> v = Some x \/ In (Some x) arr.
Proof.
  unfold arrSet. destruct (i <? 0); [auto|].
  destruct (i <? Z.of_nat (length arr)).
  - intros Hin. apply In_insert in Hin. destruct Hin; auto.
  - rewrite !in_app_iff. intros [Hin | [Hin | Hin]]; auto.
    + apply repeat_spec in Hin. discriminate.
    + destruct Hin as [-> | []]. auto.
Qed.

Lemma length_arrSet_in_range {A : Type} (i : Z) (v : option A)
    (arr : list (option A)) :
  i < Z.of_nat (length arr) -> length (arrSet i v arr) = length arr.
Proof.
  intros Hi. unfold arrSet. destruct (i <? 0); [reflexivity|].
  destruct (Z.ltb_spec i (Z.of_nat (length arr))); [|lia].
  apply length_insert.
Qed.

End LoopFacts.

(** ** The RSI helper *)

Module RsiFacts.
Import IndicatorCalculator Statements LoopFacts.

Local Open Scope Q_scope.

Lemma Qdiv_nonneg (a b : Q) : 0 <= a -> 0 < b -> 0 <= a / b.
Proof.
  intros Ha Hb. apply Qle_shift_div_l; [exact Hb|]. lra.
Qed.

(** The value stored for non-negative averages is a percentage. *)
Lemma rsiValue_range (avgGain avgLoss : Q) :
  0 <= avgGain -> 0 <= avgLoss ->
  0 <= rsiValue avgGain avgLoss <= 100.
Proof.
  intros Hg Hl. unfold rsiValue. cbn [neq nsub ndiv nadd ofZ Q_JsNumber].
  destruct (Qeq_bool avgLoss (inject_Z 0)) eqn:E.
  - change (inject_Z 100) with 100. lra.
  - assert (Hl0 : ~ avgLoss == 0).
    { intro Hz. apply Qeq_bool_iff in Hz. change (inject_Z 0) with 0 in E.
      congruence. }
    assert (Hlpos : 0 < avgLoss).
    { destruct (proj1 (Qle_lteq _ _) Hl) as [Hpos | Hz]; [exact Hpos|].
      exfalso. apply Hl0. symmetry. exact Hz. }
    pose proof (Qdiv_nonneg _ _ Hg Hlpos) as Hratio.
    change (inject_Z 100) with 100. change (inject_Z 1) with 1.
    set (d := 1 + avgGain / avgLoss) in *.
    assert (Hd : 1 <= d) by (unfold d; lra).
    assert (Hq0 : 0 <= 100 / d) by (apply Qdiv_nonneg; lra).
    assert (Hq1 : 100 / d <= 100).
    { apply Qle_shift_div_r; [lra|]. nra. }
    lra.
Qed.

Lemma rsiValue_zero_loss (avgGain avgLoss : Q) :
  avgLoss == 0 -> rsiValue avgGain avgLoss = 100.
Proof.
  intros Hz. unfold rsiValue. cbn [neq ofZ Q_JsNumber].
  apply Qeq_bool_iff in Hz. change (inject_Z 0) with 0. now rewrite Hz.
Qed.

Lemma withinPercent_Q (v : Q) : withinPercent v = true <-> 0 <= v <= 100.
Proof.
  unfold withinPercent. cbn [nle ofZ Q_JsNumber].
  rewrite andb_true_iff, !Qle_bool_iff. reflexivity.
Qed.

(** A smoothing step [(avg * (period - 1) + x) / period] keeps the
    average non-negative. *)
Lemma smooth_nonneg (avg x : Q) (period : Z) :
  (1 <= period)%Z -> 0 <= avg -> 0 <= x ->
  0 <= (avg * inject_Z (period - 1) + x) / inject_Z period.
Proof.
  intros Hp Ha Hx.
  assert (0 <= inject_Z (period - 1)).
  { change 0 with (inject_Z 0). rewrite <- Zle_Qle. lia. }
  assert (0 < inject_Z period).
  { change 0 with (inject_Z 0). rewrite <- Zlt_Qlt. lia. }
  apply Qdiv_nonneg; [|assumption]. nra.
Qed.

Lemma gain_nonneg (change : Q) :
  0 <= (if ngt change (ofZ 0) then change else ofZ 0).
Proof.
  unfold ngt. cbn [nlt ofZ Q_JsNumber]. change (inject_Z 0) with 0.
  destruct (Qle_bool change 0) eqn:E; cbn [negb]; [lra|].
  destruct (Qlt_le_dec 0 change) as [Hpos | Hle]; [lra|].
  apply Qle_bool_iff in Hle. congruence.
Qed.

Lemma loss_nonneg (change : Q) :
  0 <= (if nlt change (ofZ 0) then nabs change else ofZ 0).
Proof.
  cbn [nlt nabs ofZ Q_JsNumber]. change (inject_Z 0) with 0.
  destruct (negb (Qle_bool 0 change)); [apply Qabs_nonneg | lra].
Qed.



End RsiFacts.

(** ** Indicator results *)

Module IndicatorFacts.
Import Builtin IndicatorCalculator Statements LoopFacts.


Section Generic.
Context {N : Type} `{JsNumber N}.

(** What [calculateMACD] computes: its "slow" EMA is taken over
    [signalLength]; [slowLength] is never read. *)
Lemma calculateMACD_lines (candles : list (Candle N)) (inputs : Inputs N) :
  let closes := closesOf candles in
  let macdLine :=
    macdLineOf closes (ema closes (i_fastLength inputs))
                      (ema closes (i_signalLength inputs)) in
  let signalLine :=
    signalLineOf candles macdLine
      (ema (nonNull macdLine) (i_signalLength inputs)) in
  map s_data (lines (calculateMACD candles inputs))
    = [buildLineData candles macdLine; buildLineData candles signalLine] /\
  map s_data (histograms (calculateMACD candles inputs))
    = [buildHistogramData candles (histogramOf candles macdLine signalLine)
         "#26a69a" "#ef5350"].
Proof. split; reflexivity. Qed.

Lemma buildLineData_times (candles : list (Candle N)) (values : list (option N)) :
  map pointTime (buildLineData candles values) = map time candles.
Proof.
  revert values. induction candles as [|c cs IH]; intros values; simpl.
  - reflexivity.
  - rewrite IH. now destruct (validValue (head values)).
Qed.

Lemma buildHistogramData_times (candles : list (Candle N))
    (values : list (option N)) (colorUp colorDown : string) :
  map pointTime (buildHistogramData candles values colorUp colorDown)
    = map time candles.
Proof.
  revert values. induction candles as [|c cs IH]; intros values; simpl.
  - reflexivity.
  - rewrite IH. now destruct (validValue (head values)).
Qed.

Lemma volumeData_times (candles : list (Candle N)) :
  map pointTime (volumeData candles) = map time candles.
Proof. unfold volumeData. rewrite map_map. reflexivity. Qed.

Lemma buildLineData_aligned (candles : list (Candle N)) (values : list (option N)) :
  alignedWith candles values (buildLineData candles values).
Proof.
  split.
  - rewrite <- (length_map pointTime), buildLineData_times. apply length_map.
  - revert values. induction candles as [|c cs IH]; intros values i c' Hi.
    + now destruct i.
    + destruct i as [|i]; simpl in Hi |- *.
      * injection Hi as <-. rewrite head_lookup.
        destruct (validValue (values !! 0%nat));
          eexists; (split; [reflexivity|]); split; reflexivity.
      * destruct (IH (tail values) i c' Hi) as (p & Hp & Ht & Hv).
        exists p. rewrite lookup_tail in Hv. auto.
Qed.

Lemma buildHistogramData_aligned (candles : list (Candle N))
    (values : list (option N)) (colorUp colorDown : string) :
  alignedWith candles values (buildHistogramData candles values colorUp colorDown).
Proof.
  split.
  - rewrite <- (length_map pointTime), buildHistogramData_times.
    apply length_map.
  - revert values. induction candles as [|c cs IH]; intros values i c' Hi.
    + now destruct i.
    + destruct i as [|i]; simpl in Hi |- *.
      * injection Hi as <-. rewrite head_lookup.
        destruct (validValue (values !! 0%nat));
          eexists; (split; [reflexivity|]); split; reflexivity.
      * destruct (IH (tail values) i c' Hi) as (p & Hp & Ht & Hv).
        exists p. rewrite lookup_tail in Hv. auto.
Qed.

Context `{!JsSqrt N}.

(** The identifiers with a calculator are those of the built-in list. *)
Lemma builtin_ids (indicator : BuiltInIndicator) :
  In indicator BUILTIN_INDICATORS ->
  In (id indicator)
     ["sma"; "ema"; "ema_cross"; "rsi"; "macd"; "bb"; "atr"; "vol_sma"]%string.
Proof.
  intros Hin. apply (in_map id) in Hin. exact Hin.
Qed.


(** C9 (as amended): every series of a result has one point per candle,
    in order and at the candle's time.  Every series but the volume
    histogram of [vol_sma] is built by [buildLineData] or
    [buildHistogramData] from the values the calculator computed: its
    point is a whitespace point exactly when the computed value is
    null, NaN or infinite.  The volume histogram shows each candle's
    volume as it is. *)
Theorem series_aligned (indicator : BuiltInIndicator) (w : World N) :
  In indicator BUILTIN_INDICATORS ->
  (exists r,
     fst (calculateIndicator indicator w) = Some r /\
     forall s, In s (allSeries r) ->
       map pointTime (s_data s) = map time (w_candles w) /\
       ((isVolumeHistogram (id indicator) s /\
         s_data s = volumeData (w_candles w)) \/
        exists values,
          In (s_name s, values)
             (computedValues (id indicator) (w_candles w) (w_inputs w)) /\
          alignedWith (w_candles w) values (s_data s))).
Proof.
  intros Hin. apply builtin_ids in Hin. unfold calculateIndicator.
  simpl in Hin.
  repeat (destruct Hin as [<- | Hin];
          [ eexists; split; [reflexivity|];
            intros s Hs; simpl in Hs;
            repeat (destruct Hs as [<- | Hs];
                    [ split; [ first [ apply buildLineData_times
                                     | apply buildHistogramData_times
                                     | apply volumeData_times ] |];
                      first
                        [ right; eexists; split;
                          [| first [ apply buildLineData_aligned
                                   | apply buildHistogramData_aligned ] ];
                          cbn; auto 6
                        | left; split; [split; reflexivity | reflexivity] ]
                    |]);
            destruct Hs |]).
  destruct Hin.
Qed.

End Generic.

(** C1, at closes 1, 2, 4, 8, 16, 32 with fastLength 2, slowLength 4 and
    signalLength 3: the MACD line the code draws is fast EMA minus
    EMA(closes, signalLength), with a value already at the third candle,
    where the declared line, fast EMA minus EMA(closes, slowLength), has
    none. *)
Theorem macd_line_uses_signal_length :
  map s_data (lines (calculateMACD macdCandles macdInputs)) !! 0%nat
    = Some (buildLineData macdCandles
              (macdLineOf (closesOf macdCandles)
                          (ema (closesOf macdCandles) 2)
                          (ema (closesOf macdCandles) 3))) /\
  macdLineOf (closesOf macdCandles) (ema (closesOf macdCandles) 2)
             (ema (closesOf macdCandles) 3) !! 2%nat
    = Some (Some 0x1.aaaaaaaaaaaa8p-1%float) /\
  macdLineDeclared macdCandles macdInputs !! 2%nat = Some None /\
  map s_data (lines (calculateMACD macdCandles macdInputs)) !! 0%nat
    <> Some (buildLineData macdCandles (macdLineDeclared macdCandles macdInputs)).
Proof.
  split; [reflexivity|]. split; [vm_compute; reflexivity|].
  split; [vm_compute; reflexivity|].
  intros Heq.
  apply (f_equal (fun o => match o with
                           | Some (_ :: _ :: Whitespace _ :: _) => true
                           | _ => false
                           end)) in Heq.
  vm_compute in Heq. discriminate.
Qed.


(** C9 at [vol_sma] on a one-candle world. *)
Lemma series_aligned_witness :
  exists r,
    fst (calculateIndicator volSmaIndicator nanVolumeWorld) = Some r /\
    forall s, In s (allSeries r) ->
      map pointTime (s_data s) = map time (w_candles nanVolumeWorld) /\
      ((isVolumeHistogram (id volSmaIndicator) s /\
        s_data s = volumeData (w_candles nanVolumeWorld)) \/
       exists values,
         In (s_name s, values)
            (computedValues (id volSmaIndicator) (w_candles nanVolumeWorld)
                            (w_inputs nanVolumeWorld)) /\
         alignedWith (w_candles nanVolumeWorld) values (s_data s)).
Proof.
  apply (series_aligned volSmaIndicator nanVolumeWorld).
  do 7 right. left. reflexivity.
Defined.

(** C9, counterexample: for a candle whose volume is NaN the volume
    histogram of [vol_sma] holds a point carrying NaN, not a whitespace
    point. *)
Lemma volume_histogram_shows_nan :
  exists r,
    fst (calculateIndicator volSmaIndicator nanVolumeWorld) = Some r /\
    map s_data (histograms r)
      = [[HistPoint 1 PrimFloat.nan "#2962FF80"]] /\
    isNaN PrimFloat.nan = true /\
    validValue (Some (Some PrimFloat.nan)) = None.
Proof.
  eexists. split; [reflexivity|].
  split; [vm_compute; reflexivity|].
  split; vm_compute; reflexivity.
Qed.

End IndicatorFacts.

(** ** The probability forecast *)

Module ForecastFacts.
Import Forecast Statements.


Local Open Scope Q_scope.

(** Turn the integer literals and the divisions by them into rational
    constants, for [lra]. *)
Ltac qconst :=
  cbv [inject_Z] in *; unfold Qdiv in *;
  repeat match goal with
         | |- context [/ (?n # ?d)] =>
             let v := eval vm_compute in (/ (n # d)) in
             change (/ (n # d)) with v
         | H : context [/ (?n # ?d)] |- _ =>
             let v := eval vm_compute in (/ (n # d)) in
             change (/ (n # d)) with v in H
         end.

Ltac exact_ops :=
  cbn [nadd nsub nmul ndiv nabs nle nlt neq ofZ nround Q_JsNumber
       Z.of_nat Z.pow Z.pow_pos Pos.iter Z.mul Pos.mul Pos.of_succ_nat
       Pos.succ] in *.

(** Rounding to four decimals moves a number by at most 0.00005. *)
Lemma round4_close (x : Q) :
  - (1 # 20000) <= round4 x - x <= 1 # 20000.
Proof.
  unfold round4. exact_ops.
  pose proof (Qfloor_le (x * inject_Z 10000 + (1 # 2))) as Hlo.
  pose proof (Qlt_floor (x * inject_Z 10000 + (1 # 2))) as Hhi.
  rewrite inject_Z_plus in Hhi.
  set (f := inject_Z (Qfloor (x * inject_Z 10000 + (1 # 2)))) in *.
  clearbody f. qconst. lra.
Qed.

(** With a non-negative correlation weight the branch weights add up
    to at least 1. *)
Lemma branchWeights_total (indicators : AggregatedIndicators Q)
    (correlations : Correlations Q) (config : VisionBotConfig Q) :
  (forall w, correlationWeight config = Some w -> 0 <= w) ->
  1 <= weightTotal (branchWeights indicators correlations config).
Proof.
  intros Hw. unfold branchWeights, weightTotal.
  set (corrWeight := orDefault (correlationWeight config) (dec 30 2)).
  assert (HcorrWeight : 0 <= corrWeight).
  { unfold corrWeight, orDefault.
    destruct (correlationWeight config) as [w|]; [now apply Hw|].
    unfold dec. exact_ops. qconst. lra. }
  set (corrAdj := nmul corrWeight (nabs (avg_corr correlations))).
  assert (HcorrAdj : 0 <= corrAdj).
  { unfold corrAdj. exact_ops.
    apply Qmult_le_0_compat; [exact HcorrWeight | apply Qabs_nonneg]. }
  clearbody corrAdj. clear HcorrWeight Hw. clearbody corrWeight.
  repeat match goal with
         | |- context [if ?b then _ else _] => destruct b
         end;
    unfold dec; exact_ops; qconst; lra.
Qed.



End ForecastFacts.

(** ** The strategy manager *)

Module ManagerFacts.
Import Js StrategyTypes StrategyManager Statements.

Section Generic.
Context {N : Type} `{JsNumber N} `{!StrategyDecls N}.
Context {S : Type} `{!IStrategy N S}.

(** [checkExit] never throws. *)
Lemma checkExit_returns (strategyId : string) (candles : list Candle)
    (position : PositionInfo N) (m : Manager N S) :
  exists r, snd (checkExit strategyId candles position m) = Normal r.
Proof.
  unfold checkExit. destruct (strategies m !! strategyId) as [strategy|].
  - destruct (checkExitTry candles position strategy) as [strategy' [r|e]];
      cbn; eauto.
  - cbn. eauto.
Qed.

(** C4: when the strategy's [populateIndicators] or [populateEntrySignal]
    throws during [analyze], [analyze] still returns: its result has a
    null signal and lists the message of what was thrown
    ([error.message] for an [Error], "Unknown error" otherwise).  When
    [populateIndicators] (or [populateExitSignal]) throws during
    [checkExit], [checkExit] returns null; it never throws. *)
Theorem strategy_errors_are_caught (strategyId symbol : string)
    (candles : list Candle) (now : Z) (m : Manager N S) (strategy : S)
    (e : Thrown) (position : PositionInfo N) :
  strategies m !! strategyId = Some strategy ->
  (minCandlesRequired (getConfig strategy) <= Z.of_nat (length candles))%Z ->
  throwsDuringAnalyze strategy candles e ->
  (exists r,
     snd (analyze strategyId symbol candles now m) = Normal r /\
     ar_signal r = None /\
     ar_errors r = Some [errorMessage e]) /\
  (exists r, snd (checkExit strategyId candles position m) = Normal r) /\
  (snd (populateIndicators strategy candles) = Throw e ->
   snd (checkExit strategyId candles position m) = Normal None) /\
  (forall strategy' indicators e',
     populateIndicators strategy candles = (strategy', Normal indicators) ->
     snd (populateExitSignal strategy' candles indicators position) = Throw e' ->
     snd (checkExit strategyId candles position m) = Normal None).
Proof.
  intros Hreg Hmin Hthrow.
  split; [|split; [apply checkExit_returns|split]].
  - unfold analyze, analyzeTry. rewrite Hreg.
    destruct (Z.ltb_spec (Z.of_nat (length candles))
                (minCandlesRequired (getConfig strategy))); [lia|].
    destruct Hthrow as [Hind | (s1 & ind & price & Hind & Hprice & Hentry)].
    + destruct (populateIndicators strategy candles) as [s1 c].
      cbn in Hind. subst c. cbn. eauto.
    + rewrite Hind, Hprice.
      destruct (populateEntrySignal s1 candles ind price) as [s2 c].
      cbn in Hentry. subst c. cbn. eauto.
  - intros Hind. unfold checkExit, checkExitTry. rewrite Hreg.
    destruct (populateIndicators strategy candles) as [s1 c].
    cbn in Hind. subst c. reflexivity.
  - intros s1 ind e' Hind Hexit. unfold checkExit, checkExitTry.
    rewrite Hreg, Hind.
    destruct (populateExitSignal s1 candles ind position) as [s2 c].
    cbn in Hexit. subst c. reflexivity.
Qed.

(** C5: a [start] on an unregistered id, or with parameters that fail
    [validateStrategyParameters], answers [success: false] with the
    error message and leaves the manager unchanged: the strategy is not
    initialized and nothing is added to the running strategies. *)
Theorem start_rejects (strategyId symbol : string) (timeframe : Timeframe)
    (parameters : option (gmap string (ParamValue N))) (now : Z)
    (m : Manager N S) (message : string) :
  startRejected m strategyId parameters message ->
  start strategyId symbol timeframe parameters now m
    = ({| success := false; error := Some message |}, m).
Proof.
  intros [[Hnone ->] | (strategy & p & Hsome & -> & Hinvalid & ->)];
    unfold start.
  - now rewrite Hnone.
  - rewrite Hsome, Hinvalid. reflexivity.
Qed.

Variable BUILTIN_STRATEGIES : list (Completion S).

(** Once the module variable is set, every call returns it and changes
    nothing. *)
Lemma getStrategyManager_set (p : Process N S) (instance : nat) :
  strategyManagerInstance p = Some instance ->
  getStrategyManager BUILTIN_STRATEGIES p = (instance, p).
Proof. intros Hset. unfold getStrategyManager. now rewrite Hset. Qed.

Lemma run_after_set (prog : list (Step N S)) (p : Process N S) (instance : nat) :
  strategyManagerInstance p = Some instance ->
  forall l, In l (fst (run BUILTIN_STRATEGIES prog p)) -> l = instance.
Proof.
  revert p. induction prog as [|s prog IH]; intros p Hset l Hl.
  - destruct Hl.
  - cbn [run] in Hl.
    destruct (step BUILTIN_STRATEGIES s p) as [r p1] eqn:Estep.
    assert (Hset1 : strategyManagerInstance p1 = Some instance).
    { destruct s; cbn in Estep.
      - rewrite (getStrategyManager_set p instance Hset) in Estep.
        now injection Estep as _ <-.
      - now injection Estep as _ <-.
      - now injection Estep as _ <-. }
    specialize (IH p1 Hset1 l).
    destruct (run BUILTIN_STRATEGIES prog p1) as [rs p2].
    destruct s; cbn in Estep.
    + rewrite (getStrategyManager_set p instance Hset) in Estep.
      injection Estep as <- _. cbn in Hl. destruct Hl as [<- | Hl]; auto.
    + injection Estep as <- _. auto.
    + injection Estep as <- _. auto.
Qed.

(** C7: in any run of a process, whatever else the program does in
    between, all calls of [getStrategyManager] return the same object.
    The first call allocates it; a later call returns it and allocates
    nothing. *)
Theorem getStrategyManager_singleton :
  (forall (prog : list (Step N S)) (p : Process N S) (l1 l2 : nat),
     In l1 (fst (run BUILTIN_STRATEGIES prog p)) ->
     In l2 (fst (run BUILTIN_STRATEGIES prog p)) -> l1 = l2) /\
  (forall p : Process N S,
     strategyManagerInstance p = None ->
     getStrategyManager BUILTIN_STRATEGIES p
       = (length (heap p),
          {| heap := heap p ++ [newStrategyManager BUILTIN_STRATEGIES];
             strategyManagerInstance := Some (length (heap p)) |})) /\
  (forall (p : Process N S) (instance : nat),
     strategyManagerInstance p = Some instance ->
     getStrategyManager BUILTIN_STRATEGIES p = (instance, p)).
Proof.
  split; [|split].
  - intros prog. induction prog as [|s prog IH]; intros p l1 l2 H1 H2.
    + destruct H1.
    + destruct (strategyManagerInstance p) as [instance|] eqn:Einst.
      * rewrite (run_after_set _ p instance Einst l1 H1).
        now rewrite (run_after_set _ p instance Einst l2 H2).
      * cbn [run] in H1, H2.
        destruct (step BUILTIN_STRATEGIES s p) as [r p1] eqn:Estep.
        destruct (run BUILTIN_STRATEGIES prog p1) as [rs p2] eqn:Erun.
        destruct s; cbn in Estep.
        -- unfold getStrategyManager in Estep. rewrite Einst in Estep.
           injection Estep as <- <-. cbn in H1, H2.
           assert (Hrest : forall l, In l rs -> l = length (heap p)).
           { intros l Hl.
             apply (run_after_set prog
                      {| heap := heap p ++ [newStrategyManager BUILTIN_STRATEGIES];
                         strategyManagerInstance := Some (length (heap p)) |});
               [reflexivity|]. now rewrite Erun. }
           destruct H1 as [<- | H1], H2 as [<- | H2]; auto.
           ++ symmetry. auto.
           ++ rewrite (Hrest _ H1). symmetry. auto.
        -- injection Estep as <- <-.
           eapply IH; rewrite Erun; [exact H1 | exact H2].
        -- injection Estep as <- <-.
           eapply IH; rewrite Erun; [exact H1 | exact H2].
  - intros p Hnone. unfold getStrategyManager. now rewrite Hnone.
  - exact getStrategyManager_set.
Qed.

End Generic.

(** C4 at the sample manager: [populateIndicators] of
    [failing_indicators] throws [new Error("no data")]. *)
Lemma strategy_errors_are_caught_witness :
  (exists r,
     snd (analyze "failing_indicators" "BTCUSDT" oneCandle 0 sampleManager)
       = Normal r /\
     ar_signal r = None /\ ar_errors r = Some ["no data"%string]) /\
  (exists r,
     snd (checkExit "failing_indicators" oneCandle samplePosition sampleManager)
       = Normal r) /\
  (snd (populateIndicators FailingIndicators oneCandle)
     = Throw (ErrorObj "no data") ->
   snd (checkExit "failing_indicators" oneCandle samplePosition sampleManager)
     = Normal None) /\
  (forall strategy' indicators e',
     populateIndicators FailingIndicators oneCandle
       = (strategy', Normal indicators) ->
     snd (populateExitSignal strategy' oneCandle indicators samplePosition)
       = Throw e' ->
     snd (checkExit "failing_indicators" oneCandle samplePosition sampleManager)
       = Normal None).
Proof.
  apply (strategy_errors_are_caught "failing_indicators" "BTCUSDT" oneCandle 0
           sampleManager FailingIndicators (ErrorObj "no data") samplePosition).
  - vm_compute. reflexivity.
  - vm_compute. discriminate.
  - left. reflexivity.
Defined.

(** C5 at the sample manager: [period] given as a string. *)
Lemma start_rejects_witness :
  start "always_long" "BTCUSDT" "1h" (Some {[ "period" := PStr "x" ]}) 0
        sampleManager
    = ({| success := false;
          error := Some "Parameter period must be a number"%string |},
       sampleManager).
Proof.
  apply (start_rejects "always_long" "BTCUSDT" "1h"
           (Some {[ "period" := PStr "x" ]}) 0 sampleManager).
  right. exists AlwaysLong, {[ "period" := PStr "x" ]}.
  split; [vm_compute; reflexivity|]. split; [reflexivity|].
  split; vm_compute; reflexivity.
Defined.

(** C7 on a run that constructs a manager of its own between two calls
    of the accessor. *)
Lemma getStrategyManager_singleton_witness :
  fst (run sampleBuiltins
         [CallNew; CallGetStrategyManager; CallNew; CallGetStrategyManager]
         initialProcess) = [1%nat; 1%nat] /\
  (1 = 1)%nat.
Proof.
  split; [vm_compute; reflexivity|].
  apply (proj1 (getStrategyManager_singleton sampleBuiltins)
           [CallNew; CallGetStrategyManager; CallNew; CallGetStrategyManager]
           initialProcess 1%nat 1%nat);
    vm_compute; tauto.
Defined.

End ManagerFacts.

(** ** The paper-trading engine *)

Module EngineFacts.
Import Js StrategyTypes PaperTrading Statements.

Section Generic.
Context {N : Type} `{JsNumber N} `{!StrategyDecls N}.
Context {S : Type} `{!IStrategy N S}.
Context {Metrics : Type} `{!MetricsCalculator N Metrics}.

Lemma if_ind {A : Type} (P : A -> Prop) (b : bool) (x y : A) :
  P x -> P y -> P (if b then x else y).
Proof. now destruct b. Qed.

(** The account bookkeeping leaves the positions alone. *)
Lemma updateAccountMetrics_positions (now : Z) (st : St N Metrics) :
  positions (snd (updateAccountMetrics now st)) = positions (snd st).
Proof. destruct st as [e a]. reflexivity. Qed.

Lemma recordEquityPoint_positions (now : Z) (prices : gmap string N)
    (st : St N Metrics) :
  positions (snd (recordEquityPoint now prices st)) = positions (snd st).
Proof.
  destruct st as [e a]. unfold recordEquityPoint.
  match goal with
  | |- positions (snd (if ?c then ?x else ?y)) = _ =>
      apply (if_ind (fun st => positions (snd st) = positions a) c x y)
  end; reflexivity.
Qed.

(** [updateAccountMetrics] sets the equity from the balance and the open
    positions. *)
Lemma updateAccountMetrics_consistent (now : Z) (st : St N Metrics) :
  equityConsistent (snd (updateAccountMetrics now st)).
Proof. destruct st as [e a]. reflexivity. Qed.

(** [recordEquityPoint] either returns at once or sets the equity in the
    same way. *)
Lemma recordEquityPoint_consistent (now : Z) (prices : gmap string N)
    (st : St N Metrics) :
  equityConsistent (snd st) ->
  equityConsistent (snd (recordEquityPoint now prices st)).
Proof.
  destruct st as [e a]. intros Hst. unfold recordEquityPoint.
  match goal with
  | |- equityConsistent (snd (if ?c then ?x else ?y)) =>
      apply (if_ind (fun st => equityConsistent (snd st)) c x y)
  end.
  - exact Hst.
  - reflexivity.
Qed.

Lemma updatePricesAccount_consistent (now : Z) (prices : gmap string N)
    (e : Engine N Metrics) (a : PaperAccount N Metrics) :
  status (snd (updatePricesAccount now prices (e, a))) = RUNNING ->
  equityConsistent (snd (updatePricesAccount now prices (e, a))).
Proof.
  unfold updatePricesAccount. destruct (status a) eqn:Estatus; cbn [isRunning negb snd];
    try (intros Hrun; congruence).
  intros _. apply recordEquityPoint_consistent, updateAccountMetrics_consistent.
Qed.

(** An account that is not RUNNING is skipped. *)
Lemma updatePricesAccount_skips (now : Z) (prices : gmap string N)
    (e : Engine N Metrics) (a : PaperAccount N Metrics) :
  status a <> RUNNING ->
  updatePricesAccount now prices (e, a) = (e, a).
Proof.
  intros Hstatus. unfold updatePricesAccount.
  destruct (status a); cbn [isRunning negb]; congruence.
Qed.

(** C2 (as amended): after [updatePrices], every account whose status is
    RUNNING holds as its equity exactly its balance plus the sum of the
    unrealized PnL of its open positions. *)
Theorem equity_after_price_update (now : Z) (prices : gmap string N)
    (e : Engine N Metrics) (accountId : string) (a : PaperAccount N Metrics) :
  In (accountId, a) (accounts (updatePrices now prices e)) ->
  status a = RUNNING ->
  equityConsistent a.
Proof.
  unfold updatePrices.
  set (stepAccount := fun '(e, done) '(accountId, account) =>
         let '(e, account) := updatePricesAccount now prices (e, account) in
         (e, done ++ [(accountId, account)])).
  assert (Hfold : forall l (e0 : Engine N Metrics) done,
             (forall k x, In (k, x) done -> status x = RUNNING -> equityConsistent x) ->
             forall k x, In (k, x) (snd (fold_left stepAccount l (e0, done))) ->
                         status x = RUNNING -> equityConsistent x).
  { induction l as [|[k0 a0] l IH]; intros e0 done Hdone k x Hin Hrun.
    - now apply (Hdone k x).
    - cbn [fold_left stepAccount] in Hin.
      destruct (updatePricesAccount now prices (e0, a0)) as [e1 a1] eqn:Estep.
      apply (IH e1 (done ++ [(k0, a1)])) with (k := k); [|exact Hin|exact Hrun].
      intros k' x' Hin' Hrun'. apply in_app_iff in Hin'.
      destruct Hin' as [Hin' | [Heq | []]]; [now apply (Hdone k' x')|].
      injection Heq as <- <-.
      pose proof (updatePricesAccount_consistent now prices e0 a0) as Hc.
      rewrite Estep in Hc. now apply Hc. }
  intros Hin Hrun.
  destruct (fold_left stepAccount (accounts e) (e, [])) as [e' accounts'] eqn:Efold.
  apply (Hfold (accounts e) e [] (fun _ _ Hnil => match Hnil with end)
               accountId a); [|exact Hrun].
  now rewrite Efold.
Qed.

(** C3: when a price tick reaches the stop-loss of an open position, the
    tick update closes the whole remaining position at the stop price
    with reason SL, and fills no take-profit target, whether or not any
    target is reached by the same price. *)
Theorem stop_loss_precedes_take_profit (now : Z) (idx : nat) (price : N)
    (e : Engine N Metrics) (a : PaperAccount N Metrics)
    (position : PaperPosition N) (sl : N) :
  positions a !! idx = Some position ->
  isOpen position = true ->
  stopLoss position = Some sl ->
  stopLossHit position price = true ->
  exists position' exit,
    positions (snd (updatePositionPrice now idx price (e, a))) !! idx
      = Some position' /\
    p_status position' = CLOSED /\
    closeReason position' = Some SL /\
    avgExitPrice position' = Some sl /\
    exits position' = exits position ++ [exit] /\
    ex_price exit = sl /\
    ex_size exit = totalSize position /\
    ex_reason exit = SL /\
    takeProfitTargets position' = takeProfitTargets position.
Proof.
  intros Hidx Hopen Hsl Hhit.
  unfold stopLossHit in Hhit. rewrite Hsl in Hhit. cbn [optNum] in Hhit.
  assert (Hlt : (idx < length (positions a))%nat)
    by (apply lookup_lt_is_Some; eauto).
  unfold updatePositionPrice. rewrite Hidx.
  cbn [stopLoss p_direction set_unrealizedPnlPercent set_p_unrealizedPnl
       set_currentPrice].
  rewrite Hsl. cbn [optNum]. rewrite Hhit.
  unfold closePosition. cbn [positions set_positions].
  rewrite list_lookup_insert_eq by exact Hlt.
  unfold isOpen in *.
  cbn [p_status set_unrealizedPnlPercent set_p_unrealizedPnl set_currentPrice].
  rewrite Hopen. cbn [negb]. cbv zeta.
  match goal with
  | |- context [recordEquityPoint ?n ?p (updateAccountMetrics ?n' ?st)] =>
      pose proof (recordEquityPoint_positions n p (updateAccountMetrics n' st))
        as Hrec;
      rewrite (updateAccountMetrics_positions n' st) in Hrec;
      destruct (recordEquityPoint n p (updateAccountMetrics n' st)) as [e' a']
  end.
  cbn [fst snd positions set_tradeHistory set_realizedPnl set_balance
       set_positions] in Hrec |- *.
  rewrite Hrec, list_insert_insert_eq, list_lookup_insert_eq by exact Hlt.
  eexists. eexists. split; [reflexivity|].
  repeat split; reflexivity.
Qed.

End Generic.

(** C2, counterexample: [createAccount], [start], a [processCandles] that
    opens a position, [pause], then [updatePrices].  The margin has left
    the balance (990) while the equity is still 1000, the position
    showing no unrealized PnL; the paused account is skipped by the
    update. *)
Lemma paused_account_equity_stale :
  exists a,
    getAccount "acc" pausedAfterTick = Some a /\
    status a = PAUSED /\
    balance a = 990%float /\
    equity a = 1000%float /\
    sumOpenUnrealizedPnl a = 0%float /\
    ~ equityConsistent a.
Proof.
  eexists. split; [vm_compute; reflexivity|].
  split; [reflexivity|]. split; [reflexivity|]. split; [reflexivity|].
  split; [vm_compute; reflexivity|].
  intros Hc. unfold equityConsistent in Hc.
  apply (f_equal (fun x => PrimFloat.eqb x 1000%float)) in Hc.
  vm_compute in Hc. discriminate.
Qed.

(** C2 at the same account left running: after the tick at 110 its equity
    is 990 + 10. *)
Lemma equity_after_price_update_witness :
  exists a,
    In ("acc"%string, a) (accounts runningAfterTick) /\
    status a = RUNNING /\
    equity a = 1000%float /\
    equityConsistent a.
Proof.
  eexists. split; [vm_compute; left; reflexivity|].
  split; [reflexivity|]. split; [reflexivity|].
  apply (equity_after_price_update 3 tick110 engineAfterSignal "acc").
  - vm_compute. left. reflexivity.
  - reflexivity.
Defined.

(** C3 on a long position with its stop at 112 and a target at 110, at
    the price 111, which reaches both. *)
Lemma stop_loss_precedes_take_profit_witness :
  exists a position,
    getAccount "acc" engineWithPosition = Some a /\
    positions a !! 0%nat = Some position /\
    stopLossHit position 111%float = true /\
    takeProfitHit position 111%float = true /\
    exists position' exit,
      positions (snd (updatePositionPrice 3 0 111%float (engineWithPosition, a)))
        !! 0%nat = Some position' /\
      p_status position' = CLOSED /\
      closeReason position' = Some SL /\
      avgExitPrice position' = Some 112%float /\
      exits position' = exits position ++ [exit] /\
      ex_price exit = 112%float /\
      ex_size exit = totalSize position /\
      ex_reason exit = SL /\
      takeProfitTargets position' = takeProfitTargets position.
Proof.
  eexists. eexists. split; [vm_compute; reflexivity|].
  split; [reflexivity|].
  split; [vm_compute; reflexivity|]. split; [vm_compute; reflexivity|].
  apply (stop_loss_precedes_take_profit 3 0 111%float engineWithPosition).
  - reflexivity.
  - reflexivity.
  - reflexivity.
  - vm_compute. reflexivity.
Defined.

End EngineFacts.

(** ** Further properties: arrays filled by a loop *)

Module ArrayFacts.
Import LoopFacts Shapes.

Lemma length_zrange (lo hi : Z) : length (zrange lo hi) = Z.to_nat (hi - lo).
Proof. unfold zrange. now rewrite length_map, length_seq. Qed.

(** A property indexed by the loop counter holds, after the loop, at
    the value the counter has then. *)
Lemma for_loop_indexed {S : Type} (P : Z -> S -> Prop) (lo hi : Z)
    (body : Z -> S -> S) (s : S) :
  P lo s ->
  (forall i s, lo <= i < hi -> P i s -> P (i + 1) (body i s)) ->
  P (Z.max lo hi) (for_loop lo hi body s).
Proof.
  intros Hs Hstep. unfold for_loop, zrange.
  assert (Hgen : forall n : nat, (n <= Z.to_nat (hi - lo))%nat ->
            P (lo + Z.of_nat n)
              (fold_left (fun s i => body i s)
                 (map (fun k : nat => lo + Z.of_nat k) (seq 0 n)) s)).
  { induction n as [|n IH]; intros Hn.
    - simpl. now rewrite Z.add_0_r.
    - rewrite seq_S, map_app, fold_left_app. simpl.
      replace (lo + Z.of_nat (Datatypes.S n)) with (lo + Z.of_nat n + 1) by lia.
      apply Hstep; [lia|]. apply IH. lia. }
  specialize (Hgen (Z.to_nat (hi - lo)) (le_n _)).
  replace (lo + Z.of_nat (Z.to_nat (hi - lo))) with (Z.max lo hi) in Hgen by lia.
  exact Hgen.
Qed.

Lemma getIdx_lookup {A : Type} (arr : list A) (i : nat) :
  getIdx arr (Z.of_nat i) = arr !! i.
Proof.
  unfold getIdx. destruct (Z.ltb_spec (Z.of_nat i) 0); [lia|].
  rewrite Nat2Z.id. revert i H. induction arr as [|a arr IH]; intros [|i] Hi;
    simpl; try reflexivity.
  apply IH. lia.
Qed.

(** A read inside the array yields one of its elements. *)
Lemma getNum_in_range {N : Type} `{JsNumber N} (data : list N) (i : Z) :
  0 <= i < Z.of_nat (length data) -> In (getNum data i) data.
Proof.
  intros Hi. unfold getNum.
  replace i with (Z.of_nat (Z.to_nat i)) by lia. rewrite getIdx_lookup.
  destruct (data !! Z.to_nat i) as [x|] eqn:E.
  - apply list_elem_of_In. eapply list_elem_of_lookup_2. exact E.
  - apply lookup_ge_None in E. lia.
Qed.

Lemma getIdx_map_zrange {A : Type} (f : Z -> A) (lo hi i : Z) :
  0 <= i < hi - lo -> getIdx (map f (zrange lo hi)) i = Some (f (lo + i)).
Proof.
  intros Hi. replace i with (Z.of_nat (Z.to_nat i)) at 1 by lia.
  rewrite getIdx_lookup. unfold zrange.
  rewrite list_lookup_fmap. change (map ?g ?l) with (g <$> l).
  rewrite list_lookup_fmap, lookup_seq_lt by lia. simpl.
  f_equal. f_equal. lia.
Qed.

Lemma lookup_repeat {A : Type} (x : A) (n i : nat) :
  (i < n)%nat -> repeat x n !! i = Some x.
Proof.
  revert i. induction n as [|n IH]; intros [|i] Hi; simpl; try lia.
  - reflexivity.
  - apply IH. lia.
Qed.

Lemma filledBetween_repeat {N : Type} (lo : Z) (n : nat) :
  filledBetween (N := N) lo lo (repeat None n).
Proof.
  intros i Hi. rewrite repeat_length in Hi. split; [lia|]. intros _.
  now apply lookup_repeat.
Qed.

(** Writing a number at the counter extends the filled range by one. *)
Lemma filledBetween_arrSet {N : Type} (lo k : Z) (v : N) (r : list (option N)) :
  lo <= k -> k < Z.of_nat (length r) -> filledBetween lo k r ->
  length (arrSet k (Some v) r) = length r /\
  filledBetween lo (k + 1) (arrSet k (Some v) r).
Proof.
  intros Hlo Hk Hr.
  split; [now apply length_arrSet_in_range|].
  unfold arrSet. destruct (Z.ltb_spec k 0) as [Hneg | Hpos].
  - intros i Hi. destruct (Hr i Hi) as [Hin Hout].
    split; [lia|]. intros _. apply Hout. lia.
  - destruct (Z.ltb_spec k (Z.of_nat (length r))); [|lia].
    intros i Hi. rewrite length_insert in Hi. destruct (Hr i Hi) as [Hin Hout].
    destruct (Nat.eq_dec i (Z.to_nat k)) as [-> | Hne].
    + split; [|lia]. intros _. exists v. apply list_lookup_insert_eq. lia.
    + rewrite list_lookup_insert_ne by congruence.
      split; [intros ?; apply Hin; lia | intros ?; apply Hout; lia].
Qed.

Lemma filledBetween_nullUntil {N : Type} (lo k : Z) (r : list (option N)) :
  Z.of_nat (length r) <= k -> filledBetween lo k r -> nullUntil lo r.
Proof.
  intros Hk Hr i Hi. destruct (Hr i Hi) as [Hin Hout].
  split; [intros ?; apply Hout; lia | intros ?; apply Hin; lia].
Qed.

End ArrayFacts.

(** ** Further properties: the helper functions of the calculator *)

Module HelperFacts.
Import IndicatorCalculator LoopFacts ArrayFacts Shapes.

Section Generic.
Context {N : Type} `{JsNumber N}.

(** A loop that stores a number at its counter fills the array from its
    first index on. *)
Lemma fill_loop (lo : Z) (n : nat) (f : Z -> list (option N) -> N) :
  let r := for_loop lo (Z.of_nat n) (fun i r => arrSet i (Some (f i r)) r)
             (repeat None n) in
  length r = n /\ nullUntil lo r.
Proof.
  intros r.
  assert (Hinv : length r = n /\ filledBetween lo (Z.max lo (Z.of_nat n)) r).
  { subst r.
    apply (for_loop_indexed
             (fun i r => length r = n /\ filledBetween lo i r)).
    - split; [apply repeat_length | apply filledBetween_repeat].
    - intros i s Hi [Hlen Hs].
      destruct (filledBetween_arrSet lo i (f i s) s) as [Hlen' Hs'];
        [lia | lia | exact Hs |].
      split; [congruence | exact Hs']. }
  destruct Hinv as [Hlen Hfill]. split; [exact Hlen|].
  eapply filledBetween_nullUntil; [|exact Hfill]. lia.
Qed.

(** The same for a loop that carries a state beside the array and
    stores at [off] past its counter. *)
Lemma fill_loop_state {T : Type} (off lo hi start : Z)
    (body : Z -> T * list (option N) -> T * list (option N))
    (t0 : T) (r0 : list (option N)) :
  (forall i t r, exists t' v j,
      body i (t, r) = (t', arrSet j (Some v) r) /\ j = i + off) ->
  start <= lo + off -> hi + off <= Z.of_nat (length r0) ->
  filledBetween start (lo + off) r0 ->
  let r := snd (for_loop lo hi body (t0, r0)) in
  length r = length r0 /\ filledBetween start (Z.max lo hi + off) r.
Proof.
  intros Hbody Hstart Hhi Hr0 r. subst r.
  apply (for_loop_indexed
           (fun i s => length (snd s) = length r0
                       /\ filledBetween start (i + off) (snd s))).
  - split; [reflexivity | exact Hr0].
  - intros i [t r] Hi [Hlen Hs]. simpl in Hlen, Hs.
    destruct (Hbody i t r) as (t' & v & j & -> & ->). simpl.
    destruct (filledBetween_arrSet start (i + off) v r) as [Hlen' Hs'];
      [lia | lia | exact Hs |].
    split; [congruence|].
    replace (i + 1 + off) with (i + off + 1) by lia. exact Hs'.
Qed.


(** An array that is filled by one store, then by a loop from the next
    index on. *)
Lemma seeded_loop {T : Type} (period : Z) (n : nat) (first : N)
    (body : Z -> T * list (option N) -> T * list (option N)) (t0 : T) :
  period <= Z.of_nat n ->
  (forall i t r, exists t' v j,
      body i (t, r) = (t', arrSet j (Some v) r) /\ j = i + 0) ->
  let r := snd (for_loop period (Z.of_nat n) body
                  (t0, arrSet (period - 1) (Some first) (repeat None n))) in
  length r = n /\ nullUntil (period - 1) r.
Proof.
  intros Hle Hbody. cbv zeta.
  destruct (fill_loop_state 0 period (Z.of_nat n) (period - 1) body t0
              (arrSet (period - 1) (Some first) (repeat None n)))
    as [Hlen Hfill].
  - exact Hbody.
  - lia.
  - rewrite length_arrSet_in_range; rewrite repeat_length; lia.
  - replace (period + 0) with (period - 1 + 1) by lia.
    apply filledBetween_arrSet;
      [lia | rewrite repeat_length; lia | apply filledBetween_repeat].
  - rewrite length_arrSet_in_range, repeat_length in Hlen
      by (rewrite repeat_length; lia).
    split; [exact Hlen|].
    eapply filledBetween_nullUntil; [|exact Hfill]. rewrite Hlen. lia.
Qed.

(** X2: [ema] and [atr] return one entry per input.  With at least
    [period] inputs the entries below index [period - 1] are null and
    all later ones hold a number; with fewer, every entry is null. *)
Theorem ema_atr_warm_up (data : list N) (candles : list (Candle N))
    (period : Z) :
  (length (ema data period) = length data /\
   (period <= Z.of_nat (length data) ->
    nullUntil (period - 1) (ema data period)) /\
   (Z.of_nat (length data) < period ->
    ema data period = repeat None (length data))) /\
  (length (atr candles period) = length candles /\
   (period <= Z.of_nat (length candles) ->
    nullUntil (period - 1) (atr candles period)) /\
   (Z.of_nat (length candles) < period ->
    atr candles period = repeat None (length candles))).
Proof.
  split.
  - unfold ema.
    destruct (Z.leb_spec period (Z.of_nat (length data))) as [Hle | Hgt].
    + match goal with
      | |- context [for_loop _ _ ?body (?t0, arrSet _ (Some ?first) _)] =>
          destruct (seeded_loop period (length data) first body t0 Hle)
            as [Hlen Hnull]
      end.
      { intros i t r. do 3 eexists. split; [reflexivity | lia]. }
      split; [exact Hlen|]. split; [intros _; exact Hnull | lia].
    + split; [apply repeat_length|]. split; [lia | reflexivity].
  - unfold atr.
    assert (Htr : Z.of_nat (length (map (trueRange candles)
                                        (zrange 0 (Z.of_nat (length candles)))))
                  = Z.of_nat (length candles)).
    { rewrite length_map, length_zrange. lia. }
    rewrite Htr.
    destruct (Z.leb_spec period (Z.of_nat (length candles))) as [Hle | Hgt].
    + match goal with
      | |- context [for_loop _ _ ?body (?t0, arrSet _ (Some ?first) _)] =>
          destruct (seeded_loop period (length candles) first body t0 Hle)
            as [Hlen Hnull]
      end.
      { intros i t r. do 3 eexists. split; [reflexivity | lia]. }
      split; [exact Hlen|]. split; [intros _; exact Hnull | lia].
    + split; [apply repeat_length|]. split; [lia | reflexivity].
Qed.

(** X3: for a period that is not negative, [rsi] returns one entry per
    close.  With at least [period + 1] closes the entries below index
    [period] are null and all later ones hold a number; with fewer,
    every entry is null. *)
Theorem rsi_warm_up (closes : list N) (period : Z) :
  0 <= period ->
  length (rsi closes period) = length closes /\
  (period + 1 <= Z.of_nat (length closes) -> nullUntil period (rsi closes period)) /\
  (Z.of_nat (length closes) < period + 1 ->
   rsi closes period = repeat None (length closes)).
Proof.
  intros Hp. unfold rsi.
  destruct (Z.ltb_spec (Z.of_nat (length closes)) (period + 1)) as [Hlt | Hge].
  - split; [apply repeat_length|]. split; [lia | reflexivity].
  - set (changes := map _ (zrange 1 _)).
    assert (Hch : Z.of_nat (length changes) = Z.of_nat (length closes) - 1).
    { unfold changes. rewrite length_map, length_zrange. lia. }
    destruct (for_loop 0 period _ (ofZ 0, ofZ 0)) as [sumGain sumLoss].
    match goal with
    | |- context [for_loop ?lo ?hi ?body (?t0, ?r0)] =>
        destruct (fill_loop_state 1 lo hi period body t0 r0)
          as [Hlen Hfill]
    end.
    + intros i [g l] r. do 3 eexists. split; [reflexivity | lia].
    + lia.
    + rewrite length_arrSet_in_range; rewrite repeat_length; lia.
    + apply filledBetween_arrSet;
        [lia | rewrite repeat_length; lia | apply filledBetween_repeat].
    + rewrite length_arrSet_in_range, repeat_length in Hlen
        by (rewrite repeat_length; lia).
      split; [exact Hlen|]. split; [|lia]. intros _.
      eapply filledBetween_nullUntil; [|exact Hfill]. lia.
Qed.

End Generic.

(** X3 at closes 1, 2, 4, 3 and period 2. *)
Lemma rsi_warm_up_witness :
  (0 <= 2) /\
  length (rsi Statements.smallClosesQ 2) = length Statements.smallClosesQ /\
  (2 + 1 <= Z.of_nat (length Statements.smallClosesQ) ->
   nullUntil 2 (rsi Statements.smallClosesQ 2)) /\
  (Z.of_nat (length Statements.smallClosesQ) < 2 + 1 ->
   rsi Statements.smallClosesQ 2 = repeat None (length Statements.smallClosesQ)).
Proof.
  split; [lia|]. apply (rsi_warm_up Statements.smallClosesQ 2). lia.
Defined.

End HelperFacts.

(** ** Further properties: the helpers on exact numbers *)

Module AverageFacts.
Import IndicatorCalculator LoopFacts ArrayFacts RsiFacts Statements Samples.

Local Open Scope Q_scope.

Lemma inject_Z_succ (k : Z) : inject_Z (k + 1) == inject_Z k + 1.
Proof. rewrite inject_Z_plus. reflexivity. Qed.

(** A quotient [s / p] of a sum of [p] numbers of an interval lies in
    the interval. *)
Lemma mean_within (s lo hi : Q) (p : Z) :
  (1 <= p)%Z ->
  inject_Z p * lo <= s <= inject_Z p * hi ->
  lo <= s / inject_Z p <= hi.
Proof.
  intros Hp [Hlo Hhi].
  assert (Hpos : 0 < inject_Z p).
  { change 0 with (inject_Z 0). rewrite <- Zlt_Qlt. lia. }
  split.
  - apply Qle_shift_div_l; [exact Hpos|]. lra.
  - apply Qle_shift_div_r; [exact Hpos|]. lra.
Qed.

(** Adding up [p] reads that each lie in an interval. *)
Lemma sum_within (read : Z -> Q) (lo hi : Q) (p : Z) :
  (0 <= p)%Z ->
  (forall j, (0 <= j < p)%Z -> lo <= read j <= hi) ->
  inject_Z p * lo
    <= for_loop 0 p (fun j sum => nadd sum (read j)) (ofZ 0)
    <= inject_Z p * hi.
Proof.
  intros Hp Hread.
  pose proof (for_loop_indexed
                (fun j s => inject_Z j * lo <= s <= inject_Z j * hi)
                0%Z p (fun j sum => nadd sum (read j)) (ofZ 0)) as Hloop.
  cbv beta in Hloop. replace (Z.max 0 p) with p in Hloop by lia.
  apply Hloop.
  - cbn [ofZ Q_JsNumber]. change (inject_Z 0) with 0. lra.
  - intros j s Hj [Hlo Hhi]. cbn [nadd Q_JsNumber].
    rewrite inject_Z_succ. pose proof (Hread j Hj). nra.
Qed.

(** One step of exponential smoothing stays between the previous
    average and the new value. *)
Lemma smoothing_within (d prev lo hi : Q) (span : Z) :
  (1 <= span)%Z -> lo <= d <= hi -> lo <= prev <= hi ->
  lo <= (d - prev) * (inject_Z 2 / inject_Z (span + 1)) + prev <= hi.
Proof.
  intros Hs Hd Hprev.
  assert (Hpos : 0 < inject_Z (span + 1)).
  { change 0 with (inject_Z 0). rewrite <- Zlt_Qlt. lia. }
  assert (Hm0 : 0 <= inject_Z 2 / inject_Z (span + 1)).
  { apply Qle_shift_div_l; [exact Hpos|]. change (inject_Z 2) with 2. lra. }
  assert (Hm1 : inject_Z 2 / inject_Z (span + 1) <= 1).
  { apply Qle_shift_div_r; [exact Hpos|].
    rewrite Qmult_1_l. rewrite <- Zle_Qle. lia. }
  set (m := inject_Z 2 / inject_Z (span + 1)) in *. clearbody m.
  nra.
Qed.


(** The true range of a candle whose high is not below its low is not
    negative. *)
Lemma trueRange_nonneg (candles : list (Candle Q)) (i : Z) :
  (forall c, In c candles -> low c <= high c) ->
  0 <= trueRange candles i.
Proof.
  intros Hc. unfold trueRange.
  destruct (getIdx candles i) as [c|] eqn:E; [|cbn; lra].
  destruct (i =? 0)%Z.
  - cbn [nsub Q_JsNumber]. assert (Hin : In c candles).
    { unfold getIdx in E. destruct (i <? 0)%Z; [discriminate|].
      eapply nth_error_In. exact E. }
    pose proof (Hc c Hin). lra.
  - cbn [nmax nabs nsub Q_JsNumber].
    eapply Qle_trans; [apply Qabs_nonneg | apply Q.le_max_r].
Qed.

(** X5: on exact numbers, for a period of at least 1 and candles whose
    high is not below their low, no value of the average true range is
    negative. *)
Theorem atr_nonneg (candles : list (Candle Q)) (period : Z) :
  (1 <= period)%Z ->
  (forall c, In c candles -> low c <= high c) ->
  forall v, In (Some v) (atr candles period) -> 0 <= v.
Proof.
  intros Hp Hc v. unfold atr.
  set (trValues := map (trueRange candles) _).
  assert (Htr : forall i, 0 <= getNum trValues i).
  { intros i. unfold getNum. destruct (getIdx trValues i) as [x|] eqn:E;
      [|cbn; lra].
    assert (Hin : In x trValues).
    { unfold getIdx in E. destruct (i <? 0)%Z; [discriminate|].
      eapply nth_error_In. exact E. }
    unfold trValues in Hin. apply in_map_iff in Hin.
    destruct Hin as (k & <- & _). now apply trueRange_nonneg. }
  destruct (period <=? Z.of_nat (length trValues))%Z.
  2: { intros Hv. apply repeat_spec in Hv. discriminate. }
  assert (Hperiod : 0 < inject_Z period).
  { change 0 with (inject_Z 0). rewrite <- Zlt_Qlt. lia. }
  assert (Hfirst :
    0 <= ndiv (for_loop 0 period (fun i sum => nadd sum (getNum trValues i))
                 (ofZ 0)) (ofZ period)).
  { cbn [ndiv ofZ Q_JsNumber]. apply Qdiv_nonneg; [|exact Hperiod].
    apply (for_loop_invariant (fun s => 0 <= s)); [apply Qle_refl|].
    intros i s _ Hs. cbn [nadd Q_JsNumber]. pose proof (Htr i). lra. }
  set (first := ndiv _ (ofZ period)) in *. clearbody first.
  match goal with
  | |- In _ (snd (for_loop ?l ?h ?body ?init)) -> _ =>
      assert (Hinv : let '(prev, r) := for_loop l h body init in
                     0 <= prev /\ forall x, In (Some x) r -> 0 <= x)
  end.
  { apply for_loop_invariant.
    - split; [exact Hfirst|]. intros x Hx. apply In_arrSet in Hx.
      destruct Hx as [Hx | Hx]; [now injection Hx as <-|].
      apply repeat_spec in Hx. discriminate.
    - intros i [prev r] Hi [Hprev Hr]. cbn zeta.
      cbn [nadd nmul ndiv ofZ Q_JsNumber].
      pose proof (smooth_nonneg prev (getNum trValues i) period Hp Hprev (Htr i))
        as Hcur.
      split; [exact Hcur|]. intros x Hx. apply In_arrSet in Hx.
      destruct Hx as [Hx | Hx]; [now injection Hx as <-|]. now apply Hr. }
  destruct (for_loop period _ _ _) as [prev r]. destruct Hinv as [_ Hr].
  exact (Hr v).
Qed.

(** X6: on exact numbers, for a period of at least 1, when no close is
    below the close before it, every value of the RSI is 100. *)
Theorem rsi_of_rising_closes (closes : list Q) (period : Z) :
  (1 <= period)%Z ->
  (forall i, (0 <= i)%Z -> (i + 1 < Z.of_nat (length closes))%Z ->
             getNum closes i <= getNum closes (i + 1)) ->
  forall v, In (Some v) (rsi closes period) -> v = 100.
Proof.
  intros Hp Hrise v. unfold rsi.
  destruct (Z.ltb_spec (Z.of_nat (length closes)) (period + 1)) as [Hlt | Hge].
  { intros Hv. apply repeat_spec in Hv. discriminate. }
  set (changes := map _ (zrange 1 _)).
  assert (Hlen : Z.of_nat (length changes) = (Z.of_nat (length closes) - 1)%Z).
  { unfold changes. rewrite length_map, length_zrange. lia. }
  assert (Hch : forall i, (0 <= i < Z.of_nat (length closes) - 1)%Z ->
                          0 <= getNum changes i).
  { intros i Hi. unfold getNum at 1, changes.
    rewrite getIdx_map_zrange by lia. cbn [nsub Q_JsNumber].
    replace (1 + i - 1)%Z with i by lia.
    pose proof (Hrise i ltac:(lia) ltac:(lia)) as Hi'.
    replace (i + 1)%Z with (1 + i)%Z in Hi' by lia. lra. }
  assert (Hgt : forall c : Q, 0 <= c -> ngt c (ofZ 0) = false -> c == 0).
  { intros c Hc. unfold ngt. cbn [nlt ofZ Q_JsNumber].
    change (inject_Z 0) with 0. intros E.
    apply negb_false_iff, Qle_bool_iff in E. lra. }
  assert (Hperiod : 0 < inject_Z period).
  { change 0 with (inject_Z 0). rewrite <- Zlt_Qlt. lia. }
  (* the losses of the first [period] changes add up to 0 *)
  destruct (for_loop 0 period _ (ofZ 0, ofZ 0)) as [sumGain sumLoss] eqn:Esum.
  assert (Hsum : sumLoss == 0).
  { match type of Esum with
    | for_loop ?l ?h ?body ?init = _ =>
        assert (Hinv : snd (for_loop l h body init) == 0)
    end.
    { apply (for_loop_invariant (fun s => snd s == 0)); [reflexivity|].
      intros i [g l] Hi Hl. cbn [snd] in Hl. cbn zeta.
      destruct (ngt (getNum changes i) (ofZ 0)) eqn:E; cbn [snd]; [exact Hl|].
      cbn [nadd nabs Q_JsNumber].
      pose proof (Hgt _ (Hch i ltac:(lia)) E) as Hz.
      rewrite Hz, Hl. reflexivity. }
    rewrite Esum in Hinv. exact Hinv. }
  assert (Hl0 : ndiv sumLoss (ofZ period) == 0).
  { cbn [ndiv ofZ Q_JsNumber]. rewrite Hsum. unfold Qdiv. ring. }
  set (avgGain0 := ndiv sumGain (ofZ period)).
  set (avgLoss0 := ndiv sumLoss (ofZ period)) in *. clearbody avgLoss0 avgGain0.
  match goal with
  | |- In _ (snd (for_loop ?l ?h ?body ?init)) -> _ =>
      assert (Hinv : let '(g, l, result) := for_loop l h body init in
                     l == 0 /\ forall x, In (Some x) result -> x = 100)
  end.
  { apply for_loop_invariant.
    - split; [exact Hl0|]. intros x Hx. apply In_arrSet in Hx.
      destruct Hx as [Hx | Hx].
      + injection Hx as <-. now apply rsiValue_zero_loss.
      + apply repeat_spec in Hx. discriminate.
    - intros i [[g l] result] Hi [Hl Hres]. cbn zeta.
      assert (Hloss : (if nlt (getNum changes i) (ofZ 0)
                       then nabs (getNum changes i) else ofZ 0) = ofZ 0).
      { cbn [nlt ofZ Q_JsNumber]. change (inject_Z 0) with 0.
        destruct (Qle_bool 0 (getNum changes i)) eqn:E; [reflexivity|].
        pose proof (Hch i ltac:(lia)) as Hc. apply Qle_bool_iff in Hc.
        congruence. }
      rewrite Hloss.
      assert (Hl' : ndiv (nadd (nmul l (ofZ (period - 1))) (ofZ 0)) (ofZ period)
                    == 0).
      { cbn [ndiv nadd nmul ofZ Q_JsNumber]. rewrite Hl.
        change (inject_Z 0) with 0. unfold Qdiv. ring. }
      split; [exact Hl'|]. intros x Hx. apply In_arrSet in Hx.
      destruct Hx as [Hx | Hx].
      + injection Hx as <-. now apply rsiValue_zero_loss.
      + now apply Hres. }
  destruct (for_loop period _ _ _) as [[g l] result].
  destruct Hinv as [_ Hres]. exact (Hres v).
Qed.


(** X5 at three candles and period 2. *)
Lemma atr_nonneg_witness :
  (1 <= 2)%Z /\
  forall v, In (Some v) (atr rangeCandlesQ 2) -> 0 <= v.
Proof.
  split; [lia|].
  apply (atr_nonneg rangeCandlesQ 2); [lia|].
  intros c Hc. cbn in Hc.
  repeat (destruct Hc as [<- | Hc]; [discriminate|]). destruct Hc.
Defined.

(** X6 at closes 1, 2, 2, 5 and period 2. *)
Lemma rsi_of_rising_closes_witness :
  rsi risingClosesQ 2 = [None; None; Some 100; Some 100] /\
  forall v, In (Some v) (rsi risingClosesQ 2) -> v = 100.
Proof.
  split; [vm_compute; reflexivity|].
  apply (rsi_of_rising_closes risingClosesQ 2); [lia|].
  intros i Hi0 Hi1. cbn in Hi1.
  assert (Hi : i = 0%Z \/ i = 1%Z \/ i = 2%Z) by lia.
  destruct Hi as [-> | [-> | ->]]; discriminate.
Defined.

End AverageFacts.

(** ** Further properties: the built-in list and the main calculator *)

Module BuiltinFacts.
Import Builtin BuiltinLookup JsObject IndicatorCalculator LoopFacts Samples.

(** Adding the elements of [xs] to a set [seen] keeps it free of
    duplicates and yields the elements of both. *)
Lemma setValues_from (xs seen : list string) :
  NoDup seen ->
  let out := fold_left (fun seen x => if existsb (String.eqb x) seen then seen
                                      else seen ++ [x]) xs seen in
  NoDup out /\ forall x, In x out <-> In x seen \/ In x xs.
Proof.
  revert seen. induction xs as [|a xs IH]; intros seen Hnd; simpl.
  - split; [exact Hnd | tauto].
  - destruct (existsb (String.eqb a) seen) eqn:E.
    + destruct (IH seen Hnd) as [Hnd' Hin]. split; [exact Hnd'|].
      intros x. rewrite Hin. apply existsb_exists in E.
      destruct E as (y & Hy & Hay). apply String.eqb_eq in Hay. subst y.
      split; [tauto|]. intros [Hx | [<- | Hx]]; tauto.
    + assert (Hnot : ~ In a seen).
      { intros Ha. assert (existsb (String.eqb a) seen = true); [|congruence].
        apply existsb_exists. exists a. split; [exact Ha | apply String.eqb_refl]. }
      destruct (IH (seen ++ [a])) as [Hnd' Hin].
      { apply NoDup_app. split; [exact Hnd|]. split.
        - intros x Hx Hx'. apply list_elem_of_In in Hx.
          apply list_elem_of_In in Hx'. simpl in Hx'.
          destruct Hx' as [<- | []]. contradiction.
        - apply NoDup_singleton. }
      split; [exact Hnd'|]. intros x. rewrite Hin, in_app_iff. simpl. tauto.
Qed.

(** X7: [getBuiltinIndicator] finds every built-in indicator under its
    own id (the ids are distinct) and returns nothing exactly when no
    entry has the id asked for.  [getIndicatorCategories] lists every
    category of the list once, and [getIndicatorsByCategory] returns
    exactly the entries of the category asked for. *)
Theorem builtin_lookups :
  (forall ind, In ind BUILTIN_INDICATORS ->
               getBuiltinIndicator (id ind) = Some ind) /\
  (forall i ind, getBuiltinIndicator i = Some ind ->
                 In ind BUILTIN_INDICATORS /\ id ind = i) /\
  (forall i, getBuiltinIndicator i = None <->
             forall ind, In ind BUILTIN_INDICATORS -> id ind <> i) /\
  NoDup getIndicatorCategories /\
  (forall c, In c getIndicatorCategories <->
             exists ind, In ind BUILTIN_INDICATORS /\ category ind = c) /\
  (forall ind c, In ind (getIndicatorsByCategory c) <->
                 In ind BUILTIN_INDICATORS /\ category ind = c).
Proof.
  destruct (setValues_from (map category BUILTIN_INDICATORS) [])
    as [Hnd Hcat]; [apply NoDup_nil_2|].
  split; [|split; [|split; [|split; [|split]]]].
  - intros ind Hin. simpl in Hin.
    repeat (destruct Hin as [<- | Hin]; [reflexivity|]). destruct Hin.
  - intros i ind Hfind. unfold getBuiltinIndicator in Hfind.
    apply find_some in Hfind. destruct Hfind as [Hin Heq].
    split; [exact Hin | now apply String.eqb_eq].
  - intros i. unfold getBuiltinIndicator. split.
    + intros Hnone ind Hin Heq.
      pose proof (find_none _ _ Hnone ind Hin) as Hne. cbv beta in Hne.
      apply String.eqb_neq in Hne. contradiction.
    + intros Hall.
      destruct (find _ BUILTIN_INDICATORS) as [ind|] eqn:E; [|reflexivity].
      apply find_some in E. destruct E as [Hin Heq].
      apply String.eqb_eq in Heq. now destruct (Hall ind Hin).
  - exact Hnd.
  - intros c. unfold getIndicatorCategories, setValues. rewrite Hcat.
    rewrite in_map_iff. simpl. split.
    + intros [[] | (ind & Hc & Hind)]. exists ind. tauto.
    + intros (ind & Hind & Hc). right. exists ind. tauto.
  - intros ind c. unfold getIndicatorsByCategory. rewrite filter_In.
    rewrite String.eqb_eq. reflexivity.
Qed.

(** A key that the table does not define has no calculator. *)
Lemma lookupCalculator_absent {V : Type} (table : list (string * V))
    (key : string) :
  ~ In key (map fst table) -> lookupCalculator table key = None.
Proof.
  induction table as [|[k v] rest IH]; simpl; [reflexivity|].
  intros Hnot. destruct (String.eqb_spec k key) as [-> | Hne]; [tauto|].
  apply IH. tauto.
Qed.

Section Generic.
Context {N : Type} `{JsNumber N} `{!JsSqrt N}.

(** X8: for the indicator that [getBuiltinIndicator] finds under an
    id, [calculateIndicator] returns a result, logs nothing, and the
    result carries that id and the overlay flag of the definition. *)
Theorem result_matches_definition (i : string) (ind : BuiltInIndicator)
    (w : World N) :
  getBuiltinIndicator i = Some ind ->
  exists r,
    calculateIndicator ind w = (Some r, w) /\
    r_id r = i /\
    r_overlay r = isOverlayIndicator ind.
Proof.
  intros Hfind. unfold getBuiltinIndicator in Hfind.
  apply find_some in Hfind. destruct Hfind as [Hin Heq].
  apply String.eqb_eq in Heq. subst i. simpl in Hin.
  repeat (destruct Hin as [<- | Hin];
          [eexists; split; [reflexivity|]; split; reflexivity|]).
  destruct Hin.
Qed.

(** X9: for an indicator whose id is none of the built-in ids, and no
    member name of [Object.prototype] (under which the table yields
    the inherited member), [calculateIndicator] returns null and logs
    one warning that names the id; the candles and the inputs are left
    as they were. *)
Theorem unknown_indicator_warns (indicator : BuiltInIndicator) (w : World N) :
  (forall ind, In ind BUILTIN_INDICATORS -> id ind <> id indicator) ->
  ~ In (id indicator) objectPrototypeKeys ->
  calculateIndicator indicator w
    = (None,
       {| w_candles := w_candles w; w_inputs := w_inputs w;
          w_console := w_console w
            ++ ["No calculator implemented for indicator: " +:+ id indicator] |}).
Proof.
  intros Hall _. unfold calculateIndicator.
  rewrite lookupCalculator_absent; [reflexivity|].
  change (map fst indicatorCalculators) with (map id BUILTIN_INDICATORS).
  rewrite in_map_iff. intros (ind & Heq & Hin). exact (Hall ind Hin Heq).
Qed.

End Generic.

(** X8 at [vol_sma] on a one-candle world. *)
Lemma result_matches_definition_witness :
  getBuiltinIndicator "vol_sma" = Some Statements.volSmaIndicator /\
  exists r,
    calculateIndicator Statements.volSmaIndicator Statements.nanVolumeWorld
      = (Some r, Statements.nanVolumeWorld) /\
    r_id r = "vol_sma" /\
    r_overlay r = isOverlayIndicator Statements.volSmaIndicator.
Proof.
  split; [reflexivity|].
  apply (result_matches_definition "vol_sma" Statements.volSmaIndicator
                                   Statements.nanVolumeWorld).
  reflexivity.
Defined.

(** X9 at an indicator [vwap], which the list does not define. *)
Lemma unknown_indicator_warns_witness :
  calculateIndicator vwapIndicator Statements.nanVolumeWorld
    = (None,
       {| w_candles := w_candles Statements.nanVolumeWorld;
          w_inputs := w_inputs Statements.nanVolumeWorld;
          w_console := ["No calculator implemented for indicator: vwap"] |}).
Proof.
  apply (unknown_indicator_warns vwapIndicator Statements.nanVolumeWorld).
  - intros ind Hin. simpl in Hin.
    repeat (destruct Hin as [<- | Hin]; [discriminate|]). destruct Hin.
  - intros Hin. simpl in Hin.
    repeat (destruct Hin as [Hin | Hin]; [discriminate|]). destruct Hin.
Defined.

End BuiltinFacts.

(** ** Further properties: the technical indicators of the forecast *)

Module MarketIndicatorFacts.
Import MarketIndicators LoopFacts ArrayFacts Samples.

Lemma In_firstn_list {A : Type} (x : A) (n : nat) (l : list A) :
  In x (firstn n l) -> In x l.
Proof.
  revert n. induction l as [|a l IH]; intros [|n]; simpl; try tauto.
  intros [-> | Hx]; [now left | right; eauto].
Qed.

Lemma In_skipn_list {A : Type} (x : A) (n : nat) (l : list A) :
  In x (skipn n l) -> In x l.
Proof.
  revert n. induction l as [|a l IH]; intros [|n]; simpl; try tauto.
  intros Hx. right. eauto.
Qed.

(** A slice holds elements of the array only. *)
Lemma In_jsSlice {A : Type} (x : A) (arr : list A) (s e : Z) :
  In x (jsSlice arr s e) -> In x arr.
Proof.
  unfold jsSlice. intros Hx. apply In_firstn_list in Hx.
  now apply In_skipn_list in Hx.
Qed.

Local Open Scope Q_scope.

Lemma sumN_nonneg (l : list Q) : (forall x, In x l -> 0 <= x) -> 0 <= sumN l.
Proof.
  intros Hl. unfold sumN.
  apply (fold_left_invariant (fun s => 0 <= s)); [apply Qle_refl|].
  intros s x Hx Hs. cbn [nadd Q_JsNumber]. pose proof (Hl x Hx). lra.
Qed.

Lemma trueRangeAt_nonneg (data : list (MarketData Q)) (i : Z) :
  0 <= trueRangeAt data i.
Proof.
  unfold trueRangeAt. destruct (getIdx data i) as [d|]; [|apply Qle_refl].
  cbn [nmax nabs nsub Q_JsNumber].
  eapply Qle_trans; [apply Qabs_nonneg | apply Q.le_max_r].
Qed.

(** X10: on exact numbers the average true range of the forecast is
    never negative, whatever the candles. *)
Theorem calculateATR_nonneg (data : list (MarketData Q)) (period : nat) :
  0 <= calculateATR data period.
Proof.
  unfold calculateATR.
  destruct (Z.of_nat (length data) <? Z.of_nat period + 1)%Z; [apply Qle_refl|].
  set (recentTRs := jsSlice _ _ _).
  destruct (Nat.eqb_spec (length recentTRs) 0) as [_ | Hne]; [apply Qle_refl|].
  cbn [ndiv ofZ Q_JsNumber]. apply RsiFacts.Qdiv_nonneg.
  - apply sumN_nonneg. intros x Hx. apply In_jsSlice in Hx.
    apply in_map_iff in Hx. destruct Hx as (i & <- & _).
    apply trueRangeAt_nonneg.
  - change 0 with (inject_Z 0). rewrite <- Zlt_Qlt. lia.
Qed.


Lemma fold_sum_grows (l : list Q) (a : Q) :
  (forall y, In y l -> 0 <= y) ->
  a <= fold_left Qplus l a /\
  forall x, In x l -> a + x <= fold_left Qplus l a.
Proof.
  revert a. induction l as [|b l IH]; intros a Hl; simpl.
  - split; [apply Qle_refl | intros x []].
  - assert (Hb : 0 <= b) by (apply Hl; now left).
    destruct (IH (a + b)) as [Hge Hin]; [intros y Hy; apply Hl; now right|].
    split; [lra|]. intros x [<- | Hx]; [exact Hge|].
    pose proof (Hin x Hx). lra.
Qed.

(** The last [k >= 1] elements of an array that has at least [k]. *)
Lemma length_jsSlice_last {A : Type} (arr : list A) (k : nat) :
  (1 <= k <= length arr)%nat ->
  length (jsSlice arr (- Z.of_nat k) (Z.of_nat (length arr))) = k.
Proof.
  intros Hk. unfold jsSlice. rewrite length_firstn, length_skipn.
  destruct (Z.ltb_spec (- Z.of_nat k) 0);
    destruct (Z.ltb_spec (Z.of_nat (length arr)) 0); lia.
Qed.




End MarketIndicatorFacts.

(** ** Further properties: registration, start and stop, the cache *)

Module RegistryFacts.
Import Js StrategyTypes StrategyManager StrategyManagerAccess Statements Samples.

Lemma length_append (a b : string) :
  String.length (a +:+ b) = (String.length a + String.length b)%nat.
Proof. induction a as [|c a IH]; simpl; [reflexivity | now rewrite IH]. Qed.

(** A running id is never the id of its strategy. *)
Lemma runningId_fresh (strategyId symbol timeframe : string) :
  strategyId +:+ "_" +:+ symbol +:+ "_" +:+ timeframe <> strategyId.
Proof.
  intros Heq. apply (f_equal String.length) in Heq.
  rewrite !length_append in Heq. simpl in Heq. lia.
Qed.

Section Generic.
Context {N : Type} `{JsNumber N} `{!StrategyDecls N}.
Context {S : Type} `{!IStrategy N S}.

Lemma manager_eta (m : Manager N S) :
  {| strategies := strategies m; runningStrategies := runningStrategies m;
     candleCache := candleCache m |} = m.
Proof. now destruct m. Qed.

(** What [registerBuiltInStrategies] leaves in the registry. *)
Lemma registerBuiltIns_from (classes : list (Completion S)) (m : Manager N S) :
  let m' := fold_left (fun m StrategyClass =>
                         match StrategyClass with
                         | Normal strategy => register strategy m
                         | Throw _ => m
                         end) classes m in
  runningStrategies m' = runningStrategies m /\
  (forall s, In (Normal s) classes ->
     exists s', strategies m' !! cfg_id (getConfig s) = Some s' /\
                cfg_id (getConfig s') = cfg_id (getConfig s)) /\
  (forall i s', strategies m' !! i = Some s' ->
     strategies m !! i = Some s' \/
     (In (Normal s') classes /\ cfg_id (getConfig s') = i)) /\
  (forall i s, strategies m !! i = Some s -> cfg_id (getConfig s) = i ->
     exists s', strategies m' !! i = Some s' /\ cfg_id (getConfig s') = i).
Proof.
  revert m. induction classes as [|c classes IH]; intros m; simpl.
  - split; [reflexivity|]. split; [intros s []|]. split; [auto|]. eauto.
  - set (m1 := match c with Normal strategy => register strategy m | Throw _ => m end).
    destruct (IH m1) as (Hrun & Hin & Hout & Hkeep).
    assert (Hrun1 : runningStrategies m1 = runningStrategies m).
    { unfold m1. now destruct c. }
    split; [congruence|]. split; [|split].
    + intros s [-> | Hs]; [|now apply Hin].
      apply (Hkeep _ s); [|reflexivity]. cbn. apply lookup_insert_eq.
    + intros i s' Hs'. destruct (Hout i s' Hs') as [H1 | [H1 H2]]; [|tauto].
      unfold m1 in H1. destruct c as [strategy|e]; [|tauto].
      cbn in H1. destruct (decide (cfg_id (getConfig strategy) = i)) as [<- | Hne].
      * rewrite lookup_insert_eq in H1. injection H1 as <-. right. tauto.
      * rewrite lookup_insert_ne in H1 by exact Hne. tauto.
    + intros i s Hs Hi. unfold m1 in Hkeep. destruct c as [strategy|e].
      * destruct (decide (cfg_id (getConfig strategy) = i)) as [<- | Hne].
        -- apply (Hkeep _ strategy); [apply lookup_insert_eq | reflexivity].
        -- apply (Hkeep _ s); [|exact Hi]. cbn.
           now rewrite lookup_insert_ne by exact Hne.
      * now apply (Hkeep _ s).
Qed.

Variable BUILTIN_STRATEGIES : list (Completion S).



(** X15: [unregister] removes the strategy from the registry but stops
    nothing that was started with it: it deletes the running entry
    keyed by the strategy id, while started strategies are keyed by
    [strategyId_symbol_timeframe], so every one of them stays. *)
Theorem unregister_keeps_running (strategyId symbol : string)
    (timeframe : Timeframe) (m : Manager N S) (running : RunningStrategy N) :
  getRunningStrategy (strategyId +:+ "_" +:+ symbol +:+ "_" +:+ timeframe) m
    = Some running ->
  getStrategy strategyId (unregister strategyId m) = None /\
  getRunningStrategy (strategyId +:+ "_" +:+ symbol +:+ "_" +:+ timeframe)
                     (unregister strategyId m)
    = Some running.
Proof.
  intros Hrun. unfold getStrategy, getRunningStrategy, unregister, stop in *. cbn.
  split; [apply lookup_delete_eq|].
  rewrite lookup_delete_ne; [exact Hrun|].
  intros Heq. symmetry in Heq. now apply runningId_fresh in Heq.
Qed.




End Generic.


(** X15 at the sample manager, after
    [start("always_long", "BTCUSDT", "1h")]. *)
Lemma unregister_keeps_running_witness :
  getStrategy "always_long" (unregister "always_long" startedManager) = None /\
  getRunningStrategy "always_long_BTCUSDT_1h"
                     (unregister "always_long" startedManager)
    = Some {| rs_id := "always_long_BTCUSDT_1h"; rs_strategy := "always_long";
              rs_symbol := "BTCUSDT"; rs_timeframe := "1h";
              rs_status := IDLE; rs_lastSignal := None;
              rs_lastUpdate := 5; rs_error := None |}.
Proof.
  apply (unregister_keeps_running "always_long" "BTCUSDT" "1h" startedManager).
  vm_compute. reflexivity.
Defined.


End RegistryFacts.

(** ** Further properties: the accounts of the engine *)

Module AccountFacts.
Import Js StrategyTypes PaperTrading Statements EngineFacts Samples.

(** *** The account map *)

Section MapFacts.
Context {V : Type}.

Lemma mapGet_mapSet_eq (k : string) (v : V) (m : list (string * V)) :
  mapGet k (mapSet k v m) = Some v.
Proof.
  induction m as [|[k' v'] m IH]; simpl.
  - now rewrite String.eqb_refl.
  - destruct (String.eqb k' k) eqn:E; simpl; rewrite E; [reflexivity | exact IH].
Qed.

Lemma mapGet_mapSet_ne (k k0 : string) (v : V) (m : list (string * V)) :
  k0 <> k -> mapGet k0 (mapSet k v m) = mapGet k0 m.
Proof.
  intros Hne. induction m as [|[k' v'] m IH]; simpl.
  - destruct (String.eqb_spec k k0); [congruence | reflexivity].
  - destruct (String.eqb_spec k' k) as [-> | Hk]; simpl.
    + destruct (String.eqb_spec k k0); [congruence | reflexivity].
    + destruct (String.eqb k' k0); [reflexivity | exact IH].
Qed.

Lemma mapSet_same (k : string) (v : V) (m : list (string * V)) :
  mapGet k m = Some v -> mapSet k v m = m.
Proof.
  induction m as [|[k' v'] m IH]; simpl; [discriminate|].
  destruct (String.eqb k' k).
  - now intros [= ->].
  - intros Hget. now rewrite IH.
Qed.

Lemma mapGet_mapDelete_eq (k : string) (m : list (string * V)) :
  mapGet k (mapDelete k m) = None.
Proof.
  unfold mapDelete. induction m as [|[k' v'] m IH]; simpl; [reflexivity|].
  destruct (String.eqb k' k) eqn:E; simpl; [exact IH|]. now rewrite E.
Qed.

Lemma mapGet_mapDelete_ne (k k0 : string) (m : list (string * V)) :
  k0 <> k -> mapGet k0 (mapDelete k m) = mapGet k0 m.
Proof.
  intros Hne. unfold mapDelete. induction m as [|[k' v'] m IH]; simpl;
    [reflexivity|].
  destruct (String.eqb_spec k' k) as [-> | Hk]; simpl.
  - destruct (String.eqb_spec k k0); [congruence | exact IH].
  - destruct (String.eqb k' k0); [reflexivity | exact IH].
Qed.
End MapFacts.

Section Generic.
Context {N : Type} `{JsNumber N} `{!StrategyDecls N}.
Context {S : Type} `{!IStrategy N S}.
Context {Metrics : Type} `{!MetricsCalculator N Metrics}.

(** *** Bookkeeping *)

(** The account bookkeeping changes neither the funds nor the history
    nor the status of an account. *)
Lemma updateAccountMetrics_keeps (now : Z) (st : St N Metrics) :
  let a := snd st in
  let a' := snd (updateAccountMetrics now st) in
  positions a' = positions a /\ balance a' = balance a /\
  realizedPnl a' = realizedPnl a /\ tradeHistory a' = tradeHistory a /\
  config a' = config a /\ a_id a' = a_id a /\ status a' = status a /\
  initialBalance a' = initialBalance a /\ equityCurve a' = equityCurve a.
Proof. destruct st as [e a]. repeat apply conj; reflexivity. Qed.

(** [recordEquityPoint] either returns at once or assigns the equity
    fields and appends a point. *)
Lemma recordEquityPoint_keeps_fields (now : Z) (prices : gmap string N)
    (e : Engine N Metrics) (a : PaperAccount N Metrics) :
  let a' := snd (recordEquityPoint now prices (e, a)) in
  positions a' = positions a /\ balance a' = balance a /\
  realizedPnl a' = realizedPnl a /\ tradeHistory a' = tradeHistory a /\
  config a' = config a /\ a_id a' = a_id a /\ status a' = status a /\
  initialBalance a' = initialBalance a.
Proof.
  unfold recordEquityPoint.
  match goal with
  | |- context [if ?c then ?x else ?y] =>
      apply (if_ind
               (fun st =>
                  let a' := snd st in
                  positions a' = positions a /\ balance a' = balance a /\
                  realizedPnl a' = realizedPnl a /\
                  tradeHistory a' = tradeHistory a /\
                  config a' = config a /\ a_id a' = a_id a /\
                  status a' = status a /\
                  initialBalance a' = initialBalance a) c x y)
  end.
  - cbv zeta. repeat apply conj; reflexivity.
  - lazy beta zeta iota delta
      [snd fst positions balance realizedPnl tradeHistory config a_id status
       initialBalance set_lastUpdate set_equityCurve set_totalPnlPercent
       set_totalPnl set_maxDrawdown set_currentDrawdown set_maxEquity
       set_equity set_unrealizedPnl].
    repeat apply conj; reflexivity.
Qed.

Lemma recordEquityPoint_keeps (now : Z) (prices : gmap string N)
    (st : St N Metrics) :
  let a := snd st in
  let a' := snd (recordEquityPoint now prices st) in
  positions a' = positions a /\ balance a' = balance a /\
  realizedPnl a' = realizedPnl a /\ tradeHistory a' = tradeHistory a /\
  config a' = config a /\ a_id a' = a_id a /\ status a' = status a /\
  initialBalance a' = initialBalance a.
Proof.
  destruct st as [e a]. exact (recordEquityPoint_keeps_fields now prices e a).
Qed.

(** Neither adds, removes or replaces an account of the engine. *)
Lemma updateAccountMetrics_accounts (now : Z) (st : St N Metrics) :
  accounts (fst (updateAccountMetrics now st)) = accounts (fst st).
Proof.
  destruct st as [e a]. unfold updateAccountMetrics.
  lazy beta zeta iota delta [fst].
  match goal with
  | |- accounts (if ?c then ?x else ?y) = _ =>
      apply (if_ind (fun e' => accounts e' = accounts e) c x y)
  end; reflexivity.
Qed.

Lemma recordEquityPoint_accounts (now : Z) (prices : gmap string N)
    (st : St N Metrics) :
  accounts (fst (recordEquityPoint now prices st)) = accounts (fst st).
Proof.
  destruct st as [e a]. unfold recordEquityPoint.
  match goal with
  | |- accounts (fst (if ?c then ?x else ?y)) = _ =>
      apply (if_ind (fun st => accounts (fst st) = accounts e) c x y)
  end; [reflexivity|].
  lazy beta zeta iota delta [fst].
  match goal with
  | |- accounts (if ?c then ?x else ?y) = _ =>
      apply (if_ind (fun e' => accounts e' = accounts e) c x y)
  end; reflexivity.
Qed.

(** The two together, as every operation calls them. *)
Lemma bookkeeping_keeps (now : Z) (prices : gmap string N) (st : St N Metrics) :
  let a := snd st in
  let a' := snd (recordEquityPoint now prices (updateAccountMetrics now st)) in
  positions a' = positions a /\ balance a' = balance a /\
  realizedPnl a' = realizedPnl a /\ tradeHistory a' = tradeHistory a /\
  config a' = config a /\ a_id a' = a_id a /\ status a' = status a /\
  initialBalance a' = initialBalance a.
Proof.
  cbv zeta.
  destruct (recordEquityPoint_keeps now prices (updateAccountMetrics now st))
    as (H1 & H2 & H3 & H4 & H5 & H6 & H7 & H8).
  destruct (updateAccountMetrics_keeps now st)
    as (G1 & G2 & G3 & G4 & G5 & G6 & G7 & G8 & _).
  cbv zeta in *. repeat split; congruence.
Qed.

End Generic.

End AccountFacts.

(** ** Further properties: the positions of the engine *)

Module PositionFacts.
Import Js StrategyTypes PaperTrading Statements EngineFacts AccountFacts
  EngineShapes Samples.

Section Generic.
Context {N : Type} `{JsNumber N} `{!StrategyDecls N}.
Context {S : Type} `{!IStrategy N S}.
Context {Metrics : Type} `{!MetricsCalculator N Metrics}.

(** *** Closing a position *)

(** What [closePosition] does to an open position and to its account. *)
Lemma closePosition_open (now : Z) (idx : nat) (price : N) (reason : Reason)
    (e : Engine N Metrics) (a : PaperAccount N Metrics)
    (position : PaperPosition N) :
  positions a !! idx = Some position ->
  isOpen position = true ->
  exists e' a' position' exit trade,
    closePosition now idx price reason (e, a) = ((e', a'), Some trade) /\
    (positions a' = <[idx := position']> (positions a) /\
     tradeHistory a' = tradeHistory a ++ [trade] /\
     balance a'
       = nadd (balance a) (nadd (margin position) (p_realizedPnl position')) /\
     realizedPnl a' = nadd (realizedPnl a) (p_realizedPnl position') /\
     config a' = config a /\ a_id a' = a_id a /\ status a' = status a) /\
    (p_status position' = CLOSED /\
     closeReason position' = Some reason /\
     closedAt position' = Some now /\
     avgExitPrice position' = Some price /\
     exits position' = exits position ++ [exit] /\
     totalSize position' = totalSize position /\
     p_symbol position' = p_symbol position /\
     p_realizedPnl position'
       = nadd (p_realizedPnl position) (nsub (ex_pnl exit) (ex_fee exit)) /\
     totalFees position' = nadd (totalFees position) (ex_fee exit)) /\
    (ex_price exit = price /\ ex_size exit = totalSize position /\
     ex_reason exit = reason /\
     ex_pnl exit = directionalPnl position price (totalSize position) /\
     ex_fee exit = nmul (nmul (totalSize position) price)
                        (ndiv (feePercent (config a)) (ofZ 100))) /\
    (t_positionId trade = p_id position /\
     pnl trade = p_realizedPnl position' /\
     fees trade = totalFees position' /\
     netPnl trade = nsub (p_realizedPnl position') (totalFees position')).
Proof.
  intros Hidx Hopen. unfold closePosition. rewrite Hidx, Hopen. cbn [negb].
  cbv zeta.
  match goal with
  | |- context [recordEquityPoint ?n ?p (updateAccountMetrics ?n' ?st)] =>
      pose proof (bookkeeping_keeps n p st) as Hkeep;
      destruct (recordEquityPoint n p (updateAccountMetrics n' st)) as [e' a']
  end.
  cbv zeta in Hkeep.
  cbn [fst snd positions balance realizedPnl tradeHistory config a_id status
       initialBalance set_tradeHistory set_realizedPnl set_balance
       set_positions] in Hkeep.
  destruct Hkeep as (H1 & H2 & H3 & H4 & H5 & H6 & H7 & H8).
  do 5 eexists. split; [reflexivity|]. split.
  { split; [exact H1|]. split; [exact H4|]. split; [exact H2|].
    split; [exact H3|]. split; [exact H5|]. split; [exact H6 | exact H7]. }
  split; [repeat split|]. split; repeat split.
Qed.

Lemma closePosition_not_open (now : Z) (idx : nat) (price : N) (reason : Reason)
    (st : St N Metrics) :
  (forall position, positions (snd st) !! idx = Some position ->
                    isOpen position = false) ->
  closePosition now idx price reason st = (st, None).
Proof.
  intros Hclosed. destruct st as [e a]. unfold closePosition.
  destruct (positions a !! idx) as [position|] eqn:Hidx; [|reflexivity].
  cbn [snd] in Hclosed. now rewrite (Hclosed position Hidx).
Qed.

(** X19: [closePosition] on an open position marks it CLOSED with the
    reason given, records one exit of the whole remaining size at the
    given price and appends one trade; no other position changes.
    Called on a position that is not open (so also a second time on the
    same position) it returns null and changes nothing. *)
Theorem close_position_once (now : Z) (idx : nat) (price : N) (reason : Reason)
    (e : Engine N Metrics) (a : PaperAccount N Metrics)
    (position : PaperPosition N) :
  positions a !! idx = Some position ->
  isOpen position = true ->
  exists e' a' position' exit trade,
    closePosition now idx price reason (e, a) = ((e', a'), Some trade) /\
    positions a' = <[idx := position']> (positions a) /\
    p_status position' = CLOSED /\
    closeReason position' = Some reason /\
    closedAt position' = Some now /\
    exits position' = exits position ++ [exit] /\
    ex_price exit = price /\ ex_size exit = totalSize position /\
    ex_reason exit = reason /\
    totalSize position' = totalSize position /\
    tradeHistory a' = tradeHistory a ++ [trade] /\
    t_positionId trade = p_id position /\
    forall now' price' reason',
      closePosition now' idx price' reason' (e', a') = ((e', a'), None).
Proof.
  intros Hidx Hopen.
  destruct (closePosition_open now idx price reason e a position Hidx Hopen)
    as (e' & a' & position' & exit & trade & Hclose
        & (Hpos & Hhist & _) & (Hst & Hreason & Hat & _ & Hexits & Hsize & _)
        & (Hprice & Hexsize & Hexreason & _) & (Htid & _)).
  exists e', a', position', exit, trade.
  split; [exact Hclose|]. split; [exact Hpos|]. split; [exact Hst|].
  split; [exact Hreason|]. split; [exact Hat|]. split; [exact Hexits|].
  split; [exact Hprice|]. split; [exact Hexsize|]. split; [exact Hexreason|].
  split; [exact Hsize|]. split; [exact Hhist|]. split; [exact Htid|].
  intros now' price' reason'. apply closePosition_not_open.
  cbn [snd]. rewrite Hpos. intros p' Hp'.
  rewrite list_lookup_insert_eq in Hp' by (apply lookup_lt_is_Some; eauto).
  injection Hp' as <-. unfold isOpen. now rewrite Hst.
Qed.

(** X20: [closeAllPositions] on an account of the engine leaves it
    without an open position: every position that was open is closed
    (one trade each, in the order of the positions) and every other
    position is left as it was. *)
Theorem closeAllPositions_closes_all (now : Z) (accountId : string)
    (prices : gmap string N) (e : Engine N Metrics)
    (a : PaperAccount N Metrics) :
  getAccount accountId e = Some a ->
  exists a',
    getAccount accountId (fst (closeAllPositions now accountId prices e))
      = Some a' /\
    length (positions a') = length (positions a) /\
    (forall p, In p (positions a') -> isOpen p = false) /\
    (forall i p, positions a !! i = Some p -> isOpen p = false ->
                 positions a' !! i = Some p) /\
    length (snd (closeAllPositions now accountId prices e))
      = length (List.filter isOpen (positions a)).
Proof.
  intros Hget. unfold getAccount in *. unfold closeAllPositions. rewrite Hget.
  match goal with
  | |- context [fold_left ?f _ _] => set (step := f)
  end.
  assert (Hinv : forall k, (k <= length (positions a))%nat ->
            let '((_, ak), trades) := fold_left step (seq 0 k) ((e, a), []) in
            length (positions ak) = length (positions a) /\
            (forall i p, (i < k)%nat -> positions ak !! i = Some p ->
                         isOpen p = false) /\
            (forall i, (k <= i)%nat -> positions ak !! i = positions a !! i) /\
            (forall i p, positions a !! i = Some p -> isOpen p = false ->
                         positions ak !! i = Some p) /\
            length trades = length (List.filter isOpen (take k (positions a)))).
  { induction k as [|k IH]; intros Hk.
    - cbn. split; [reflexivity|]. split; [lia|]. split; [reflexivity|].
      split; [auto|]. now rewrite take_0.
    - rewrite seq_S, fold_left_app. cbn [fold_left Nat.add].
      specialize (IH ltac:(lia)).
      destruct (fold_left step (seq 0 k) (e, a, [])) as [[ek ak] trades].
      destruct IH as (Hlen & Hdone & Hrest & Hkeep & Htrades).
      destruct (lookup_lt_is_Some_2 (positions a) k ltac:(lia)) as [p Hp].
      rewrite (take_S_r _ _ _ Hp), List.filter_app, length_app, <- Htrades.
      unfold step at 1. cbn [snd]. rewrite (Hrest k (le_n _)), Hp.
      destruct (isOpen p) eqn:Hopen.
      + destruct (closePosition_open now k
                    (orElse (prices !! p_symbol p) (currentPrice p)) MANUAL
                    ek ak p) as (e' & a' & p' & exit & trade & -> & (Hpos & _)
                                 & (Hst & _) & _);
          [now rewrite Hrest | exact Hopen |].
        rewrite Hpos. cbn [List.filter]. rewrite Hopen.
        split; [now rewrite length_insert|]. split; [|split; [|split]].
        * intros i q Hi Hq. destruct (Nat.eq_dec i k) as [-> | Hne].
          -- rewrite list_lookup_insert_eq in Hq by lia.
             injection Hq as <-. unfold isOpen. now rewrite Hst.
          -- rewrite list_lookup_insert_ne in Hq by congruence.
             apply (Hdone i q); [lia | exact Hq].
        * intros i Hi. rewrite list_lookup_insert_ne by lia. apply Hrest. lia.
        * intros i q Hq Hclosed. destruct (Nat.eq_dec i k) as [-> | Hne];
            [congruence|].
          rewrite list_lookup_insert_ne by congruence. now apply Hkeep.
        * rewrite length_app. reflexivity.
      + cbn [List.filter]. rewrite Hopen.
        split; [exact Hlen|]. split; [|split; [|split]].
        * intros i q Hi Hq. destruct (Nat.eq_dec i k) as [-> | Hne].
          -- rewrite (Hrest k (le_n _)), Hp in Hq. now injection Hq as <-.
          -- apply (Hdone i q); [lia | exact Hq].
        * intros i Hi. apply Hrest. lia.
        * exact Hkeep.
        * cbn. lia. }
  specialize (Hinv (length (positions a)) (le_n _)).
  destruct (fold_left step (seq 0 (length (positions a))) (e, a, []))
    as [[e' a'] trades].
  destruct Hinv as (Hlen & Hdone & _ & Hkeep & Htrades).
  exists a'. cbn [fst snd accounts set_accounts].
  split; [apply mapGet_mapSet_eq|]. split; [exact Hlen|].
  split; [|split; [exact Hkeep|]].
  - intros p Hp. apply list_elem_of_In, list_elem_of_lookup_1 in Hp.
    destruct Hp as [i Hi]. apply (Hdone i p); [|exact Hi].
    rewrite <- Hlen. apply lookup_lt_is_Some. eauto.
  - now rewrite firstn_all in Htrades.
Qed.

(** X21: a trailing-stop update never loosens the stop: it leaves the
    stop-loss as it was or replaces it by a level that is above a set
    stop of a long position, below a set stop of a short one.  It
    changes neither the status, the size, the targets nor the
    liquidation price. *)
Theorem trailing_stop_only_tightens (position : PaperPosition N) (price : N) :
  let position' := updateTrailingStop position price in
  (stopLoss position' = stopLoss position \/
   exists newSL,
     stopLoss position' = Some newSL /\
     (optTruthy (stopLoss position) = true ->
      match p_direction position with
      | LONG => ngt newSL (optNum (stopLoss position)) = true
      | SHORT => nlt newSL (optNum (stopLoss position)) = true
      end)) /\
  p_status position' = p_status position /\
  totalSize position' = totalSize position /\
  takeProfitTargets position' = takeProfitTargets position /\
  liquidationPrice position' = liquidationPrice position.
Proof.
  cbv zeta. unfold updateTrailingStop.
  destruct (trailingState (tacticsState position)) as [ts|];
    [|split; [now left | repeat split]].
  destruct (activated ts); cbn [negb].
  - destruct (p_direction position) eqn:Hdir.
    + destruct (negb (optTruthy (highestPrice ts))
                || ngt price (optNum (highestPrice ts)));
        [|split; [now left | repeat split]].
      destruct (optTruthy (percentValue ts)); cbn [andb];
        [|split; [now left | repeat split]].
      destruct (optTruthy (stopLoss position)) eqn:Hsl; cbn [negb orb].
      * destruct (ngt _ (optNum (stopLoss position))) eqn:Hgt;
          [|split; [now left | repeat split]].
        split; [|repeat split]. right. eexists. split; [reflexivity|].
        intros _. exact Hgt.
      * split; [|repeat split]. right. eexists. split; [reflexivity|].
        discriminate.
    + destruct (negb (optTruthy (lowestPrice ts))
                || nlt price (optNum (lowestPrice ts)));
        [|split; [now left | repeat split]].
      destruct (optTruthy (percentValue ts)); cbn [andb];
        [|split; [now left | repeat split]].
      destruct (optTruthy (stopLoss position)) eqn:Hsl; cbn [negb orb].
      * destruct (nlt _ (optNum (stopLoss position))) eqn:Hlt;
          [|split; [now left | repeat split]].
        split; [|repeat split]. right. eexists. split; [reflexivity|].
        intros _. exact Hlt.
      * split; [|repeat split]. right. eexists. split; [reflexivity|].
        discriminate.
  - destruct (optTruthy (activationProfit ts) && _);
      split; solve [now left | repeat split].
Qed.

(** X22: [updatePrices] keeps the accounts of the engine under their
    ids and in their order, and leaves every account that is not
    RUNNING exactly as it was. *)
Theorem updatePrices_skips_idle (now : Z) (prices : gmap string N)
    (e : Engine N Metrics) :
  map fst (accounts (updatePrices now prices e)) = map fst (accounts e) /\
  forall accountId a,
    In (accountId, a) (accounts e) -> status a <> RUNNING ->
    In (accountId, a) (accounts (updatePrices now prices e)).
Proof.
  unfold updatePrices.
  match goal with
  | |- context [fold_left ?f _ _] => set (step := f)
  end.
  assert (Hfold : forall l (e0 : Engine N Metrics) done,
            let '(_, accs) := fold_left step l (e0, done) in
            map fst accs = map fst done ++ map fst l /\
            (forall x, In x done -> In x accs) /\
            (forall k x, In (k, x) l -> status x <> RUNNING -> In (k, x) accs)).
  { induction l as [|[k0 a0] l IH]; intros e0 done.
    - cbn. rewrite app_nil_r. split; [reflexivity|]. split; [auto|].
      intros k x [].
    - cbn [fold_left]. unfold step at 2.
      destruct (updatePricesAccount now prices (e0, a0)) as [e1 a1] eqn:Estep.
      specialize (IH e1 (done ++ [(k0, a1)])).
      destruct (fold_left step l (e1, done ++ [(k0, a1)])) as [e2 accs].
      destruct IH as (Hkeys & Hdone & Hidle).
      split; [|split].
      + rewrite Hkeys, map_app, <- app_assoc. reflexivity.
      + intros x Hx. apply Hdone, in_app_iff. now left.
      + intros k x [Heq | Hin] Hstatus; [|now apply (Hidle k x)].
        injection Heq as -> ->.
        rewrite (updatePricesAccount_skips now prices e0 x Hstatus) in Estep.
        injection Estep as _ <-. apply Hdone, in_app_iff. right. now left. }
  specialize (Hfold (accounts e) e []).
  destruct (fold_left step (accounts e) (e, [])) as [e' accs].
  destruct Hfold as (Hkeys & _ & Hidle). cbn [accounts set_accounts].
  split; [exact Hkeys | exact Hidle].
Qed.

(** *** Closing part of a position *)

(** What [partialClose] does to the position and to the trade history. *)
Lemma partialClose_result (now : Z) (idx tpIdx : nat) (price : N)
    (e : Engine N Metrics) (a : PaperAccount N Metrics)
    (position : PaperPosition N) (tp : PaperTPTarget N) :
  positions a !! idx = Some position ->
  takeProfitTargets position !! tpIdx = Some tp ->
  let closeSize := nmul (totalSize position) (ndiv (closePercent tp) (ofZ 100)) in
  let a' := snd (partialClose now idx tpIdx price (e, a)) in
  exists position' exit,
    positions a' = <[idx := position']> (positions a) /\
    (exits position' = exits position ++ [exit] /\
     ex_price exit = price /\ ex_size exit = closeSize /\ ex_reason exit = TP /\
     tpIndex exit = Some (tp_index tp)) /\
    (totalSize position' = nsub (totalSize position) closeSize /\
     takeProfitTargets position'
       = <[tpIdx := {| tp_index := tp_index tp; tp_price := tp_price tp;
                       closePercent := closePercent tp; filled := true;
                       filledAt := Some now |}]> (takeProfitTargets position) /\
     p_symbol position' = p_symbol position /\
     p_direction position' = p_direction position /\
     liquidationPrice position' = liquidationPrice position /\
     tacticsState position' = tacticsState position) /\
    (nle (nsub (totalSize position) closeSize) (ofZ 0) = true ->
     p_status position' = CLOSED /\ closeReason position' = Some TP /\
     closedAt position' = Some now /\
     exists trade, tradeHistory a' = tradeHistory a ++ [trade]) /\
    (nle (nsub (totalSize position) closeSize) (ofZ 0) = false ->
     p_status position' = p_status position /\
     closeReason position' = closeReason position /\
     tradeHistory a' = tradeHistory a).
Proof.
  intros Hidx Htp. unfold partialClose. rewrite Hidx, Htp. cbv zeta.
  cbn [totalSize set_takeProfitTargets set_totalFees set_p_realizedPnl
       set_totalSize set_exits].
  set (closeSize := nmul (totalSize position) (ndiv (closePercent tp) (ofZ 100))).
  destruct (nle (nsub (totalSize position) closeSize) (ofZ 0)) eqn:Hzero;
    match goal with
    | |- context [updateAccountMetrics ?n ?st] =>
        pose proof (updateAccountMetrics_keeps n st) as Hkeep;
        destruct (updateAccountMetrics n st) as [e' a']
    end;
    cbv zeta in Hkeep;
    cbn [snd positions tradeHistory set_positions set_tradeHistory set_balance]
      in Hkeep |- *;
    destruct Hkeep as (Hpos & _ & _ & Hhist & _);
    rewrite Hpos, Hhist;
    eexists; eexists; (split; [reflexivity|]);
    (split; [repeat apply conj; reflexivity|]);
    (split; [repeat apply conj; reflexivity|]).
  - split; [|discriminate]. intros _. repeat apply conj; try reflexivity.
    eexists. reflexivity.
  - split; [discriminate|]. intros _. repeat apply conj; reflexivity.
Qed.

(** What a trailing-stop update leaves alone. *)
Lemma updateTrailingStop_keeps (position : PaperPosition N) (price : N) :
  let position' := updateTrailingStop position price in
  p_status position' = p_status position /\
  closeReason position' = closeReason position /\
  exits position' = exits position /\
  totalSize position' = totalSize position /\
  liquidationPrice position' = liquidationPrice position /\
  p_direction position' = p_direction position.
Proof.
  cbv zeta. unfold updateTrailingStop.
  repeat match goal with
         | |- context [match ?c with _ => _ end] =>
             lazymatch c with
             | context [match _ with _ => _ end] => fail
             | _ => destruct c eqn:?
             end
         end;
    repeat apply conj;
    first [ reflexivity
          | cbn [p_direction set_stopLoss set_trailingState set_tacticsState];
            congruence ].
Qed.

(** *** Opening a position *)

(** The position [createPosition] builds and what it takes from the
    balance. *)
Lemma createPosition_result (now : Z) (symbol : string) (direction : Direction)
    (size price leverage : N) (tacticsSet : option (TacticsSet N))
    (e : Engine N Metrics) (a : PaperAccount N Metrics) :
  exists e' a' position,
    createPosition now symbol direction size price leverage tacticsSet (e, a)
      = ((e', a'), position) /\
    (positions a' = positions a /\
     balance a'
       = nsub (balance a)
           (nadd (ndiv (nmul size price) leverage) (feeOf (config a) size price)) /\
     realizedPnl a' = realizedPnl a /\ tradeHistory a' = tradeHistory a /\
     config a' = config a /\ a_id a' = a_id a /\ status a' = status a) /\
    (p_symbol position = symbol /\ p_status position = OPEN /\
     p_direction position = direction /\ totalSize position = size /\
     avgEntryPrice position = price /\
     margin position = ndiv (nmul size price) leverage /\
     p_realizedPnl position = ofZ 0 /\
     totalFees position = feeOf (config a) size price /\
     exits position = [] /\
     liquidationPrice position
       = Some (calculateLiquidationPrice price direction leverage)).
Proof.
  unfold createPosition. cbv zeta.
  destruct (match tacticsSet with
            | Some t => Some t
            | None => head (tacticsSets (config (set_balance _ a)))
            end) as [tactics|].
  - destruct (tacticsStopLoss tactics direction price) as [sl|];
      destruct (trailingConfig tactics) as [tc|];
      do 3 eexists; (split; [reflexivity|]); split; repeat apply conj;
        reflexivity.
  - do 3 eexists. split; [reflexivity|]. split; repeat apply conj; reflexivity.
Qed.

(** No open position on [symbol]: what [canOpenPosition] requires. *)
Lemma canOpenPosition_fresh (a : PaperAccount N Metrics) (symbol : string) :
  canOpenPosition a symbol = true -> ~ In symbol (openSymbols a).
Proof.
  unfold canOpenPosition, openSymbols. intros Hcan Hin.
  apply andb_true_iff in Hcan. destruct Hcan as [_ Hnone].
  apply negb_true_iff in Hnone.
  apply in_map_iff in Hin. destruct Hin as (p & Hsym & Hp).
  apply filter_In in Hp. destruct Hp as [Hp Hopen].
  assert (Hex : existsb (fun p => isOpen p && String.eqb (p_symbol p) symbol)
                        (positions a) = true).
  { apply existsb_exists. exists p. split; [exact Hp|].
    rewrite Hopen, Hsym. apply String.eqb_refl. }
  congruence.
Qed.

(** An accepted [openPosition]: the engine, the account and the
    position it leaves. *)
Lemma openPosition_accepted (now : Z) (accountId symbol : string)
    (direction : Direction) (size price : N)
    (options : option (OpenOptions N)) (e : Engine N Metrics)
    (a : PaperAccount N Metrics) :
  getAccount accountId e = Some a ->
  canOpenPosition a symbol = true ->
  let leverage := orElse (options ≫= o_leverage) (maxLeverage (config a)) in
  exists e' a' position,
    openPosition now accountId symbol direction size price options e
      = ({| or_success := true; or_position := Some position;
            or_error := None |},
         set_accounts (mapSet accountId a' (accounts e')) e') /\
    (positions a' = positions a ++ [position] /\
     balance a'
       = nsub (balance a)
           (nadd (ndiv (nmul size price) leverage) (feeOf (config a) size price)) /\
     realizedPnl a' = realizedPnl a /\ tradeHistory a' = tradeHistory a /\
     config a' = config a /\ a_id a' = a_id a /\ status a' = status a) /\
    (p_symbol position = symbol /\ p_status position = OPEN /\
     p_direction position = direction /\ totalSize position = size /\
     avgEntryPrice position = price /\
     margin position = ndiv (nmul size price) leverage /\
     p_realizedPnl position = ofZ 0 /\
     totalFees position = feeOf (config a) size price /\
     exits position = [] /\
     liquidationPrice position
       = Some (calculateLiquidationPrice price direction leverage)).
Proof.
  intros Hget Hcan leverage. unfold getAccount in Hget.
  unfold openPosition. rewrite Hget, Hcan. cbn [negb]. fold leverage.
  destruct (createPosition_result now symbol direction size price leverage
              (options ≫= o_tacticsSet) e a)
    as (e1 & a1 & position & -> & (G1 & G2 & G3 & G4 & G5 & G6 & G7)
        & (P1 & P2 & P3 & P4 & P5 & P6 & P7 & P8 & P9 & P10)).
  cbv zeta.
  set (position2 :=
         if optTruthy (options ≫= o_takeProfit)
         then set_takeProfitTargets _ _ else _).
  assert (Hp2 :
    p_symbol position2 = symbol /\ p_status position2 = OPEN /\
    p_direction position2 = direction /\ totalSize position2 = size /\
    avgEntryPrice position2 = price /\
    margin position2 = ndiv (nmul size price) leverage /\
    p_realizedPnl position2 = ofZ 0 /\
    totalFees position2 = feeOf (config a) size price /\
    exits position2 = [] /\
    liquidationPrice position2
      = Some (calculateLiquidationPrice price direction leverage)).
  { unfold position2.
    destruct (optTruthy (options ≫= o_takeProfit));
      destruct (optTruthy (options ≫= o_stopLoss));
      cbn [p_symbol p_status p_direction totalSize avgEntryPrice margin
           p_realizedPnl totalFees exits liquidationPrice
           set_takeProfitTargets set_stopLoss];
      repeat apply conj; assumption. }
  clearbody position2.
  match goal with
  | |- context [recordEquityPoint ?n ?p (updateAccountMetrics ?n' ?st)] =>
      pose proof (bookkeeping_keeps n p st) as Hkeep;
      destruct (recordEquityPoint n p (updateAccountMetrics n' st)) as [e' a']
  end.
  cbv zeta in Hkeep.
  cbn [snd positions balance realizedPnl tradeHistory config a_id status
       initialBalance set_positions] in Hkeep.
  destruct Hkeep as (H1 & H2 & H3 & H4 & H5 & H6 & H7 & H8).
  exists (emitEvent POSITION_OPENED now accountId e'), a', position2.
  split; [reflexivity|]. split; [|exact Hp2].
  repeat apply conj; congruence.
Qed.

(** X23: [openPosition] keeps the open positions of an account on
    distinct symbols.  Refused (limit reached, or a position on the
    symbol already open) it changes nothing; accepted it appends one
    open position on the symbol, which then had none. *)
Theorem openPosition_keeps_symbols_distinct (now : Z)
    (accountId symbol : string) (direction : Direction) (size price : N)
    (options : option (OpenOptions N)) (e : Engine N Metrics)
    (a : PaperAccount N Metrics) :
  getAccount accountId e = Some a ->
  NoDup (openSymbols a) ->
  exists a',
    getAccount accountId
      (snd (openPosition now accountId symbol direction size price options e))
      = Some a' /\
    NoDup (openSymbols a') /\
    (or_success
       (fst (openPosition now accountId symbol direction size price options e))
     = false ->
     snd (openPosition now accountId symbol direction size price options e) = e) /\
    (or_success
       (fst (openPosition now accountId symbol direction size price options e))
     = true ->
     ~ In symbol (openSymbols a) /\
     openSymbols a' = openSymbols a ++ [symbol] /\
     exists position,
       or_position
         (fst (openPosition now accountId symbol direction size price options e))
         = Some position /\
       positions a' = positions a ++ [position] /\
       isOpen position = true /\ p_symbol position = symbol).
Proof.
  intros Hget Hnd. unfold getAccount in *. unfold openPosition. rewrite Hget.
  destruct (canOpenPosition a symbol) eqn:Hcan; cbn [negb].
  2: { exists a. cbn [fst snd or_success]. split; [exact Hget|].
       split; [exact Hnd|]. split; [reflexivity | discriminate]. }
  pose proof (canOpenPosition_fresh a symbol Hcan) as Hfresh.
  destruct (createPosition_result now symbol direction size price
              (orElse (options ≫= o_leverage) (maxLeverage (config a)))
              (options ≫= o_tacticsSet) e a)
    as (e1 & a1 & position & -> & (Hpos1 & _) & (Hsym & Hst & _)).
  cbv zeta.
  set (position2 :=
         if optTruthy (options ≫= o_takeProfit)
         then set_takeProfitTargets _ _ else _).
  assert (Hp2 : p_symbol position2 = symbol /\ isOpen position2 = true).
  { unfold position2, isOpen.
    destruct (optTruthy (options ≫= o_takeProfit));
      destruct (optTruthy (options ≫= o_stopLoss));
      cbn [p_symbol p_status set_takeProfitTargets set_stopLoss];
      rewrite Hsym, Hst; split; reflexivity. }
  destruct Hp2 as [Hsym2 Hopen2].
  match goal with
  | |- context [recordEquityPoint ?n ?p (updateAccountMetrics ?n' ?st)] =>
      pose proof (bookkeeping_keeps n p st) as Hkeep;
      destruct (recordEquityPoint n p (updateAccountMetrics n' st)) as [e' a']
  end.
  cbv zeta in Hkeep. cbn [snd positions set_positions] in Hkeep.
  destruct Hkeep as (Hpos & _). rewrite Hpos1 in Hpos.
  assert (Hsyms : openSymbols a' = openSymbols a ++ [symbol]).
  { unfold openSymbols. rewrite Hpos, List.filter_app, map_app.
    cbn [List.filter]. rewrite Hopen2. cbn [map]. now rewrite Hsym2. }
  exists a'. cbn [fst snd or_success or_position accounts set_accounts].
  split; [apply mapGet_mapSet_eq|]. split; [|split; [discriminate|]].
  - rewrite Hsyms. apply NoDup_app. split; [exact Hnd|]. split.
    + intros x Hx Hx'. apply list_elem_of_In in Hx.
      apply list_elem_of_In in Hx'. destruct Hx' as [<- | []]. contradiction.
    + apply NoDup_singleton.
  - intros _. split; [exact Hfresh|]. split; [exact Hsyms|].
    exists position2. auto.
Qed.

(** *** Candles *)

(** X24: [processCandles] on a running, auto-trading account never
    throws: when the account's strategy is not registered, or when the
    strategy's [populateIndicators] throws, it returns null, emits one
    ERROR event and leaves every account as it was. *)
Theorem processCandles_reports_errors (now : Z) (accountId symbol : string)
    (candles : list Candle) (m : StrategyManager.Manager N S)
    (e : Engine N Metrics) (a : PaperAccount N Metrics) :
  getAccount accountId e = Some a ->
  status a = RUNNING ->
  autoTrading (config a) = true ->
  (StrategyManager.getStrategy (strategyId (config a)) m = None ->
   processCandles now accountId symbol candles m e
     = (m, emitEvent ERROR now accountId e, None)) /\
  (forall strategy err,
     StrategyManager.getStrategy (strategyId (config a)) m = Some strategy ->
     snd (populateIndicators strategy candles) = Throw err ->
     processCandles now accountId symbol candles m e
       = (StrategyManager.setStrategies m
            (<[strategyId (config a) := fst (populateIndicators strategy candles)]>
               (StrategyManager.strategies m)),
          emitEvent ERROR now accountId e, None)).
Proof.
  intros Hget Hrun Hauto. unfold getAccount in Hget.
  unfold processCandles. rewrite Hget, Hrun, Hauto. cbn [isRunning negb].
  split.
  - intros ->. reflexivity.
  - intros strategy err -> Hthrow. unfold processCandlesTry.
    destruct (populateIndicators strategy candles) as [strategy' c].
    cbn [snd] in Hthrow. subst c. cbn [fst].
    rewrite (mapSet_same _ _ _ Hget). now destruct e.
Qed.

(** *** Accounts *)

(** X25: [createAccount] stores an idle account under the id of its
    configuration, funded with the initial balance and without
    positions or trades; [getAccount] returns it, [deleteAccount]
    removes it, and no other account is affected by either. *)
Theorem account_round_trip (now : Z) (cfg : PaperTradingConfig N)
    (e : Engine N Metrics) :
  let e1 := fst (createAccount now cfg e) in
  let account := snd (createAccount now cfg e) in
  getAccount (c_id cfg) e1 = Some account /\
  (a_id account = c_id cfg /\ config account = cfg /\
   balance account = c_initialBalance cfg /\
   initialBalance account = c_initialBalance cfg /\
   positions account = [] /\ tradeHistory account = [] /\
   status account = IDLE) /\
  getAccount (c_id cfg) (deleteAccount (c_id cfg) e1) = None /\
  forall other, other <> c_id cfg ->
    getAccount other e1 = getAccount other e /\
    getAccount other (deleteAccount (c_id cfg) e1) = getAccount other e.
Proof.
  cbv zeta. unfold createAccount. cbv zeta.
  match goal with
  | |- context [recordEquityPoint ?n ?p ?st] =>
      pose proof (recordEquityPoint_keeps n p st) as Hkeep;
      pose proof (recordEquityPoint_accounts n p st) as Haccs;
      destruct (recordEquityPoint n p st) as [e' a']
  end.
  cbv zeta in Hkeep.
  cbn [fst snd positions balance realizedPnl tradeHistory config a_id status
       initialBalance accounts set_lastDay set_dailyPnl
       set_lastEquityRecordTime] in Hkeep, Haccs.
  destruct Hkeep as (H1 & H2 & H3 & H4 & H5 & H6 & H7 & H8).
  unfold getAccount, deleteAccount.
  cbn [fst snd accounts set_accounts set_lastDay set_dailyPnl
       set_lastEquityRecordTime emitEvent set_events].
  rewrite H6, Haccs.
  split; [apply mapGet_mapSet_eq|].
  split; [repeat apply conj; first [assumption | reflexivity]|].
  split; [apply mapGet_mapDelete_eq|].
  intros other Hne.
  rewrite mapGet_mapDelete_ne, mapGet_mapSet_ne by exact Hne.
  split; reflexivity.
Qed.

End Generic.

(** X19 at a long position of size 2, closed at 105. *)
Lemma close_position_once_witness :
  positions (holdingQ longPositionQ) !! 0%nat = Some longPositionQ /\
  isOpen longPositionQ = true /\
  exists e' a' position' exit trade,
    closePosition 9 0 105%Q MANUAL
                  (fst (fst longCreatedQ), holdingQ longPositionQ)
      = ((e', a'), Some trade) /\
    positions a' = <[0%nat := position']> (positions (holdingQ longPositionQ)) /\
    p_status position' = CLOSED /\
    closeReason position' = Some MANUAL /\
    closedAt position' = Some 9 /\
    exits position' = exits longPositionQ ++ [exit] /\
    ex_price exit = 105%Q /\ ex_size exit = totalSize longPositionQ /\
    ex_reason exit = MANUAL /\
    totalSize position' = totalSize longPositionQ /\
    tradeHistory a' = tradeHistory (holdingQ longPositionQ) ++ [trade] /\
    t_positionId trade = p_id longPositionQ /\
    forall now' price' reason',
      closePosition now' 0 price' reason' (e', a') = ((e', a'), None).
Proof.
  split; [reflexivity|]. split; [reflexivity|].
  apply (close_position_once 9 0 105%Q MANUAL (fst (fst longCreatedQ))
           (holdingQ longPositionQ) longPositionQ); reflexivity.
Defined.

(** X20 at the account that holds one open long position. *)
Lemma closeAllPositions_closes_all_witness :
  exists a,
    getAccount "acc" openedQ = Some a /\
    length (List.filter isOpen (positions a)) = 1%nat /\
    exists a',
      getAccount "acc" (fst (closeAllPositions 9 "acc" ∅ openedQ)) = Some a' /\
      length (positions a') = length (positions a) /\
      (forall p, In p (positions a') -> isOpen p = false) /\
      (forall i p, positions a !! i = Some p -> isOpen p = false ->
                   positions a' !! i = Some p) /\
      length (snd (closeAllPositions 9 "acc" ∅ openedQ))
        = length (List.filter isOpen (positions a)).
Proof.
  eexists. split; [vm_compute; reflexivity|]. split; [vm_compute; reflexivity|].
  apply (closeAllPositions_closes_all 9 "acc" ∅ openedQ).
  vm_compute. reflexivity.
Defined.

(** X23 at the account that holds one open position on BTCUSDT and
    opens one on ETHUSDT. *)
Lemma openPosition_keeps_symbols_distinct_witness :
  exists a,
    getAccount "acc" openedQ = Some a /\
    openSymbols a = ["BTCUSDT"] /\
    exists a',
      getAccount "acc"
        (snd (openPosition 3 "acc" "ETHUSDT" SHORT 1%Q 50%Q None openedQ))
        = Some a' /\
      NoDup (openSymbols a') /\
      (or_success
         (fst (openPosition 3 "acc" "ETHUSDT" SHORT 1%Q 50%Q None openedQ))
       = false ->
       snd (openPosition 3 "acc" "ETHUSDT" SHORT 1%Q 50%Q None openedQ)
         = openedQ) /\
      (or_success
         (fst (openPosition 3 "acc" "ETHUSDT" SHORT 1%Q 50%Q None openedQ))
       = true ->
       ~ In "ETHUSDT"%string (openSymbols a) /\
       openSymbols a' = openSymbols a ++ ["ETHUSDT"%string] /\
       exists position,
         or_position
           (fst (openPosition 3 "acc" "ETHUSDT" SHORT 1%Q 50%Q None openedQ))
           = Some position /\
         positions a' = positions a ++ [position] /\
         isOpen position = true /\ p_symbol position = "ETHUSDT"%string).
Proof.
  eexists. split; [vm_compute; reflexivity|]. split; [vm_compute; reflexivity|].
  apply (openPosition_keeps_symbols_distinct 3 "acc" "ETHUSDT" SHORT 1%Q 50%Q
           None openedQ).
  - vm_compute. reflexivity.
  - apply NoDup_singleton.
Defined.

(** X24 at the running sample account and a manager that has no
    strategy registered. *)
Lemma processCandles_reports_errors_witness :
  exists a,
    getAccount "acc" startedEngine = Some a /\
    status a = RUNNING /\ autoTrading (config a) = true /\
    processCandles 2 "acc" "BTCUSDT" oneCandle emptyManager startedEngine
      = (emptyManager, emitEvent ERROR 2 "acc" startedEngine, None).
Proof.
  eexists. split; [vm_compute; reflexivity|].
  match goal with
  | |- status ?a = _ /\ _ =>
      assert (Hget : getAccount "acc" startedEngine = Some a)
        by (vm_compute; reflexivity);
      assert (Hrun : status a = RUNNING) by reflexivity;
      assert (Hauto : autoTrading (config a) = true) by reflexivity
  end.
  split; [exact Hrun|]. split; [exact Hauto|].
  apply (proj1 (processCandles_reports_errors 2 "acc" "BTCUSDT" oneCandle
                  emptyManager startedEngine _ Hget Hrun Hauto)).
  reflexivity.
Defined.

End PositionFacts.

(** ** Further properties: the funds of an account, on exact numbers *)

Module FundsFacts.
Import Js StrategyTypes PaperTrading Statements EngineFacts AccountFacts
  PositionFacts EngineShapes Samples.

Local Open Scope Q_scope.

(** X26: on exact numbers, for a positive entry price and a leverage of
    at least 1, the liquidation price of a long position lies below the
    entry price and is not negative, and that of a short position lies
    above the entry price and is at most twice the entry price. *)
Theorem liquidation_price_side (entry leverage : Q) :
  0 < entry -> 1 <= leverage ->
  0 <= calculateLiquidationPrice entry LONG leverage < entry /\
  entry < calculateLiquidationPrice entry SHORT leverage <= 2 * entry.
Proof.
  intros Hentry Hlev. unfold calculateLiquidationPrice.
  cbn [nmul nsub nadd ndiv ofZ Q_JsNumber].
  assert (Hx : inject_Z 100 / leverage / inject_Z 100 == 1 / leverage).
  { change (inject_Z 100) with 100. field. lra. }
  assert (Hpos : 0 < 1 / leverage) by (apply Qlt_shift_div_l; lra).
  assert (Hle : 1 / leverage <= 1) by (apply Qle_shift_div_r; lra).
  change (inject_Z 1) with 1. rewrite !Hx.
  set (x := 1 / leverage) in *. clearbody x. split; split; nra.
Qed.

Section Exact.
Context {Metrics : Type} `{!MetricsCalculator Q Metrics}.



End Exact.

(** X26 at an entry price of 100 and leverage 10. *)
Lemma liquidation_price_side_witness :
  0 < 100 /\ 1 <= 10 /\
  0 <= calculateLiquidationPrice 100 LONG 10 < 100 /\
  100 < calculateLiquidationPrice 100 SHORT 10 <= 2 * 100.
Proof.
  split; [reflexivity|]. split; [discriminate|].
  apply (liquidation_price_side 100 10); [reflexivity | discriminate].
Defined.



End FundsFacts.

(** ** Further properties: a price tick on one position *)

Module TickFacts.
Import Js StrategyTypes PaperTrading Statements EngineFacts AccountFacts
  PositionFacts EngineShapes Samples.

Section Generic.
Context {N : Type} `{JsNumber N}.
Context {Metrics : Type} `{!MetricsCalculator N Metrics}.

(** The position as the first lines of [updatePositionPrice] leave
    it. *)
Lemma repriced_fields (position : PaperPosition N) (price : N) :
  let position1 :=
    set_unrealizedPnlPercent
      (nmul (ndiv (directionalPnl (set_currentPrice price position) price
                                  (totalSize position))
                  (margin position)) (ofZ 100))
      (set_p_unrealizedPnl
         (directionalPnl (set_currentPrice price position) price
                         (totalSize position))
         (set_currentPrice price position)) in
  stopLossHit position1 price = stopLossHit position price /\
  takeProfitHit position1 price = takeProfitHit position price /\
  isOpen position1 = isOpen position /\
  takeProfitTargets position1 = takeProfitTargets position /\
  tacticsState position1 = tacticsState position /\
  liquidationPrice position1 = liquidationPrice position /\
  p_direction position1 = p_direction position /\
  totalSize position1 = totalSize position /\
  exits position1 = exits position /\
  directionalPnl position1 = directionalPnl position.
Proof. cbv zeta. repeat apply conj; reflexivity. Qed.

(** While no unfilled target is reached, the take-profit loop changes
    nothing. *)
Lemma takeProfit_loop_idle (now : Z) (idx : nat) (price : N)
    (st : St N Metrics) (position : PaperPosition N) (ks : list nat) :
  positions (snd st) !! idx = Some position ->
  takeProfitHit position price = false ->
  fold_left (takeProfitStep now idx price) ks st = st.
Proof.
  intros Hidx Hnone. induction ks as [|k ks IH]; [reflexivity|].
  cbn [fold_left].
  assert (Hstep : takeProfitStep now idx price st k = st).
  { unfold takeProfitStep. rewrite Hidx.
    destruct (takeProfitTargets position !! k) as [tp|] eqn:Hk; [|reflexivity].
    destruct (filled tp) eqn:Hfilled; [reflexivity|].
    destruct (crossed false (p_direction position) price (tp_price tp))
      eqn:Hcross; [|reflexivity].
    unfold takeProfitHit in Hnone.
    assert (Hex : existsb
                    (fun tp => negb (filled tp)
                               && crossed false (p_direction position) price
                                          (tp_price tp))
                    (takeProfitTargets position) = true); [|congruence].
    apply existsb_exists. exists tp. split.
    - apply list_elem_of_In. eapply list_elem_of_lookup_2. exact Hk.
    - now rewrite Hfilled, Hcross. }
  rewrite Hstep. exact IH.
Qed.

(** X29: when a price tick reaches the liquidation price of an open
    position that has no trailing stop, while neither its stop-loss nor
    any unfilled take-profit target is reached, the tick closes the
    whole position at the liquidation price (not at the tick price)
    with reason LIQUIDATION; the status it is left in is CLOSED. *)
Theorem liquidation_closes_position (now : Z) (idx : nat) (price : N)
    (e : Engine N Metrics) (a : PaperAccount N Metrics)
    (position : PaperPosition N) (liq : N) :
  positions a !! idx = Some position ->
  isOpen position = true ->
  stopLossHit position price = false ->
  takeProfitHit position price = false ->
  trailingState (tacticsState position) = None ->
  liquidationPrice position = Some liq ->
  truthy liq = true ->
  crossed true (p_direction position) price liq = true ->
  exists position' exit,
    positions (snd (updatePositionPrice now idx price (e, a))) !! idx
      = Some position' /\
    p_status position' = CLOSED /\
    closeReason position' = Some LIQUIDATION /\
    avgExitPrice position' = Some liq /\
    exits position' = exits position ++ [exit] /\
    ex_price exit = liq /\
    ex_size exit = totalSize position /\
    ex_pnl exit = directionalPnl position liq (totalSize position) /\
    ex_reason exit = LIQUIDATION.
Proof.
  intros Hidx Hopen Hsl Htp Htrail Hliq Htruthy Hcross.
  assert (Hlt : (idx < length (positions a))%nat)
    by (apply lookup_lt_is_Some; eauto).
  unfold updatePositionPrice. rewrite Hidx. cbv zeta.
  destruct (repriced_fields position price)
    as (R1 & R2 & R3 & R4 & R5 & R6 & R7 & R8 & R9 & R10).
  cbv zeta in R1, R2, R3, R4, R5, R6, R7, R8, R9, R10.
  set (position1 := set_unrealizedPnlPercent _ _) in *.
  unfold stopLossHit in R1, Hsl. rewrite <- R1 in Hsl. rewrite Hsl.
  rewrite <- R2 in Htp.
  rewrite (takeProfit_loop_idle now idx price _ position1);
    [| cbn [snd positions set_positions];
       now rewrite list_lookup_insert_eq by exact Hlt
     | exact Htp].
  cbn [positions set_positions].
  rewrite list_lookup_insert_eq by exact Hlt.
  assert (Htrailing : updateTrailingStop position1 price = position1).
  { unfold updateTrailingStop. now rewrite R5, Htrail. }
  rewrite Htrailing, list_insert_insert_eq, R6, Hliq, R7.
  cbn [optTruthy optNum]. rewrite Htruthy, Hcross. cbn [andb].
  match goal with
  | |- context [closePosition ?n ?i ?p ?r (?e0, ?a0)] =>
      destruct (closePosition_open n i p r e0 a0 position1)
        as (e2 & a2 & position' & exit & trade & ->
            & (C1 & _) & (Q1 & Q2 & Q3 & Q4 & Q5 & _)
            & (X1 & X2 & X3 & X4 & _) & _)
  end.
  { cbn [positions set_positions].
    now rewrite list_lookup_insert_eq by exact Hlt. }
  { now rewrite R3. }
  cbn [fst snd]. rewrite C1. cbn [positions set_positions].
  rewrite list_insert_insert_eq, list_lookup_insert_eq by exact Hlt.
  exists position', exit. split; [reflexivity|].
  split; [exact Q1|]. split; [exact Q2|]. split; [exact Q4|].
  split; [now rewrite Q5, R9|]. split; [exact X1|].
  split; [now rewrite X2, R8|]. split; [|exact X3].
  now rewrite X4, R10, R8.
Qed.

End Generic.

Local Open Scope Q_scope.

Section Exact.
Context {Metrics : Type} `{!MetricsCalculator Q Metrics}.

(** X30: on exact numbers, when a price tick reaches the single,
    unfilled 100% take-profit target of an open position whose
    stop-loss is not reached, the tick closes the whole position at
    the target price (not at the tick price) with reason TP and leaves
    no size in it. *)
Theorem take_profit_closes_at_target (now : Z) (idx : nat) (price : Q)
    (e : Engine Q Metrics) (a : PaperAccount Q Metrics)
    (position : PaperPosition Q) (tp : PaperTPTarget Q) :
  positions a !! idx = Some position ->
  isOpen position = true ->
  stopLossHit position price = false ->
  takeProfitTargets position = [tp] ->
  filled tp = false ->
  closePercent tp == 100 ->
  crossed false (p_direction position) price (tp_price tp) = true ->
  exists position' exit,
    positions (snd (updatePositionPrice now idx price (e, a))) !! idx
      = Some position' /\
    p_status position' = CLOSED /\
    closeReason position' = Some TP /\
    exits position' = exits position ++ [exit] /\
    ex_price exit = tp_price tp /\
    ex_size exit == totalSize position /\
    ex_reason exit = TP /\
    totalSize position' == 0.
Proof.
  intros Hidx Hopen Hsl Htargets Hfilled Hfull Hcross.
  assert (Hlt : (idx < length (positions a))%nat)
    by (apply lookup_lt_is_Some; eauto).
  unfold updatePositionPrice. rewrite Hidx. cbv zeta.
  destruct (repriced_fields position price)
    as (R1 & R2 & R3 & R4 & R5 & R6 & R7 & R8 & R9 & R10).
  cbv zeta in R1, R2, R3, R4, R5, R6, R7, R8, R9, R10.
  set (position1 := set_unrealizedPnlPercent _ _) in *.
  unfold stopLossHit in R1, Hsl. rewrite <- R1 in Hsl. rewrite Hsl.
  rewrite R4, Htargets. cbn [length seq fold_left].
  set (a1 := set_positions _ a).
  assert (Hidx1 : positions a1 !! idx = Some position1).
  { unfold a1. cbn [positions set_positions].
    now rewrite list_lookup_insert_eq by exact Hlt. }
  assert (Htp1 : takeProfitTargets position1 !! 0%nat = Some tp)
    by now rewrite R4, Htargets.
  unfold takeProfitStep at 1. cbn [snd]. rewrite Hidx1, Htp1, Hfilled, R7, Hcross.
  destruct (partialClose_result now idx 0 (tp_price tp) e a1 position1 tp
              Hidx1 Htp1)
    as (p2 & exit & Hpos2 & (Hexits & Hexprice & Hexsize & Hexreason & _)
        & (Hsize & _) & Hclosed & _).
  cbv zeta in Hpos2, Hclosed.
  assert (Hone : closePercent tp / 100 == 1).
  { rewrite Hfull. reflexivity. }
  assert (Hzero : nle (nsub (totalSize position1)
                            (nmul (totalSize position1)
                                  (ndiv (closePercent tp) (ofZ 100))))
                      (ofZ 0) = true).
  { cbn [nle nsub nmul ndiv ofZ Q_JsNumber]. apply Qle_bool_iff.
    change (inject_Z 100) with 100. change (inject_Z 0) with 0.
    rewrite Hone. lra. }
  destruct (Hclosed Hzero) as (Hst2 & Hreason2 & _).
  destruct (partialClose now idx 0 (tp_price tp) (e, a1)) as [e2 a2].
  cbn [snd] in Hpos2.
  assert (Hlt1 : (idx < length (positions a1))%nat)
    by (apply lookup_lt_is_Some; eauto).
  rewrite Hpos2, list_lookup_insert_eq by exact Hlt1.
  destruct (updateTrailingStop_keeps p2 price) as (K1 & K2 & K3 & K4 & _).
  cbv zeta in K1, K2, K3, K4.
  set (p3 := updateTrailingStop p2 price) in *.
  set (a3 := set_positions _ a2).
  assert (Hidx3 : positions a3 !! idx = Some p3).
  { unfold a3. cbn [positions set_positions]. rewrite list_insert_insert_eq.
    now rewrite list_lookup_insert_eq by exact Hlt1. }
  assert (Hfinal : forall c : bool,
            positions (snd (if c
                            then fst (closePosition now idx
                                        (optNum (liquidationPrice p3))
                                        LIQUIDATION (e2, a3))
                            else (e2, a3))) !! idx = Some p3).
  { intros c. rewrite closePosition_not_open.
    - destruct c; exact Hidx3.
    - cbn [snd]. rewrite Hidx3. intros p [= <-]. unfold isOpen.
      now rewrite K1, Hst2. }
  exists p3, exit. split; [apply Hfinal|].
  split; [now rewrite K1|]. split; [now rewrite K2|].
  split; [now rewrite K3, Hexits, R9|]. split; [exact Hexprice|].
  split; [|split; [exact Hexreason|]].
  - rewrite Hexsize, R8. cbn [nmul ndiv ofZ Q_JsNumber].
    change (inject_Z 100) with 100. rewrite Hone. ring.
  - rewrite K4, Hsize, R8. cbn [nsub nmul ndiv ofZ Q_JsNumber].
    change (inject_Z 100) with 100. rewrite Hone. ring.
Qed.

End Exact.

(** X29 at a long position opened at 100 with leverage 10, whose
    liquidation price is 90, and a tick of 89. *)
Lemma liquidation_closes_position_witness :
  calculateLiquidationPrice 100 LONG 10 == 90 /\
  crossed true (p_direction longPositionQ) 89
          (calculateLiquidationPrice 100 LONG 10) = true /\
  exists position' exit,
    positions (snd (updatePositionPrice 9 0 89
                      (fst (fst longCreatedQ), holdingQ longPositionQ)))
      !! 0%nat = Some position' /\
    p_status position' = CLOSED /\
    closeReason position' = Some LIQUIDATION /\
    avgExitPrice position' = Some (calculateLiquidationPrice 100 LONG 10) /\
    exits position' = exits longPositionQ ++ [exit] /\
    ex_price exit = calculateLiquidationPrice 100 LONG 10 /\
    ex_size exit = totalSize longPositionQ /\
    ex_pnl exit
      = directionalPnl longPositionQ (calculateLiquidationPrice 100 LONG 10)
                       (totalSize longPositionQ) /\
    ex_reason exit = LIQUIDATION.
Proof.
  split; [vm_compute; reflexivity|]. split; [vm_compute; reflexivity|].
  apply (liquidation_closes_position 9 0 89 (fst (fst longCreatedQ))
           (holdingQ longPositionQ) longPositionQ
           (calculateLiquidationPrice 100 LONG 10));
    vm_compute; reflexivity.
Defined.

(** X30 at a long position with a 100% target at 110 and a tick of
    111. *)
Lemma take_profit_closes_at_target_witness :
  positions (holdingQ (longWithTargetQ 100)) !! 0%nat
    = Some (longWithTargetQ 100) /\
  crossed false (p_direction (longWithTargetQ 100)) 111
          (tp_price (targetQ 100)) = true /\
  exists position' exit,
    positions (snd (updatePositionPrice 9 0 111
                      (fst (fst longCreatedQ), holdingQ (longWithTargetQ 100))))
      !! 0%nat = Some position' /\
    p_status position' = CLOSED /\
    closeReason position' = Some TP /\
    exits position' = exits (longWithTargetQ 100) ++ [exit] /\
    ex_price exit = tp_price (targetQ 100) /\
    ex_size exit == totalSize (longWithTargetQ 100) /\
    ex_reason exit = TP /\
    totalSize position' == 0.
Proof.
  split; [reflexivity|]. split; [vm_compute; reflexivity|].
  apply (take_profit_closes_at_target 9 0 111 (fst (fst longCreatedQ))
           (holdingQ (longWithTargetQ 100)) (longWithTargetQ 100)
           (targetQ 100)); vm_compute; reflexivity.
Defined.

End TickFacts.
